(** * Medication question-answering backend: model and verified properties

    Shallow embedding of [medication_processor.py] (class MedicationProcessor)
    and [question_answering.py] (class QuestionAnsweringEngine).

    Modelling conventions.
    - A Python [str] is a Rocq [string]; case, whitespace and word-character
      classification follow Python on the ASCII range, other bytes pass
      through unchanged and belong to no class.
    - A Python [dict] is an insertion-ordered association list ([Dict.t]):
      assigning to a present key keeps its position and replaces its value.
    - A pandas DataFrame is a list of column names and a list of labelled
      rows of cells.  The first model is of data sets every column of
      which [pd.read_csv] reads as text: there a cell is a text or the
      missing value NaN.  The module [Raw] is the model of data sets with
      numeric columns, where a cell may be a number.  The column names are
      taken to be distinct once stripped.  The column [Price_Numeric] is
      kept beside the cells of each row.
    - The two pandas routines the code calls on cell contents,
      [pd.to_numeric] and [Series.str.contains], are parameters of the
      model; in [Raw] the second may refuse its pattern.
    - The regular expressions of the code are written as syntax trees and
      run by a backtracking matcher with the semantics of [re.search].
    - Exceptions are explicit: a fallible operation returns [result]. *)

From Stdlib Require Import List String Ascii Bool Arith PeanoNat ZArith QArith Lia.
From Stdlib Require Import DecimalString DecimalNat.
Import ListNotations.
Close Scope Q_scope.
Open Scope string_scope.
Open Scope bool_scope.

(* ================================================================= *)
(** ** Python built-ins on strings *)

Module Py.

Definition is_upper (c : ascii) : bool :=
  (("A" <=? c)%char && (c <=? "Z")%char).

Definition is_lower (c : ascii) : bool :=
  (("a" <=? c)%char && (c <=? "z")%char).

Definition is_digit (c : ascii) : bool :=
  (("0" <=? c)%char && (c <=? "9")%char).

(** [str.isspace] on one character: TAB, LF, VT, FF, CR, the separators
    0x1c to 0x1f, and the space. *)
Definition isspace (c : ascii) : bool :=
  (("009" <=? c)%char && (c <=? "013")%char)
  || (("028" <=? c)%char && (c <=? "032")%char).

(** The class [\w] of the [re] module. *)
Definition isword (c : ascii) : bool :=
  is_lower c || is_upper c || is_digit c || (c =? "_")%char.

Definition lower_char (c : ascii) : ascii :=
  if is_upper c then ascii_of_N (N_of_ascii c + 32) else c.

(** [s.lower()] *)
Fixpoint lower (s : string) : string :=
  match s with
  | EmptyString => EmptyString
  | String c s' => String (lower_char c) (lower s')
  end.

(** [s.lstrip()] *)
Fixpoint lstrip (s : string) : string :=
  match s with
  | EmptyString => EmptyString
  | String c s' => if isspace c then lstrip s' else s
  end.

(** [s.rstrip()] *)
Fixpoint rstrip (s : string) : string :=
  match s with
  | EmptyString => EmptyString
  | String c s' =>
      match rstrip s' with
      | EmptyString => if isspace c then EmptyString else String c EmptyString
      | r => String c r
      end
  end.

(** [s.strip()] *)
Definition strip (s : string) : string := rstrip (lstrip s).

(** [needle in hay] for two strings. *)
Fixpoint str_in (needle hay : string) : bool :=
  prefix needle hay ||
  match hay with
  | EmptyString => false
  | String _ hay' => str_in needle hay'
  end.

(** [s.endswith(suffix)] *)
Fixpoint endswith (s suffix : string) : bool :=
  (s =? suffix) ||
  match s with
  | EmptyString => false
  | String _ s' => endswith s' suffix
  end.

(** [s.split()]: the maximal runs of non-whitespace characters. *)
Fixpoint split (s : string) : list string :=
  match s with
  | EmptyString => []
  | String c s' =>
      if isspace c then split s'
      else match s' with
           | EmptyString => [String c EmptyString]
           | String d _ =>
               if isspace d then String c EmptyString :: split s'
               else match split s' with
                    | w :: ws => String c w :: ws
                    | [] => [String c EmptyString]
                    end
           end
  end.

(** [sep.join(parts)] *)
Fixpoint join (sep : string) (parts : list string) : string :=
  match parts with
  | [] => EmptyString
  | [w] => w
  | w :: rest => w ++ sep ++ join sep rest
  end.

(** [str(n)] for a non-negative integer. *)
Definition str_of_nat (n : nat) : string :=
  NilEmpty.string_of_uint (Nat.to_uint n).

(** [re.sub(r'\s+', ' ', s)]: every maximal run of whitespace becomes one
    space.  [in_run] tells that the previous character was whitespace. *)
Fixpoint sub_spaces (in_run : bool) (s : string) : string :=
  match s with
  | EmptyString => EmptyString
  | String c s' =>
      if isspace c
      then if in_run then sub_spaces true s'
           else String " " (sub_spaces true s')
      else String c (sub_spaces false s')
  end.

Definition re_sub_spaces (s : string) : string := sub_spaces false s.

(** [list[:n]] for an integer [n]: a negative [n] counts from the end. *)
Definition slice_to {A : Type} (l : list A) (n : Z) : list A :=
  if (n <? 0)%Z then firstn (Z.to_nat (Z.of_nat (List.length l) + n)) l
  else firstn (Z.to_nat n) l.

End Py.

(* ================================================================= *)
(** ** QuestionAnsweringEngine._preprocess_text *)

Definition _preprocess_text (text : string) : string :=
  let text := Py.lower text in
  let text := Py.strip (Py.re_sub_spaces text) in
  text.

(** The normalizer as the specification words it, without the removal of
    punctuation: the lowercased words of the text joined by single spaces. *)
Definition normalize_words (text : string) : string :=
  Py.join " " (Py.split (Py.lower text)).

(* ================================================================= *)
(** ** The fragment of Python's [re] module the engine uses

    A backtracking matcher in continuation style: alternatives are tried
    left to right, quantifiers are greedy, and [search] returns the match
    at the leftmost position that has one. *)

Module Re.

Inductive regex : Type :=
| Eps
| Chr (c : ascii)                 (* a literal character *)
| Seq (a b : regex)
| Alt (a b : regex)               (* a|b *)
| Opt (a : regex)                 (* a? *)
| Plus (cls : ascii -> bool)      (* [cls]+ *)
| Grp (n : nat) (a : regex)       (* capturing group number n *)
| Bnd.                            (* \b *)

(** A literal string as a regex. *)
Fixpoint lit (s : string) : regex :=
  match s with
  | EmptyString => Eps
  | String c s' => Seq (Chr c) (lit s')
  end.

(** The groups captured so far, most recent first. *)
Definition groups := list (nat * string).

Fixpoint group (n : nat) (g : groups) : option string :=
  match g with
  | [] => None
  | (m, s) :: g' => if Nat.eqb m n then Some s else group n g'
  end.

Definition head (s : string) : option ascii :=
  match s with
  | EmptyString => None
  | String c _ => Some c
  end.

Definition isword_opt (c : option ascii) : bool :=
  match c with
  | Some c => Py.isword c
  | None => false
  end.

(** [\b] holds between two positions exactly when one side is a word
    character and the other is not (the ends of the text count as not). *)
Definition boundary (prev next : option ascii) : bool :=
  xorb (isword_opt prev) (isword_opt next).

(** A continuation receives the last character consumed, the rest of the
    text and the groups. *)
Definition cont := option ascii -> string -> groups -> option groups.

Fixpoint star_cls (cls : ascii -> bool) (prev : option ascii) (s : string)
    (g : groups) (k : cont) {struct s} : option groups :=
  match s with
  | EmptyString => k prev s g
  | String c s' =>
      if cls c
      then match star_cls cls (Some c) s' g k with
           | Some r => Some r
           | None => k prev s g
           end
      else k prev s g
  end.

Fixpoint rmatch (r : regex) (prev : option ascii) (s : string)
    (g : groups) (k : cont) {struct r} : option groups :=
  match r with
  | Eps => k prev s g
  | Chr c =>
      match s with
      | EmptyString => None
      | String x s' => if (x =? c)%char then k (Some x) s' g else None
      end
  | Seq a b => rmatch a prev s g (fun prev' s' g' => rmatch b prev' s' g' k)
  | Alt a b =>
      match rmatch a prev s g k with
      | Some res => Some res
      | None => rmatch b prev s g k
      end
  | Opt a =>
      match rmatch a prev s g k with
      | Some res => Some res
      | None => k prev s g
      end
  | Plus cls =>
      match s with
      | EmptyString => None
      | String x s' => if cls x then star_cls cls (Some x) s' g k else None
      end
  | Grp n a =>
      rmatch a prev s g
        (fun prev' s' g' =>
           k prev' s' ((n, substring 0 (length s - length s') s) :: g'))
  | Bnd => if boundary prev (head s) then k prev s g else None
  end.

Definition accept : cont := fun _ _ g => Some g.

Fixpoint search_from (r : regex) (prev : option ascii) (s : string)
    : option groups :=
  match rmatch r prev s [] accept with
  | Some g => Some g
  | None =>
      match s with
      | EmptyString => None
      | String c s' => search_from r (Some c) s'
      end
  end.

(** [re.search(pattern, text)]: the groups of the leftmost match. *)
Definition search (r : regex) (text : string) : option groups :=
  search_from r None text.

End Re.

(* ================================================================= *)
(** ** Exceptions *)

Inductive exn : Type :=
| KeyError (key : string)
| AttributeError
| TypeError
| ReError.                     (* re.error: the pattern does not compile *)

Inductive result (A : Type) : Type :=
| Ok (a : A)
| Raise (e : exn).
Arguments Ok {A} a.
Arguments Raise {A} e.

Definition bind {A B : Type} (m : result A) (f : A -> result B) : result B :=
  match m with
  | Ok a => f a
  | Raise e => Raise e
  end.

Notation "x <- m ;; k" := (bind m (fun x => k))
  (at level 61, m at next level, right associativity).

(** Left-to-right filtering stopping at the first exception. *)
Fixpoint filterM {A : Type} (f : A -> result bool) (l : list A) : result (list A) :=
  match l with
  | [] => Ok []
  | a :: l' =>
      keep <- f a ;; rest <- filterM f l' ;;
      Ok (if keep then a :: rest else rest)
  end.

(* ================================================================= *)
(** ** Insertion-ordered dictionaries *)

Class Eqb (K : Type) : Type := {
  eqb : K -> K -> bool;
  eqb_eq : forall a b : K, eqb a b = true <-> a = b
}.

#[export] Instance string_Eqb : Eqb string :=
  {| eqb := String.eqb; eqb_eq := String.eqb_eq |}.

Module Dict.
Section Dict.
Context {K V : Type} {EK : Eqb K}.

Definition t : Type := list (K * V).

Definition empty : t := [].

(** [d.get(k)] *)
Fixpoint get (k : K) (d : t) : option V :=
  match d with
  | [] => None
  | (k', v) :: d' => if eqb k' k then Some v else get k d'
  end.

(** [d[k] = v] *)
Fixpoint set (k : K) (v : V) (d : t) : t :=
  match d with
  | [] => [(k, v)]
  | (k', v') :: d' =>
      if eqb k' k then (k', v) :: d' else (k', v') :: set k v d'
  end.

(** [k in d] *)
Definition mem (k : K) (d : t) : bool :=
  match get k d with
  | Some _ => true
  | None => false
  end.

Definition items (d : t) : list (K * V) := d.
Definition keys (d : t) : list K := map fst d.
Definition values (d : t) : list V := map snd d.
End Dict.
Arguments t : clear implicits.
End Dict.

(* ================================================================= *)
(** ** Data frames *)

(** A cell of the data set: text, or the missing value. *)
Inductive cell : Type :=
| NaN
| Str (s : string).

(** A value of the column [Price_Numeric]. *)
Inductive float : Type :=
| FNaN
| FInf (negative : bool)
| FNum (q : Q).

Record Row : Type := {
  label : nat;                 (* the index label of the row *)
  cells : list cell;           (* by column position; short rows end in NaN *)
  Price_Numeric : float        (* meaningful once the column exists *)
}.

Record DataFrame : Type := {
  columns : list string;
  body : list Row
}.

Definition cell_eqb (a b : cell) : bool :=
  match a, b with
  | NaN, NaN => true
  | Str x, Str y => String.eqb x y
  | _, _ => false
  end.

(** [x == s] for a cell and a string: the missing value equals nothing. *)
Definition cell_is (c : cell) (s : string) : bool :=
  match c with
  | NaN => false
  | Str x => String.eqb x s
  end.

(** Truth value of a string. *)
Definition truthy (s : string) : bool := negb (String.eqb s "").

(** [pd.notna(c) and c] *)
Definition notna_and_truthy (c : cell) : bool :=
  match c with
  | NaN => false
  | Str s => truthy s
  end.

Fixpoint position (name : string) (cols : list string) : option nat :=
  match cols with
  | [] => None
  | c :: cols' =>
      if String.eqb c name then Some 0
      else option_map S (position name cols')
  end.

(** [name in df.columns] *)
Definition has_column (df : DataFrame) (name : string) : bool :=
  match position name (columns df) with
  | Some _ => true
  | None => false
  end.

(** [row.get(name)]: [None] when the frame has no such column. *)
Definition row_get (df : DataFrame) (r : Row) (name : string) : option cell :=
  option_map (fun i => nth i (cells r) NaN) (position name (columns df)).

(** [row.get(name, '')] *)
Definition row_get_default (df : DataFrame) (r : Row) (name : string) : cell :=
  match row_get df r name with
  | Some c => c
  | None => Str ""
  end.

(** [df[name]] *)
Definition column (df : DataFrame) (name : string) : result (list cell) :=
  match position name (columns df) with
  | Some i => Ok (map (fun r => nth i (cells r) NaN) (body df))
  | None => Raise (KeyError name)
  end.

(** [df[df[name] satisfies p]]: the rows kept carry their labels. *)
Definition select (df : DataFrame) (name : string) (p : cell -> bool)
    : result DataFrame :=
  match position name (columns df) with
  | Some i =>
      Ok {| columns := columns df;
            body := filter (fun r => p (nth i (cells r) NaN)) (body df) |}
  | None => Raise (KeyError name)
  end.

(** [df[p(df['Price_Numeric'])]] *)
Definition select_price (df : DataFrame) (p : float -> bool) : result DataFrame :=
  if has_column df "Price_Numeric"
  then Ok {| columns := columns df;
             body := filter (fun r => p (Price_Numeric r)) (body df) |}
  else Raise (KeyError "Price_Numeric").

(** [x >= m] and [x <= m] on a float and a number: false on NaN. *)
Definition float_ge (x : float) (m : Q) : bool :=
  match x with
  | FNaN => false
  | FInf negative => negb negative
  | FNum q => Qle_bool m q
  end.

Definition float_le (x : float) (m : Q) : bool :=
  match x with
  | FNaN => false
  | FInf negative => negative
  | FNum q => Qle_bool q m
  end.

(** [series.dropna()] *)
Fixpoint dropna (l : list cell) : list string :=
  match l with
  | [] => []
  | NaN :: l' => dropna l'
  | Str s :: l' => s :: dropna l'
  end.

(** [series.unique()]: the values in order of first appearance. *)
Definition unique (l : list string) : list string :=
  fold_left
    (fun seen x => if existsb (String.eqb x) seen then seen else (seen ++ [x])%list)
    l [].

Fixpoint insert_sorted (x : string) (l : list string) : list string :=
  match l with
  | [] => [x]
  | y :: l' => if String.leb x y then x :: l else y :: insert_sorted x l'
  end.

(** [sorted(l)] on strings. *)
Definition sorted (l : list string) : list string :=
  fold_right insert_sorted [] l.

(** The frame [pd.read_csv] returns: the header and the lines of cells,
    labelled by position. *)
Definition enumerate {A : Type} (l : list A) : list (nat * A) :=
  combine (seq 0 (List.length l)) l.

Definition pad (n : nat) (cs : list cell) : list cell :=
  firstn n (cs ++ repeat NaN n)%list.

Definition frame (header : list string) (lines : list (list cell)) : DataFrame :=
  {| columns := header;
     body := map (fun '(i, cs) =>
                    {| label := i;
                       cells := pad (List.length header) cs;
                       Price_Numeric := FNaN |})
                 (enumerate lines) |}.

(* ================================================================= *)
(** ** MedicationProcessor *)

(** The value of a key of a medication: a cell, or the list of side
    effects. *)
Inductive value : Type :=
| VCell (c : cell)
| VList (l : list cell).

Definition value_eqb (a b : value) : bool :=
  match a, b with
  | VCell x, VCell y => cell_eqb x y
  | VList x, VList y =>
      (List.length x =? List.length y)%nat
      && forallb (fun '(c, d) => cell_eqb c d) (combine x y)
  | _, _ => false
  end.

Definition medication : Type := Dict.t string value.

Record MedicationProcessor : Type := {
  df : option DataFrame;
  medications_dict : Dict.t string medication;
  categories : list string;
  trade_name_index : Dict.t string nat;
  generic_name_index : Dict.t string nat;
  category_index : Dict.t string string
}.

(** [MedicationProcessor()] *)
Definition __init__ : MedicationProcessor :=
  {| df := None; medications_dict := []; categories := [];
     trade_name_index := []; generic_name_index := []; category_index := [] |}.

Definition set_df (self : MedicationProcessor) (d : DataFrame) :=
  {| df := Some d; medications_dict := medications_dict self;
     categories := categories self;
     trade_name_index := trade_name_index self;
     generic_name_index := generic_name_index self;
     category_index := category_index self |}.

Definition set_medications_dict (self : MedicationProcessor) (m : Dict.t string medication) :=
  {| df := df self; medications_dict := m; categories := categories self;
     trade_name_index := trade_name_index self;
     generic_name_index := generic_name_index self;
     category_index := category_index self |}.

Definition set_categories (self : MedicationProcessor) (cs : list string)
    (ci : Dict.t string string) :=
  {| df := df self; medications_dict := medications_dict self;
     categories := cs;
     trade_name_index := trade_name_index self;
     generic_name_index := generic_name_index self;
     category_index := ci |}.

Definition set_trade_name_index (self : MedicationProcessor) (ix : Dict.t string nat) :=
  {| df := df self; medications_dict := medications_dict self;
     categories := categories self;
     trade_name_index := ix;
     generic_name_index := generic_name_index self;
     category_index := category_index self |}.

Definition set_generic_name_index (self : MedicationProcessor) (ix : Dict.t string nat) :=
  {| df := df self; medications_dict := medications_dict self;
     categories := categories self;
     trade_name_index := trade_name_index self;
     generic_name_index := ix;
     category_index := category_index self |}.

(** [df.fillna('')] *)
Definition fillna (d : DataFrame) : DataFrame :=
  {| columns := columns d;
     body := map (fun r =>
                    {| label := label r;
                       cells := map (fun c => match c with
                                              | NaN => Str ""
                                              | Str s => Str s
                                              end) (cells r);
                       Price_Numeric := Price_Numeric r |})
                 (body d) |}.

(** One pass of the name-index loops of [_create_indexes]. *)
Definition index_names (names : list cell) (ix : Dict.t string nat)
    : Dict.t string nat :=
  fold_left
    (fun ix '(idx, name) =>
       match name with
       | Str s => if truthy s then Dict.set (Py.lower s) idx ix else ix
       | NaN => ix
       end)
    (enumerate names) ix.

Definition _create_indexes (self : MedicationProcessor)
    : result MedicationProcessor :=
  match df self with
  | None => Raise AttributeError
  | Some d =>
      self <- (if has_column d "Category"
               then col <- column d "Category" ;;
                    let cats := sorted (unique (dropna col)) in
                    Ok (set_categories self cats
                          (fold_left
                             (fun ix category =>
                                Dict.set (Py.lower category) category ix)
                             cats (category_index self)))
               else Ok self) ;;
      self <- (if has_column d "Trade_Name"
               then col <- column d "Trade_Name" ;;
                    Ok (set_trade_name_index self
                          (index_names col (trade_name_index self)))
               else Ok self) ;;
      (if has_column d "Generic_Name"
       then col <- column d "Generic_Name" ;;
            Ok (set_generic_name_index self
                  (index_names col (generic_name_index self)))
       else Ok self)
  end.

(** The side effects of a row: the non-empty cells of the columns
    [Side_Effect_1] to [Side_Effect_9] that exist. *)
Definition side_effects_of (d : DataFrame) (r : Row) : list cell :=
  flat_map
    (fun i =>
       match row_get d r ("Side_Effect_" ++ Py.str_of_nat i) with
       | Some c => if notna_and_truthy c then [c] else []
       | None => []
       end)
    (seq 1 9).

Definition LF : string := String "010" EmptyString.

(** The dictionary built for one row. *)
Definition medication_of (d : DataFrame) (r : Row) : medication :=
  [ ("id", VCell (Str (Py.str_of_nat (label r))));
    ("SN", VCell (row_get_default d r "SN."));
    ("Trade_Name", VCell (row_get_default d r "Trade_Name"));
    ("Strength", VCell (row_get_default d r ("Strenght/" ++ LF ++ "Conc.")));
    ("Dosage_Form", VCell (row_get_default d r "Dosage_Form"));
    ("Quantity_of_Dosage_Form", VCell (row_get_default d r "Quantity_of_Dosage_Form"));
    ("Price", VCell (row_get_default d r "Price"));
    ("Generic_Name", VCell (row_get_default d r "Generic_Name"));
    ("Local_Import", VCell (row_get_default d r "Local/Import"));
    ("Category", VCell (row_get_default d r "Category"));
    ("Indications_for_Use", VCell (row_get_default d r "Indications_for_Use"));
    ("Side_Effects", VList (side_effects_of d r));
    ("Image_URL", VCell (row_get_default d r "Image_URL")) ].

Definition _create_medications_dict (self : MedicationProcessor)
    : result MedicationProcessor :=
  match df self with
  | None => Raise AttributeError
  | Some d =>
      Ok (set_medications_dict self
            (fold_left
               (fun m r => Dict.set (Py.str_of_nat (label r)) (medication_of d r) m)
               (body d) (medications_dict self)))
  end.

(** [medication[key]] *)
Definition getitem (m : medication) (key : string) : result value :=
  match Dict.get key m with
  | Some v => Ok v
  | None => Raise (KeyError key)
  end.

(** [v.lower()]: defined on strings only. *)
Definition lower_of (v : value) : result string :=
  match v with
  | VCell (Str s) => Ok (Py.lower s)
  | _ => Raise AttributeError
  end.

(** [needle in medication[key].lower()] *)
Definition field_contains (med : medication) (key needle : string) : result bool :=
  v <- getitem med key ;; s <- lower_of v ;; Ok (Py.str_in needle s).

(** [a or b] on fallible tests: [b] is not evaluated when [a] holds. *)
Definition orM (a b : result bool) : result bool :=
  x <- a ;; if x then Ok true else b.

(** The records of the rows of a frame, by label. *)
Definition records_of (self : MedicationProcessor) (d : DataFrame) : list medication :=
  flat_map
    (fun r =>
       match Dict.get (Py.str_of_nat (label r)) (medications_dict self) with
       | Some med => [med]
       | None => []
       end)
    (body d).

(** Truth value of [limit]: [None] and [0] are false. *)
Definition limit_set (limit : option Z) : option Z :=
  match limit with
  | Some n => if (n =? 0)%Z then None else Some n
  | None => None
  end.

Definition get_medications (self : MedicationProcessor)
    (search category : string) (limit : option Z) : result (list medication) :=
  if negb (truthy search) && negb (truthy category)
  then
    let results := Dict.values (medications_dict self) in
    Ok (match limit_set limit with
        | Some n => Py.slice_to results n
        | None => results
        end)
  else
    results <- (if truthy category
                then match df self with
                     | Some d =>
                         filtered_df <- select d "Category" (fun c => cell_is c category) ;;
                         Ok (records_of self filtered_df)
                     | None => Ok []
                     end
                else Ok (Dict.values (medications_dict self))) ;;
    results <- (if truthy search
                then let search := Py.lower search in
                     filterM
                       (fun med =>
                          orM (field_contains med "Trade_Name" search)
                            (orM (field_contains med "Generic_Name" search)
                               (orM (field_contains med "Category" search)
                                  (field_contains med "Indications_for_Use" search))))
                       results
                else Ok results) ;;
    Ok (match limit_set limit with
        | Some n =>
            if (n <? Z.of_nat (List.length results))%Z
            then Py.slice_to results n else results
        | None => results
        end).

(** The criteria of an advanced search; [None] is an absent key or null. *)
Record Criteria : Type := {
  trade_name : option string;
  generic_name : option string;
  category : option string;
  min_price : option Q;
  max_price : option Q;
  indication : option string
}.

(** ['key' in criteria and criteria['key']] for a text criterion. *)
Definition given (c : option string) : option string :=
  match c with
  | Some s => if truthy s then Some s else None
  | None => None
  end.

Section Pandas.

(** [pd.to_numeric(x, errors='coerce')] on the text of one cell. *)
Variable to_numeric : string -> float.

(** [Series.str.contains(pat, case=False)] on one string: the pattern,
    then the text. *)
Variable str_contains : string -> string -> bool.

Definition to_numeric_cell (c : cell) : float :=
  match c with
  | NaN => FNaN
  | Str s => to_numeric s
  end.

Definition clean (d : DataFrame) : DataFrame :=
  let d := fillna d in
  let d := {| columns := map Py.strip (columns d); body := body d |} in
  if has_column d "Price"
  then {| columns := if has_column d "Price_Numeric" then columns d
                     else (columns d ++ ["Price_Numeric"])%list;
          body := map (fun r =>
                         {| label := label r; cells := cells r;
                            Price_Numeric :=
                              to_numeric_cell (row_get_default d r "Price") |})
                      (body d) |}
  else d.

Definition _clean_data (self : MedicationProcessor) : result MedicationProcessor :=
  match df self with
  | None => Raise AttributeError
  | Some d => Ok (set_df self (clean d))
  end.

(** [load_data]: [source] is what [pd.read_csv] gives, a frame or an
    exception.  Any exception is caught and reported as [false]. *)
Definition load_data (self : MedicationProcessor) (source : result DataFrame)
    : MedicationProcessor * bool :=
  match source with
  | Raise _ => (self, false)
  | Ok d =>
      let self := set_df self d in
      match _clean_data self with
      | Raise _ => (self, false)
      | Ok self =>
          match _create_indexes self with
          | Raise _ => (self, false)
          | Ok self =>
              match _create_medications_dict self with
              | Raise _ => (self, false)
              | Ok self => (self, true)
              end
          end
      end
  end.

(** [cell.str.contains(pat, case=False, na=False)] *)
Definition contains (pat : string) (c : cell) : bool :=
  match c with
  | NaN => false
  | Str s => str_contains pat s
  end.

Definition advanced_search (self : MedicationProcessor) (criteria : Criteria)
    : result (list medication) :=
  match df self with
  | None => Ok []
  | Some query_df =>
      query_df <- match given (trade_name criteria) with
                  | Some pat => select query_df "Trade_Name" (contains pat)
                  | None => Ok query_df
                  end ;;
      query_df <- match given (generic_name criteria) with
                  | Some pat => select query_df "Generic_Name" (contains pat)
                  | None => Ok query_df
                  end ;;
      query_df <- match given (category criteria) with
                  | Some cat => select query_df "Category" (fun c => cell_is c cat)
                  | None => Ok query_df
                  end ;;
      query_df <- match min_price criteria with
                  | Some m => select_price query_df (fun x => float_ge x m)
                  | None => Ok query_df
                  end ;;
      query_df <- match max_price criteria with
                  | Some m => select_price query_df (fun x => float_le x m)
                  | None => Ok query_df
                  end ;;
      query_df <- match given (indication criteria) with
                  | Some pat => select query_df "Indications_for_Use" (contains pat)
                  | None => Ok query_df
                  end ;;
      Ok (records_of self query_df)
  end.

End Pandas.

(** *** Accessors *)

(** [df.empty]: the frame has no row or no column. *)
Definition df_empty (d : DataFrame) : bool :=
  match columns d, body d with
  | [], _ => true
  | _, [] => true
  | _, _ => false
  end.

Definition is_data_loaded (self : MedicationProcessor) : bool :=
  match df self with
  | Some d => negb (df_empty d)
  | None => false
  end.

Definition get_medication_count (self : MedicationProcessor) : nat :=
  match df self with
  | Some d => List.length (body d)
  | None => 0
  end.

Definition get_categories (self : MedicationProcessor) : list string :=
  categories self.

(** [None] is Python's [None]. *)
Definition get_medication_by_id (self : MedicationProcessor)
    (medication_id : string) : option medication :=
  Dict.get medication_id (medications_dict self).

Definition get_medication_by_name (self : MedicationProcessor) (name : string)
    : option medication :=
  let name_lower := Py.lower name in
  match Dict.get name_lower (trade_name_index self) with
  | Some idx => Dict.get (Py.str_of_nat idx) (medications_dict self)
  | None =>
      match Dict.get name_lower (generic_name_index self) with
      | Some idx => Dict.get (Py.str_of_nat idx) (medications_dict self)
      | None => None
      end
  end.

(* ================================================================= *)
(** ** QuestionAnsweringEngine *)

Definition common_words : list string :=
  [ "what"; "is"; "are"; "the"; "for"; "of"; "and"; "to"; "in"; "with";
    "can"; "i"; "my"; "me"; "about"; "tell"; "how"; "much"; "does"; "cost";
    "a"; "an"; "this"; "that"; "these"; "those"; "it"; "they"; "them";
    "use"; "used"; "using"; "take"; "taking"; "have"; "has"; "had";
    "do"; "does"; "did"; "should"; "would"; "could"; "will"; "shall" ].

(** The intent table, in declaration order.  The patterns hold no regex
    operator; the escaped quote of the sixth usage pattern is written as the
    character it matches. *)
Definition intent_patterns : Dict.t string (list string) :=
  [ ("side_effects",
      [ "side effect"; "adverse"; "reaction"; "negative"; "bad effect";
        "harmful"; "danger"; "risk"; "warning" ]);
    ("price",
      [ "price"; "cost"; "how much"; "expensive"; "cheap"; "afford" ]);
    ("usage",
      [ "use"; "treat"; "for"; "indication"; "what is"; "what's";
        "help with"; "cure"; "heal"; "remedy"; "therapy"; "treatment" ]);
    ("dosage",
      [ "dose"; "dosage"; "how much"; "how many"; "take"; "frequency";
        "daily"; "times a day"; "administration"; "how to take" ]);
    ("category",
      [ "category"; "type"; "class"; "group"; "similar to"; "classification" ]);
    ("comparison",
      [ "compare"; "versus"; "vs"; "difference"; "better"; "worse";
        "alternative"; "substitute"; "replacement" ]);
    ("availability",
      [ "available"; "find"; "get"; "buy"; "purchase"; "obtain";
        "where can i"; "pharmacy"; "store"; "online" ]);
    ("storage",
      [ "store"; "keep"; "refrigerate"; "temperature"; "shelf life";
        "expiration"; "expire"; "stability" ]);
    ("interaction",
      [ "interact"; "interaction"; "together with"; "combine"; "mix";
        "along with"; "simultaneously"; "conflict" ]);
    ("pregnancy",
      [ "pregnancy"; "pregnant"; "breastfeeding"; "nursing"; "lactation";
        "expecting"; "trimester" ]) ].

Definition _extract_keywords (text : string) : list string :=
  let processed_text := _preprocess_text text in
  let words := Py.split processed_text in
  filter (fun word => negb (existsb (String.eqb word) common_words)) words.

(** The records an index points to for the names found in the text. *)
Definition lookup_names (self : MedicationProcessor) (index : Dict.t string nat)
    (processed_text : string) : list medication :=
  flat_map
    (fun '(name, idx) =>
       if Py.str_in name processed_text
       then match Dict.get (Py.str_of_nat idx) (medications_dict self) with
            | Some medication =>
                match medication with
                | [] => []
                | _ => [medication]
                end
            | None => []
            end
       else [])
    (Dict.items index).

(** Dictionary keyed by the value of ['id']; keys are compared with [==]. *)
Fixpoint set_by_id (k : value) (med : medication) (d : list (value * medication))
    : list (value * medication) :=
  match d with
  | [] => [(k, med)]
  | (k', med') :: d' =>
      if value_eqb k' k then (k', med) :: d' else (k', med') :: set_by_id k med d'
  end.

Fixpoint remove_duplicates (found : list medication)
    (unique_medications : list (value * medication))
    : result (list (value * medication)) :=
  match found with
  | [] => Ok unique_medications
  | med :: rest =>
      id <- getitem med "id" ;;
      remove_duplicates rest (set_by_id id med unique_medications)
  end.

Definition _identify_medication_names (self : MedicationProcessor) (text : string)
    : result (list medication) :=
  let processed_text := _preprocess_text text in
  let found_medications :=
    (lookup_names self (trade_name_index self) processed_text
     ++ lookup_names self (generic_name_index self) processed_text)%list in
  unique_medications <- remove_duplicates found_medications [] ;;
  Ok (map snd unique_medications).

(** [r'\b' + pattern + r'\b'] *)
Definition word_pattern (pattern : string) : Re.regex :=
  Re.Seq Re.Bnd (Re.Seq (Re.lit pattern) Re.Bnd).

Definition count_match (intent : string) (matched : Dict.t string nat)
    : Dict.t string nat :=
  match Dict.get intent matched with
  | Some n => Dict.set intent (n + 1) matched
  | None => Dict.set intent 1 matched
  end.

Definition count_patterns (processed_text intent : string) (patterns : list string)
    (matched : Dict.t string nat) : Dict.t string nat :=
  fold_left
    (fun matched pattern =>
       match Re.search (word_pattern pattern) processed_text with
       | Some _ => count_match intent matched
       | None => matched
       end)
    patterns matched.

Definition matched_intents (text : string) : Dict.t string nat :=
  let processed_text := _preprocess_text text in
  fold_left
    (fun matched '(intent, patterns) =>
       count_patterns processed_text intent patterns matched)
    (Dict.items intent_patterns) [].

(** [max(items, key=lambda x: x[1])]: the first item with the largest
    count. *)
Fixpoint max_by_count (best : string * nat) (items : list (string * nat))
    : string * nat :=
  match items with
  | [] => best
  | x :: items' =>
      if (snd best <? snd x)%nat then max_by_count x items'
      else max_by_count best items'
  end.

Definition _identify_intent (text : string) : string :=
  match Dict.items (matched_intents text) with
  | [] => "general_info"
  | x :: items => fst (max_by_count x items)
  end.

(** The class [[\w\s]]. *)
Definition word_or_space (c : ascii) : bool := Py.isword c || Py.isspace c.

(** [X for ([\w\s]+)] after the pattern [head]. *)
Definition for_phrase (head : Re.regex) : Re.regex :=
  Re.Seq head (Re.Seq (Re.lit " for ") (Re.Grp 1 (Re.Plus word_or_space))).

(** The condition templates: the pattern text and its parse. *)
Definition condition_patterns : list (string * Re.regex) :=
  [ ("medications? for ([\w\s]+)",
      for_phrase (Re.Seq (Re.lit "medication") (Re.Opt (Re.Chr "s"))));
    ("drugs? for ([\w\s]+)",
      for_phrase (Re.Seq (Re.lit "drug") (Re.Opt (Re.Chr "s"))));
    ("medicine for ([\w\s]+)", for_phrase (Re.lit "medicine"));
    ("treatment for ([\w\s]+)", for_phrase (Re.lit "treatment"));
    ("cure for ([\w\s]+)", for_phrase (Re.lit "cure"));
    ("remedy for ([\w\s]+)", for_phrase (Re.lit "remedy"));
    ("what (treats|cures|helps with) ([\w\s]+)",
      Re.Seq (Re.lit "what ")
        (Re.Seq (Re.Grp 1 (Re.Alt (Re.lit "treats")
                             (Re.Alt (Re.lit "cures") (Re.lit "helps with"))))
           (Re.Seq (Re.Chr " ") (Re.Grp 2 (Re.Plus word_or_space))))) ].

(** [match.group(n).strip()] *)
Definition group_strip (n : nat) (m : Re.groups) : result string :=
  match Re.group n m with
  | Some s => Ok (Py.strip s)
  | None => Raise AttributeError
  end.

Fixpoint first_condition (patterns : list (string * Re.regex))
    (processed_text : string) : result (option string) :=
  match patterns with
  | [] => Ok None
  | (pattern, re) :: rest =>
      match Re.search re processed_text with
      | Some m =>
          if Py.endswith pattern "([\w\s]+)"
          then condition <- group_strip 1 m ;; Ok (Some condition)
          else condition <- group_strip 2 m ;; Ok (Some condition)
      | None => first_condition rest processed_text
      end
  end.

Definition _identify_category_query (text : string) : result (option string) :=
  let processed_text := _preprocess_text text in
  first_condition condition_patterns processed_text.

Record Analysis : Type := {
  medications : list medication;
  intent : string;
  condition : option string;
  keywords : list string
}.

Definition _analyze_question (self : MedicationProcessor) (question : string)
    : result Analysis :=
  meds <- _identify_medication_names self question ;;
  let i := _identify_intent question in
  cond <- _identify_category_query question ;;
  Ok {| medications := meds; intent := i; condition := cond;
        keywords := _extract_keywords question |}.

(** *** Response templates *)

Definition DQ : string := String "034" EmptyString.

Definition cell_str (c : cell) : string :=
  match c with
  | NaN => "nan"
  | Str s => s
  end.

(** [str(v)] as an f-string renders it.  The templates render cells only;
    a list is rendered with plain quotes around its items. *)
Definition format_value (v : value) : string :=
  match v with
  | VCell c => cell_str c
  | VList l =>
      "[" ++ Py.join ", " (map (fun c => match c with
                                         | NaN => "nan"
                                         | Str s => "'" ++ s ++ "'"
                                         end) l) ++ "]"
  end.

(** Truth value of a value: the empty string and the empty list are
    false. *)
Definition value_truthy (v : value) : bool :=
  match v with
  | VCell NaN => true
  | VCell (Str s) => truthy s
  | VList [] => false
  | VList (_ :: _) => true
  end.

Fixpoint chars (s : string) : list string :=
  match s with
  | EmptyString => []
  | String c s' => String c EmptyString :: chars s'
  end.

(** The items a [for] loop over a value visits, each as rendered. *)
Definition iterate (v : value) : result (list string) :=
  match v with
  | VList l => Ok (map cell_str l)
  | VCell (Str s) => Ok (chars s)
  | VCell NaN => Raise TypeError
  end.

(** [f"{medication[key]}"] *)
Definition fmt (med : medication) (key : string) : result string :=
  v <- getitem med key ;; Ok (format_value v).

(** [medication.get('Side_Effects', [])] *)
Definition get_side_effects (med : medication) : value :=
  match Dict.get "Side_Effects" med with
  | Some v => v
  | None => VList []
  end.

Definition _generate_side_effects_response (medication : medication)
    : result string :=
  let side_effects := get_side_effects medication in
  if negb (value_truthy side_effects)
  then
    t1 <- fmt medication "Trade_Name" ;;
    t2 <- fmt medication "Trade_Name" ;;
    Ok ("**Side Effects of " ++ t1 ++ ":**" ++ LF ++ LF
        ++ "No specific side effects are listed in our database for " ++ t2
        ++ ". Please consult your doctor or pharmacist for more information.")
  else
    t <- fmt medication "Trade_Name" ;;
    let response := "**Side Effects of " ++ t ++ ":**" ++ LF ++ LF in
    effects <- iterate side_effects ;;
    let response :=
      response ++ Py.join LF (map (fun effect => "• " ++ effect) effects) in
    Ok (response ++ LF ++ LF
        ++ "If you experience severe side effects, contact your healthcare provider immediately.").

Definition _generate_price_response (medication : medication) : result string :=
  t <- fmt medication "Trade_Name" ;;
  p <- fmt medication "Price" ;;
  Ok ("**" ++ t ++ "** is priced at " ++ p ++ "." ++ LF ++ LF
      ++ "Please note that prices may vary by location and pharmacy.").

Definition _generate_usage_response (medication : medication) : result string :=
  t <- fmt medication "Trade_Name" ;;
  g <- fmt medication "Generic_Name" ;;
  i <- fmt medication "Indications_for_Use" ;;
  let response := "**" ++ t ++ "** (" ++ g ++ ") is used for:" ++ LF ++ LF ++ i in
  dosage_form <- getitem medication "Dosage_Form" ;;
  both <- (if value_truthy dosage_form
           then strength <- getitem medication "Strength" ;;
                Ok (value_truthy strength)
           else Ok false) ;;
  if both
  then
    d <- fmt medication "Dosage_Form" ;;
    s <- fmt medication "Strength" ;;
    Ok (response ++ LF ++ LF ++ "It comes as " ++ d ++ " with strength of " ++ s ++ ".")
  else Ok response.

Definition _generate_general_info_response (medication : medication)
    : result string :=
  t <- fmt medication "Trade_Name" ;;
  g <- fmt medication "Generic_Name" ;;
  let response := "**" ++ t ++ "** (" ++ g ++ ")" ++ LF ++ LF in
  c <- fmt medication "Category" ;;
  let response := response ++ "**Category:** " ++ c ++ LF ++ LF in
  i <- fmt medication "Indications_for_Use" ;;
  let response := response ++ "**Used for:** " ++ i ++ LF ++ LF in
  d <- fmt medication "Dosage_Form" ;;
  let response := response ++ "**Dosage Form:** " ++ d ++ LF in
  s <- fmt medication "Strength" ;;
  let response := response ++ "**Strength:** " ++ s ++ LF in
  q <- fmt medication "Quantity_of_Dosage_Form" ;;
  let response := response ++ "**Quantity:** " ++ q ++ LF in
  p <- fmt medication "Price" ;;
  let response := response ++ "**Price:** " ++ p ++ LF in
  o <- fmt medication "Local_Import" ;;
  let response := response ++ "**Origin:** " ++ o ++ LF ++ LF in
  let side_effects := get_side_effects medication in
  if value_truthy side_effects
  then
    let response := response ++ "**Common Side Effects:**" ++ LF in
    effects <- iterate side_effects ;;
    let response :=
      fold_left (fun response effect => response ++ "• " ++ effect ++ LF)
        (firstn 5 effects) response in
    if (5 <? List.length effects)%nat
    then Ok (response ++ LF ++ "And " ++ Py.str_of_nat (List.length effects - 5)
             ++ " more side effects.")
    else Ok response
  else Ok response.

Definition _generate_category_response (self : MedicationProcessor)
    (condition : string) : result string :=
  matching_meds <-
    filterM
      (fun med =>
         orM (field_contains med "Category" (Py.lower condition))
           (field_contains med "Indications_for_Use" (Py.lower condition)))
      (Dict.values (medications_dict self)) ;;
  match matching_meds with
  | [] =>
      Ok ("I couldn't find any medications specifically for '" ++ condition
          ++ "' in our database. Please try a different search term or consult with your healthcare provider.")
  | _ =>
      let response :=
        "Here are medications that might be used for " ++ condition ++ ":" ++ LF ++ LF in
      response <-
        fold_left
          (fun acc med =>
             response <- acc ;;
             t <- fmt med "Trade_Name" ;;
             g <- fmt med "Generic_Name" ;;
             let response := response ++ "**" ++ t ++ "** (" ++ g ++ ")" ++ LF in
             i <- fmt med "Indications_for_Use" ;;
             let response := response ++ "• " ++ i ++ LF in
             p <- fmt med "Price" ;;
             Ok (response ++ "• Price: " ++ p ++ LF ++ LF))
          (firstn 5 matching_meds) (Ok response) ;;
      if (5 <? List.length matching_meds)%nat
      then Ok (response ++ "And " ++ Py.str_of_nat (List.length matching_meds - 5)
               ++ " more. You can ask about any specific medication for more details.")
      else Ok response
  end.

Definition _generate_storage_response : string :=
  "Here are some general guidelines for storing medications properly:" ++ LF ++ LF
  ++ "1. Keep in a cool, dry place (avoid bathroom medicine cabinets which can be humid)" ++ LF
  ++ "2. Store at room temperature (15-25°C or 59-77°F) unless specified otherwise" ++ LF
  ++ "3. Keep away from direct sunlight" ++ LF
  ++ "4. Store in original containers with labels intact" ++ LF
  ++ "5. Keep medications out of reach of children and pets" ++ LF
  ++ "6. Some medications require refrigeration - check the label" ++ LF
  ++ "7. Don't use medications past their expiration date" ++ LF
  ++ "8. Don't store different medications in the same container" ++ LF ++ LF
  ++ "Always check the specific storage instructions on your medication's packaging or ask your pharmacist for guidance.".

Definition _generate_generic_vs_brand_response : string :=
  "Generic vs. Brand-Name Medications:" ++ LF ++ LF
  ++ "**Brand-Name Medications:**" ++ LF
  ++ "• Developed and patented by pharmaceutical companies" ++ LF
  ++ "• Usually more expensive" ++ LF
  ++ "• Same active ingredients as their generic counterparts" ++ LF
  ++ "• Undergo extensive testing before FDA approval" ++ LF ++ LF
  ++ "**Generic Medications:**" ++ LF
  ++ "• Contain the same active ingredients as brand-name versions" ++ LF
  ++ "• FDA-approved and meet the same quality standards" ++ LF
  ++ "• Usually 80-85% less expensive" ++ LF
  ++ "• May differ in inactive ingredients (colors, fillers, etc.)" ++ LF
  ++ "• Become available after the brand-name patent expires" ++ LF ++ LF
  ++ "Both types are equally effective for most people. The main difference is cost. However, some patients with specific sensitivities may respond differently to inactive ingredients in generic versions.".

Definition _generate_default_response : string :=
  "Thank you for your question. Based on our medication database, I don't have specific information about that query." ++ LF ++ LF
  ++ "You can ask about specific medications by name, their side effects, prices, or uses. You can also ask about medications for specific conditions." ++ LF ++ LF
  ++ "For example, try asking:" ++ LF
  ++ "• " ++ DQ ++ "What is Panadol used for?" ++ DQ ++ LF
  ++ "• " ++ DQ ++ "What are the side effects of Augmentin?" ++ DQ ++ LF
  ++ "• " ++ DQ ++ "How much does Lipitor cost?" ++ DQ ++ LF
  ++ "• " ++ DQ ++ "What medications are available for allergies?" ++ DQ ++ LF ++ LF
  ++ "For more specific medical advice tailored to your situation, I recommend consulting with your healthcare provider or pharmacist.".

Definition answer_question (self : MedicationProcessor) (question : string)
    : result string :=
  analysis <- _analyze_question self question ;;
  match medications analysis with
  | medication :: _ =>
      if intent analysis =? "side_effects"
      then _generate_side_effects_response medication
      else if intent analysis =? "price"
      then _generate_price_response medication
      else if intent analysis =? "usage"
      then _generate_usage_response medication
      else _generate_general_info_response medication
  | [] =>
      match given (condition analysis) with
      | Some condition => _generate_category_response self condition
      | None =>
          if Py.str_in "store" (Py.lower question)
             && (Py.str_in "medication" (Py.lower question)
                 || Py.str_in "medicine" (Py.lower question))
          then Ok _generate_storage_response
          else if Py.str_in "generic" (Py.lower question)
                  && Py.str_in "brand" (Py.lower question)
          then Ok _generate_generic_vs_brand_response
          else Ok _generate_default_response
      end
  end.

(* ================================================================= *)
(** ** The request handlers of [app.py]

    A handler takes the global processor ([None] before initialization)
    and the parameters of the request, and returns the status code and
    the JSON payload. *)

Module App.





End App.

(* ================================================================= *)
(** ** Data sets with numeric columns

    [pd.read_csv] reads a column whose fields all parse as numbers as a
    numeric column, and the code stores the values as they are.  The
    module [Raw] is the model of the two classes over such values: a cell
    is a text, a number or the missing value.  Where the model above
    returns without more ado because every cell is a text, this one raises
    what the code raises on a number. *)

Module Raw.

(** A number as a cell holds it: an int, a bool, or a float other than
    NaN. *)
Inductive number : Type :=
| Fin (q : Q)
| Inf (negative : bool).

(** A value of a cell.  A number comes with the text [str()] gives for it,
    as the row of the record holds it. *)
Inductive cell : Type :=
| NaN
| Str (s : string)
| Num (x : number) (text : string).

(** Truth value of a number: zero is false. *)
Definition nonzero (x : number) : bool :=
  match x with
  | Fin q => negb (Qeq_bool q 0)
  | Inf _ => true
  end.

Definition float_of (x : number) : float :=
  match x with
  | Fin q => FNum q
  | Inf negative => FInf negative
  end.

(** [x == y] on two numbers. *)
Definition number_eqb (x y : number) : bool :=
  match x, y with
  | Fin a, Fin b => Qeq_bool a b
  | Inf a, Inf b => Bool.eqb a b
  | _, _ => false
  end.

(** [x <= y] on two numbers. *)
Definition number_leb (x y : number) : bool :=
  match x, y with
  | Fin a, Fin b => Qle_bool a b
  | Inf negative, Fin _ => negative
  | Fin _, Inf negative => negb negative
  | Inf a, Inf b => a || negb b
  end.

Record Row : Type := {
  label : nat;                 (* the index label of the row *)
  cells : list cell;           (* by column position; short rows end in NaN *)
  Price_Numeric : float        (* the value [_clean_data] computes *)
}.

Record DataFrame : Type := {
  columns : list string;
  body : list Row
}.

(** [a == b] on two cells: NaN equals nothing, a text equals no number. *)
Definition cell_eqb (a b : cell) : bool :=
  match a, b with
  | Str x, Str y => String.eqb x y
  | Num x _, Num y _ => number_eqb x y
  | _, _ => false
  end.

(** [x == s] for a cell and a string. *)
Definition cell_is (c : cell) (s : string) : bool :=
  match c with
  | Str x => String.eqb x s
  | _ => false
  end.

(** Truth value of a cell; NaN is a float other than zero. *)
Definition cell_truthy (c : cell) : bool :=
  match c with
  | NaN => true
  | Str s => truthy s
  | Num x _ => nonzero x
  end.

(** [pd.notna(c)] *)
Definition notna (c : cell) : bool :=
  match c with
  | NaN => false
  | _ => true
  end.

(** [name in df.columns] *)
Definition has_column (df : DataFrame) (name : string) : bool :=
  match position name (columns df) with
  | Some _ => true
  | None => false
  end.

(** [row.get(name)]: [None] when the frame has no such column. *)
Definition row_get (df : DataFrame) (r : Row) (name : string) : option cell :=
  option_map (fun i => nth i (cells r) NaN) (position name (columns df)).

(** [row.get(name, '')] *)
Definition row_get_default (df : DataFrame) (r : Row) (name : string) : cell :=
  match row_get df r name with
  | Some c => c
  | None => Str ""
  end.

(** The cells of a column, by position. *)
Definition at_column (i : nat) (df : DataFrame) : list cell :=
  map (fun r => nth i (cells r) NaN) (body df).

(** [df[name]] *)
Definition column (df : DataFrame) (name : string) : result (list cell) :=
  match position name (columns df) with
  | Some i => Ok (at_column i df)
  | None => Raise (KeyError name)
  end.

(** [df[df[name] == s]]: the rows kept carry their labels. *)
Definition select_equal (df : DataFrame) (name s : string) : result DataFrame :=
  match position name (columns df) with
  | Some i =>
      Ok {| columns := columns df;
            body := filter (fun r => cell_is (nth i (cells r) NaN) s) (body df) |}
  | None => Raise (KeyError name)
  end.

(** The frame [pd.read_csv] returns: the header and the lines of cells,
    labelled by position. *)
Definition pad (n : nat) (cs : list cell) : list cell :=
  firstn n (cs ++ repeat NaN n)%list.

Definition frame (header : list string) (lines : list (list cell)) : DataFrame :=
  {| columns := header;
     body := map (fun '(i, cs) =>
                    {| label := i;
                       cells := pad (List.length header) cs;
                       Price_Numeric := FNaN |})
                 (enumerate lines) |}.

(** [df.fillna('')] *)
Definition fill (c : cell) : cell :=
  match c with
  | NaN => Str ""
  | _ => c
  end.

Definition fillna (d : DataFrame) : DataFrame :=
  {| columns := columns d;
     body := map (fun r =>
                    {| label := label r;
                       cells := map fill (cells r);
                       Price_Numeric := Price_Numeric r |})
                 (body d) |}.

(** The column holds texts: its dtype is [object].  A column of numbers
    alone has a numeric dtype; a frame without rows has text columns. *)
Definition is_text (c : cell) : bool :=
  match c with
  | Str _ => true
  | _ => false
  end.

Definition object_dtype (i : nat) (df : DataFrame) : bool :=
  match body df with
  | [] => true
  | _ => existsb is_text (at_column i df)
  end.

(** *** MedicationProcessor *)

Inductive value : Type :=
| VCell (c : cell)
| VList (l : list cell).

Definition value_eqb (a b : value) : bool :=
  match a, b with
  | VCell x, VCell y => cell_eqb x y
  | VList x, VList y =>
      (List.length x =? List.length y)%nat
      && forallb (fun '(c, d) => cell_eqb c d) (combine x y)
  | _, _ => false
  end.

Definition medication : Type := Dict.t string value.

(** [categories] holds what [sorted] returned: texts, or numbers when the
    Category column is numeric. *)
Record MedicationProcessor : Type := {
  df : option DataFrame;
  medications_dict : Dict.t string medication;
  categories : list cell;
  trade_name_index : Dict.t string nat;
  generic_name_index : Dict.t string nat;
  category_index : Dict.t string string
}.

(** [MedicationProcessor()] *)
Definition __init__ : MedicationProcessor :=
  {| df := None; medications_dict := []; categories := [];
     trade_name_index := []; generic_name_index := []; category_index := [] |}.

Definition set_df (self : MedicationProcessor) (d : DataFrame) :=
  {| df := Some d; medications_dict := medications_dict self;
     categories := categories self;
     trade_name_index := trade_name_index self;
     generic_name_index := generic_name_index self;
     category_index := category_index self |}.

Definition set_medications_dict (self : MedicationProcessor)
    (m : Dict.t string medication) :=
  {| df := df self; medications_dict := m; categories := categories self;
     trade_name_index := trade_name_index self;
     generic_name_index := generic_name_index self;
     category_index := category_index self |}.

Definition set_categories (self : MedicationProcessor) (cs : list cell) :=
  {| df := df self; medications_dict := medications_dict self;
     categories := cs;
     trade_name_index := trade_name_index self;
     generic_name_index := generic_name_index self;
     category_index := category_index self |}.

Definition set_category_index (self : MedicationProcessor)
    (ci : Dict.t string string) :=
  {| df := df self; medications_dict := medications_dict self;
     categories := categories self;
     trade_name_index := trade_name_index self;
     generic_name_index := generic_name_index self;
     category_index := ci |}.

Definition set_trade_name_index (self : MedicationProcessor)
    (ix : Dict.t string nat) :=
  {| df := df self; medications_dict := medications_dict self;
     categories := categories self;
     trade_name_index := ix;
     generic_name_index := generic_name_index self;
     category_index := category_index self |}.

Definition set_generic_name_index (self : MedicationProcessor)
    (ix : Dict.t string nat) :=
  {| df := df self; medications_dict := medications_dict self;
     categories := categories self;
     trade_name_index := trade_name_index self;
     generic_name_index := ix;
     category_index := category_index self |}.

(** What a method that changes the processor leaves behind: the state, and
    the exception it raised, if it raised one.  The assignments made before
    the exception stay. *)
Definition outcome : Type := MedicationProcessor * option exn.

Definition and_then (o : outcome) (k : MedicationProcessor -> outcome) : outcome :=
  match o with
  | (self, None) => k self
  | (self, Some e) => (self, Some e)
  end.

(** [series.dropna()] *)
Definition dropna (l : list cell) : list cell := filter notna l.

(** [series.unique()]: the values in order of first appearance. *)
Definition unique (l : list cell) : list cell :=
  fold_left
    (fun seen x => if existsb (cell_eqb x) seen then seen else (seen ++ [x])%list)
    l [].

Definition text_of (c : cell) : string :=
  match c with
  | Str s => s
  | _ => ""
  end.

Definition is_number (c : cell) : bool :=
  match c with
  | Num _ _ => true
  | _ => false
  end.

Definition cell_leb (a b : cell) : bool :=
  match a, b with
  | Num x _, Num y _ => number_leb x y
  | _, _ => true
  end.

Fixpoint insert_by (x : cell) (l : list cell) : list cell :=
  match l with
  | [] => [x]
  | y :: l' => if cell_leb x y then x :: l else y :: insert_by x l'
  end.

(** [sorted(l)]: texts sort among themselves and numbers among themselves;
    a text and a number do not compare. *)
Definition sorted_cells (l : list cell) : result (list cell) :=
  if forallb is_text l then Ok (map Str (sorted (map text_of l)))
  else if forallb is_number l then Ok (fold_right insert_by [] l)
  else Raise TypeError.

(** The loop [for category in self.categories:
    self.category_index[category.lower()] = category]. *)
Fixpoint index_categories (cats : list cell) (ix : Dict.t string string)
    : Dict.t string string * option exn :=
  match cats with
  | [] => (ix, None)
  | Str s :: rest => index_categories rest (Dict.set (Py.lower s) s ix)
  | _ :: _ => (ix, Some AttributeError)
  end.

(** The loop [for idx, name in enumerate(col): if pd.notna(name) and name:
    index[name.lower()] = idx], from the row [idx] on. *)
Fixpoint index_names (idx : nat) (names : list cell) (ix : Dict.t string nat)
    : Dict.t string nat * option exn :=
  match names with
  | [] => (ix, None)
  | name :: rest =>
      if notna name && cell_truthy name
      then match name with
           | Str s => index_names (S idx) rest (Dict.set (Py.lower s) idx ix)
           | _ => (ix, Some AttributeError)
           end
      else index_names (S idx) rest ix
  end.

Definition _create_indexes (self : MedicationProcessor) : outcome :=
  match df self with
  | None => (self, Some AttributeError)
  | Some d =>
      and_then
        (match position "Category" (columns d) with
         | Some i =>
             match sorted_cells (unique (dropna (at_column i d))) with
             | Raise e => (self, Some e)
             | Ok cats =>
                 let self := set_categories self cats in
                 let '(ix, e) := index_categories cats (category_index self) in
                 (set_category_index self ix, e)
             end
         | None => (self, None)
         end)
        (fun self =>
           and_then
             (match position "Trade_Name" (columns d) with
              | Some i =>
                  let '(ix, e) :=
                    index_names 0 (at_column i d) (trade_name_index self) in
                  (set_trade_name_index self ix, e)
              | None => (self, None)
              end)
             (fun self =>
                match position "Generic_Name" (columns d) with
                | Some i =>
                    let '(ix, e) :=
                      index_names 0 (at_column i d) (generic_name_index self) in
                    (set_generic_name_index self ix, e)
                | None => (self, None)
                end))
  end.

(** The side effects of a row: the cells of the columns [Side_Effect_1]
    to [Side_Effect_9] that exist, are true and are not NaN. *)
Definition side_effects_of (d : DataFrame) (r : Row) : list cell :=
  flat_map
    (fun i =>
       match row_get d r ("Side_Effect_" ++ Py.str_of_nat i) with
       | Some c => if cell_truthy c && notna c then [c] else []
       | None => []
       end)
    (seq 1 9).

(** The dictionary built for one row. *)
Definition medication_of (d : DataFrame) (r : Row) : medication :=
  [ ("id", VCell (Str (Py.str_of_nat (label r))));
    ("SN", VCell (row_get_default d r "SN."));
    ("Trade_Name", VCell (row_get_default d r "Trade_Name"));
    ("Strength", VCell (row_get_default d r ("Strenght/" ++ LF ++ "Conc.")));
    ("Dosage_Form", VCell (row_get_default d r "Dosage_Form"));
    ("Quantity_of_Dosage_Form", VCell (row_get_default d r "Quantity_of_Dosage_Form"));
    ("Price", VCell (row_get_default d r "Price"));
    ("Generic_Name", VCell (row_get_default d r "Generic_Name"));
    ("Local_Import", VCell (row_get_default d r "Local/Import"));
    ("Category", VCell (row_get_default d r "Category"));
    ("Indications_for_Use", VCell (row_get_default d r "Indications_for_Use"));
    ("Side_Effects", VList (side_effects_of d r));
    ("Image_URL", VCell (row_get_default d r "Image_URL")) ].

Definition _create_medications_dict (self : MedicationProcessor) : outcome :=
  match df self with
  | None => (self, Some AttributeError)
  | Some d =>
      (set_medications_dict self
         (fold_left
            (fun m r => Dict.set (Py.str_of_nat (label r)) (medication_of d r) m)
            (body d) (medications_dict self)),
       None)
  end.

(** [medication[key]] *)
Definition getitem (m : medication) (key : string) : result value :=
  match Dict.get key m with
  | Some v => Ok v
  | None => Raise (KeyError key)
  end.

(** [v.lower()]: defined on texts only. *)
Definition lower_of (v : value) : result string :=
  match v with
  | VCell (Str s) => Ok (Py.lower s)
  | _ => Raise AttributeError
  end.

(** [needle in medication[key].lower()] *)
Definition field_contains (med : medication) (key needle : string) : result bool :=
  v <- getitem med key ;; s <- lower_of v ;; Ok (Py.str_in needle s).

(** The records of the rows of a frame, by label. *)
Definition records_of (self : MedicationProcessor) (d : DataFrame) : list medication :=
  flat_map
    (fun r =>
       match Dict.get (Py.str_of_nat (label r)) (medications_dict self) with
       | Some med => [med]
       | None => []
       end)
    (body d).

Definition get_medications (self : MedicationProcessor)
    (search category : string) (limit : option Z) : result (list medication) :=
  if negb (truthy search) && negb (truthy category)
  then
    let results := Dict.values (medications_dict self) in
    Ok (match limit_set limit with
        | Some n => Py.slice_to results n
        | None => results
        end)
  else
    results <- (if truthy category
                then match df self with
                     | Some d =>
                         filtered_df <- select_equal d "Category" category ;;
                         Ok (records_of self filtered_df)
                     | None => Ok []
                     end
                else Ok (Dict.values (medications_dict self))) ;;
    results <- (if truthy search
                then let search := Py.lower search in
                     filterM
                       (fun med =>
                          orM (field_contains med "Trade_Name" search)
                            (orM (field_contains med "Generic_Name" search)
                               (orM (field_contains med "Category" search)
                                  (field_contains med "Indications_for_Use" search))))
                       results
                else Ok results) ;;
    Ok (match limit_set limit with
        | Some n =>
            if (n <? Z.of_nat (List.length results))%Z
            then Py.slice_to results n else results
        | None => results
        end).

Definition get_medication_by_id (self : MedicationProcessor)
    (medication_id : string) : option medication :=
  Dict.get medication_id (medications_dict self).

(** [df.empty]: the frame has no row or no column. *)
Definition df_empty (d : DataFrame) : bool :=
  match columns d, body d with
  | [], _ => true
  | _, [] => true
  | _, _ => false
  end.

Definition is_data_loaded (self : MedicationProcessor) : bool :=
  match df self with
  | Some d => negb (df_empty d)
  | None => false
  end.

Definition get_medication_count (self : MedicationProcessor) : nat :=
  match df self with
  | Some d => List.length (body d)
  | None => 0
  end.

Definition get_categories (self : MedicationProcessor) : list cell :=
  categories self.

Section Pandas.

(** [pd.to_numeric(x, errors='coerce')] on the text of one cell. *)
Variable to_numeric : string -> float.

(** What [Series.str.contains(pat, case=False)] makes of the pattern: the
    test it applies to a text, or nothing when the pattern is no regular
    expression ([re.error]). *)
Variable str_contains : string -> option (string -> bool).

Definition to_numeric_cell (c : cell) : float :=
  match c with
  | NaN => FNaN
  | Str s => to_numeric s
  | Num x _ => float_of x
  end.

Definition clean (d : DataFrame) : DataFrame :=
  let d := fillna d in
  let d := {| columns := map Py.strip (columns d); body := body d |} in
  if has_column d "Price"
  then {| columns := if has_column d "Price_Numeric" then columns d
                     else (columns d ++ ["Price_Numeric"])%list;
          body := map (fun r =>
                         {| label := label r; cells := cells r;
                            Price_Numeric :=
                              to_numeric_cell (row_get_default d r "Price") |})
                      (body d) |}
  else d.

Definition _clean_data (self : MedicationProcessor) : outcome :=
  match df self with
  | None => (self, Some AttributeError)
  | Some d => (set_df self (clean d), None)
  end.

(** [load_data]: [source] is what [pd.read_csv] gives, a frame or an
    exception.  Any exception is caught and reported as [false]; what was
    assigned before it stays. *)
Definition load_data (self : MedicationProcessor) (source : result DataFrame)
    : MedicationProcessor * bool :=
  match source with
  | Raise _ => (self, false)
  | Ok d =>
      match and_then (and_then (_clean_data (set_df self d)) _create_indexes)
              _create_medications_dict with
      | (self, None) => (self, true)
      | (self, Some _) => (self, false)
      end
  end.

(** [df[df[name].str.contains(pat, case=False, na=False)]].  [whole] is the
    frame the rows were selected from, which gives the column its dtype:
    the [.str] accessor is refused on a numeric column.  In a text column a
    cell that is no text gives no match. *)
Definition contains (test : string -> bool) (c : cell) : bool :=
  match c with
  | Str s => test s
  | _ => false
  end.

Definition select_contains (whole df : DataFrame) (name pat : string)
    : result DataFrame :=
  match position name (columns df) with
  | Some i =>
      if object_dtype i whole
      then match str_contains pat with
           | Some test =>
               Ok {| columns := columns df;
                     body := filter (fun r => contains test (nth i (cells r) NaN))
                               (body df) |}
           | None => Raise ReError
           end
      else Raise AttributeError
  | None => Raise (KeyError name)
  end.

(** The price of a row in the column [Price_Numeric]: the value
    [_clean_data] computed when the data set has a Price column, the cell
    of the data set's own column otherwise. *)
Definition price_of (df : DataFrame) (i : nat) (r : Row) : cell + float :=
  if has_column df "Price" then inr (Price_Numeric r)
  else inl (nth i (cells r) NaN).

(** [x >= m] and [x <= m] for a price and a number; a text does not
    compare with a number. *)
Definition compare_price (test : float -> bool) (p : cell + float) : result bool :=
  match p with
  | inr x => Ok (test x)
  | inl NaN => Ok false
  | inl (Num x _) => Ok (test (float_of x))
  | inl (Str _) => Raise TypeError
  end.

(** [df[p(df['Price_Numeric'])]] *)
Definition select_price (df : DataFrame) (test : float -> bool) : result DataFrame :=
  match position "Price_Numeric" (columns df) with
  | Some i =>
      rows <- filterM (fun r => compare_price test (price_of df i r)) (body df) ;;
      Ok {| columns := columns df; body := rows |}
  | None => Raise (KeyError "Price_Numeric")
  end.

Definition advanced_search (self : MedicationProcessor) (criteria : Criteria)
    : result (list medication) :=
  match df self with
  | None => Ok []
  | Some whole =>
      query_df <- match given (trade_name criteria) with
                  | Some pat => select_contains whole whole "Trade_Name" pat
                  | None => Ok whole
                  end ;;
      query_df <- match given (generic_name criteria) with
                  | Some pat => select_contains whole query_df "Generic_Name" pat
                  | None => Ok query_df
                  end ;;
      query_df <- match given (category criteria) with
                  | Some cat => select_equal query_df "Category" cat
                  | None => Ok query_df
                  end ;;
      query_df <- match min_price criteria with
                  | Some m => select_price query_df (fun x => float_ge x m)
                  | None => Ok query_df
                  end ;;
      query_df <- match max_price criteria with
                  | Some m => select_price query_df (fun x => float_le x m)
                  | None => Ok query_df
                  end ;;
      query_df <- match given (indication criteria) with
                  | Some pat =>
                      select_contains whole query_df "Indications_for_Use" pat
                  | None => Ok query_df
                  end ;;
      Ok (records_of self query_df)
  end.

End Pandas.

(** *** QuestionAnsweringEngine *)

(** The records an index points to for the names found in the text. *)
Definition lookup_names (self : MedicationProcessor) (index : Dict.t string nat)
    (processed_text : string) : list medication :=
  flat_map
    (fun '(name, idx) =>
       if Py.str_in name processed_text
       then match Dict.get (Py.str_of_nat idx) (medications_dict self) with
            | Some medication =>
                match medication with
                | [] => []
                | _ => [medication]
                end
            | None => []
            end
       else [])
    (Dict.items index).

(** Dictionary keyed by the value of ['id']; keys are compared with [==]. *)
Fixpoint set_by_id (k : value) (med : medication) (d : list (value * medication))
    : list (value * medication) :=
  match d with
  | [] => [(k, med)]
  | (k', med') :: d' =>
      if value_eqb k' k then (k', med) :: d' else (k', med') :: set_by_id k med d'
  end.

Fixpoint remove_duplicates (found : list medication)
    (unique_medications : list (value * medication))
    : result (list (value * medication)) :=
  match found with
  | [] => Ok unique_medications
  | med :: rest =>
      id <- getitem med "id" ;;
      remove_duplicates rest (set_by_id id med unique_medications)
  end.

Definition _identify_medication_names (self : MedicationProcessor) (text : string)
    : result (list medication) :=
  let processed_text := _preprocess_text text in
  let found_medications :=
    (lookup_names self (trade_name_index self) processed_text
     ++ lookup_names self (generic_name_index self) processed_text)%list in
  unique_medications <- remove_duplicates found_medications [] ;;
  Ok (map snd unique_medications).

Record Analysis : Type := {
  medications : list medication;
  intent : string;
  condition : option string;
  keywords : list string
}.

Definition _analyze_question (self : MedicationProcessor) (question : string)
    : result Analysis :=
  meds <- _identify_medication_names self question ;;
  let i := _identify_intent question in
  cond <- _identify_category_query question ;;
  Ok {| medications := meds; intent := i; condition := cond;
        keywords := _extract_keywords question |}.

(** [str(c)] as an f-string renders a cell. *)
Definition cell_str (c : cell) : string :=
  match c with
  | NaN => "nan"
  | Str s => s
  | Num _ text => text
  end.

(** [repr(c)] as the rendering of a list shows its items. *)
Definition cell_repr (c : cell) : string :=
  match c with
  | Str s => "'" ++ s ++ "'"
  | _ => cell_str c
  end.

Definition format_value (v : value) : string :=
  match v with
  | VCell c => cell_str c
  | VList l => "[" ++ Py.join ", " (map cell_repr l) ++ "]"
  end.

(** Truth value of a value: the empty string, zero and the empty list are
    false. *)
Definition value_truthy (v : value) : bool :=
  match v with
  | VCell c => cell_truthy c
  | VList [] => false
  | VList (_ :: _) => true
  end.

(** The items a [for] loop over a value visits, each as rendered. *)
Definition iterate (v : value) : result (list string) :=
  match v with
  | VList l => Ok (map cell_str l)
  | VCell (Str s) => Ok (chars s)
  | VCell _ => Raise TypeError
  end.

(** [f"{medication[key]}"] *)
Definition fmt (med : medication) (key : string) : result string :=
  v <- getitem med key ;; Ok (format_value v).

(** [medication.get('Side_Effects', [])] *)
Definition get_side_effects (med : medication) : value :=
  match Dict.get "Side_Effects" med with
  | Some v => v
  | None => VList []
  end.

Definition _generate_side_effects_response (medication : medication)
    : result string :=
  let side_effects := get_side_effects medication in
  if negb (value_truthy side_effects)
  then
    t1 <- fmt medication "Trade_Name" ;;
    t2 <- fmt medication "Trade_Name" ;;
    Ok ("**Side Effects of " ++ t1 ++ ":**" ++ LF ++ LF
        ++ "No specific side effects are listed in our database for " ++ t2
        ++ ". Please consult your doctor or pharmacist for more information.")
  else
    t <- fmt medication "Trade_Name" ;;
    let response := "**Side Effects of " ++ t ++ ":**" ++ LF ++ LF in
    effects <- iterate side_effects ;;
    let response :=
      response ++ Py.join LF (map (fun effect => "• " ++ effect) effects) in
    Ok (response ++ LF ++ LF
        ++ "If you experience severe side effects, contact your healthcare provider immediately.").

Definition _generate_price_response (medication : medication) : result string :=
  t <- fmt medication "Trade_Name" ;;
  p <- fmt medication "Price" ;;
  Ok ("**" ++ t ++ "** is priced at " ++ p ++ "." ++ LF ++ LF
      ++ "Please note that prices may vary by location and pharmacy.").

Definition _generate_usage_response (medication : medication) : result string :=
  t <- fmt medication "Trade_Name" ;;
  g <- fmt medication "Generic_Name" ;;
  i <- fmt medication "Indications_for_Use" ;;
  let response := "**" ++ t ++ "** (" ++ g ++ ") is used for:" ++ LF ++ LF ++ i in
  dosage_form <- getitem medication "Dosage_Form" ;;
  both <- (if value_truthy dosage_form
           then strength <- getitem medication "Strength" ;;
                Ok (value_truthy strength)
           else Ok false) ;;
  if both
  then
    d <- fmt medication "Dosage_Form" ;;
    s <- fmt medication "Strength" ;;
    Ok (response ++ LF ++ LF ++ "It comes as " ++ d ++ " with strength of " ++ s ++ ".")
  else Ok response.

Definition _generate_general_info_response (medication : medication)
    : result string :=
  t <- fmt medication "Trade_Name" ;;
  g <- fmt medication "Generic_Name" ;;
  let response := "**" ++ t ++ "** (" ++ g ++ ")" ++ LF ++ LF in
  c <- fmt medication "Category" ;;
  let response := response ++ "**Category:** " ++ c ++ LF ++ LF in
  i <- fmt medication "Indications_for_Use" ;;
  let response := response ++ "**Used for:** " ++ i ++ LF ++ LF in
  d <- fmt medication "Dosage_Form" ;;
  let response := response ++ "**Dosage Form:** " ++ d ++ LF in
  s <- fmt medication "Strength" ;;
  let response := response ++ "**Strength:** " ++ s ++ LF in
  q <- fmt medication "Quantity_of_Dosage_Form" ;;
  let response := response ++ "**Quantity:** " ++ q ++ LF in
  p <- fmt medication "Price" ;;
  let response := response ++ "**Price:** " ++ p ++ LF in
  o <- fmt medication "Local_Import" ;;
  let response := response ++ "**Origin:** " ++ o ++ LF ++ LF in
  let side_effects := get_side_effects medication in
  if value_truthy side_effects
  then
    let response := response ++ "**Common Side Effects:**" ++ LF in
    effects <- iterate side_effects ;;
    let response :=
      fold_left (fun response effect => response ++ "• " ++ effect ++ LF)
        (firstn 5 effects) response in
    if (5 <? List.length effects)%nat
    then Ok (response ++ LF ++ "And " ++ Py.str_of_nat (List.length effects - 5)
             ++ " more side effects.")
    else Ok response
  else Ok response.

Definition _generate_category_response (self : MedicationProcessor)
    (condition : string) : result string :=
  matching_meds <-
    filterM
      (fun med =>
         orM (field_contains med "Category" (Py.lower condition))
           (field_contains med "Indications_for_Use" (Py.lower condition)))
      (Dict.values (medications_dict self)) ;;
  match matching_meds with
  | [] =>
      Ok ("I couldn't find any medications specifically for '" ++ condition
          ++ "' in our database. Please try a different search term or consult with your healthcare provider.")
  | _ =>
      let response :=
        "Here are medications that might be used for " ++ condition ++ ":" ++ LF ++ LF in
      response <-
        fold_left
          (fun acc med =>
             response <- acc ;;
             t <- fmt med "Trade_Name" ;;
             g <- fmt med "Generic_Name" ;;
             let response := response ++ "**" ++ t ++ "** (" ++ g ++ ")" ++ LF in
             i <- fmt med "Indications_for_Use" ;;
             let response := response ++ "• " ++ i ++ LF in
             p <- fmt med "Price" ;;
             Ok (response ++ "• Price: " ++ p ++ LF ++ LF))
          (firstn 5 matching_meds) (Ok response) ;;
      if (5 <? List.length matching_meds)%nat
      then Ok (response ++ "And " ++ Py.str_of_nat (List.length matching_meds - 5)
               ++ " more. You can ask about any specific medication for more details.")
      else Ok response
  end.

Definition answer_question (self : MedicationProcessor) (question : string)
    : result string :=
  analysis <- _analyze_question self question ;;
  match medications analysis with
  | medication :: _ =>
      if intent analysis =? "side_effects"
      then _generate_side_effects_response medication
      else if intent analysis =? "price"
      then _generate_price_response medication
      else if intent analysis =? "usage"
      then _generate_usage_response medication
      else _generate_general_info_response medication
  | [] =>
      match given (condition analysis) with
      | Some condition => _generate_category_response self condition
      | None =>
          if Py.str_in "store" (Py.lower question)
             && (Py.str_in "medication" (Py.lower question)
                 || Py.str_in "medicine" (Py.lower question))
          then Ok _generate_storage_response
          else if Py.str_in "generic" (Py.lower question)
                  && Py.str_in "brand" (Py.lower question)
          then Ok _generate_generic_vs_brand_response
          else Ok _generate_default_response
      end
  end.

End Raw.

(* ================================================================= *)
(** ** Vocabulary of the specification *)

(** The characters of [string.punctuation]. *)
Definition is_punctuation (c : ascii) : bool :=
  (("!" <=? c)%char && (c <=? "/")%char)
  || ((":" <=? c)%char && (c <=? "@")%char)
  || (("[" <=? c)%char && (c <=? "`")%char)
  || (("{" <=? c)%char && (c <=? "~")%char).

(** A normalizer removes punctuation on [x] when no punctuation character
    is left in its output. *)
Definition removes_punctuation (f : string -> string) (x : string) : Prop :=
  forall c, In c (list_ascii_of_string (f x)) -> is_punctuation c = false.

(** The match count of a label, zero when the label has no entry. *)
Definition match_count (text label : string) : nat :=
  match Dict.get label (matched_intents text) with
  | Some n => n
  | None => 0
  end.

(** The text left after its first [n] characters. *)
Fixpoint skip (n : nat) (s : string) : string :=
  match n, s with
  | 0, _ => s
  | S _, EmptyString => EmptyString
  | S n', String _ s' => skip n' s'
  end.

(** The last character of [s], or [prev] when [s] is empty. *)
Fixpoint last_of (s : string) (prev : option ascii) : option ascii :=
  match s with
  | EmptyString => prev
  | String c s' => last_of s' (Some c)
  end.

(** [pattern] occurs in [text] as whole words: no word character touches
    the occurrence on either side. *)
Definition whole_word_in (pattern text : string) : Prop :=
  exists before after,
    text = before ++ pattern ++ after
    /\ Re.isword_opt (last_of before None) = false
    /\ Re.isword_opt (Re.head after) = false.

(** The same, decided by a scan of the text; [prev] is the character before
    the position reached. *)
Fixpoint whole_word_from (prev : option ascii) (pattern text : string) : bool :=
  (negb (Re.isword_opt prev) && prefix pattern text
   && negb (Re.isword_opt (Re.head (skip (length pattern) text))))
  || match text with
     | EmptyString => false
     | String c text' => whole_word_from (Some c) pattern text'
     end.

Definition whole_word_inb (pattern text : string) : bool :=
  whole_word_from None pattern text.

(** The matching the specification words: whole words for a pattern
    without a space, plain substring for a phrase. *)
Definition word_or_phrase_inb (pattern text : string) : bool :=
  if Py.str_in " " pattern then Py.str_in pattern text
  else whole_word_inb pattern text.

(** A pattern begins and ends with a word character. *)
Definition word_ended (pattern : string) : bool :=
  Re.isword_opt (Re.head pattern) && Re.isword_opt (last_of pattern None).

(** The frame a fresh processor holds after loading a csv with the given
    header and lines, the processor itself, and its records in row order. *)
Definition loaded_frame (to_numeric : string -> float)
    (header : list string) (lines : list (list cell)) : DataFrame :=
  clean to_numeric (frame header lines).

Definition loaded (to_numeric : string -> float)
    (header : list string) (lines : list (list cell)) : MedicationProcessor :=
  fst (load_data to_numeric __init__ (Ok (frame header lines))).

Definition records (to_numeric : string -> float)
    (header : list string) (lines : list (list cell)) : list medication :=
  map (medication_of (loaded_frame to_numeric header lines))
    (body (loaded_frame to_numeric header lines)).

(** The cells of a column, none when the frame lacks the column. *)
Definition col_cells (d : DataFrame) (name : string) : list cell :=
  match position name (columns d) with
  | Some i => map (fun r => nth i (cells r) NaN) (body d)
  | None => []
  end.

(** [l] is [l'] with some items left out, the others in the same order. *)
Inductive subseq {A : Type} : list A -> list A -> Prop :=
| subseq_nil : subseq [] []
| subseq_skip : forall x l l', subseq l l' -> subseq l (x :: l')
| subseq_keep : forall x l l', subseq l l' -> subseq (x :: l) (x :: l').

(** The cell of a row in a column of the frame. *)
Definition cell_of (d : DataFrame) (r : Row) (name : string) : cell :=
  match position name (columns d) with
  | Some i => nth i (cells r) NaN
  | None => NaN
  end.

(** A criterion that is given must hold; one that is omitted holds. *)
Definition holds {X : Type} (criterion : option X) (test : X -> bool) : bool :=
  match criterion with
  | Some x => test x
  | None => true
  end.

(** The conjunction of the criteria on one row. *)
Definition satisfies (str_contains : string -> string -> bool) (d : DataFrame)
    (criteria : Criteria) (r : Row) : bool :=
  holds (given (trade_name criteria))
    (fun pat => contains str_contains pat (cell_of d r "Trade_Name"))
  && holds (given (generic_name criteria))
       (fun pat => contains str_contains pat (cell_of d r "Generic_Name"))
  && holds (given (category criteria))
       (fun cat => cell_is (cell_of d r "Category") cat)
  && holds (min_price criteria) (fun m => float_ge (Price_Numeric r) m)
  && holds (max_price criteria) (fun m => float_le (Price_Numeric r) m)
  && holds (given (indication criteria))
       (fun pat => contains str_contains pat (cell_of d r "Indications_for_Use")).

(** The columns the given criteria read. *)
Definition needs {X : Type} (criterion : option X) (name : string) : list string :=
  match criterion with
  | Some _ => [name]
  | None => []
  end.

Definition needed (criteria : Criteria) : list string :=
  (needs (given (trade_name criteria)) "Trade_Name"
   ++ needs (given (generic_name criteria)) "Generic_Name"
   ++ needs (given (category criteria)) "Category"
   ++ needs (min_price criteria) "Price_Numeric"
   ++ needs (max_price criteria) "Price_Numeric"
   ++ needs (given (indication criteria)) "Indications_for_Use")%list.


(** The price of a record parses to a number between [lo] and [hi]. *)
Definition price_in_range (to_numeric : string -> float) (lo hi : Q)
    (med : medication) : Prop :=
  exists s p, Dict.get "Price" med = Some (VCell (Str s))
              /\ to_numeric s = FNum p /\ (lo <= p)%Q /\ (p <= hi)%Q.

(** The key under which a name cell enters a name index: its lowercase
    text, when the cell is not blank. *)
Definition name_key (c : cell) : option string :=
  match c with
  | Str s => if truthy s then Some (Py.lower s) else None
  | NaN => None
  end.

(** Row [idx] is the last row of the column whose name has the key [k]. *)
Definition last_with_key (names : list cell) (k : string) (idx : nat) : Prop :=
  (exists c, nth_error names idx = Some c /\ name_key c = Some k)
  /\ forall j c, idx < j -> nth_error names j = Some c -> name_key c <> Some k.

(** Every match of the regex captures group [n]. *)
Fixpoint captures (n : nat) (r : Re.regex) : bool :=
  match r with
  | Re.Seq a b => captures n a || captures n b
  | Re.Alt a b => captures n a && captures n b
  | Re.Grp m a => Nat.eqb m n || captures n a
  | _ => false
  end.

(** ** A sample data set *)

Definition sample_header : list string :=
  [ "SN."; "Trade_Name"; "Generic_Name"; "Category"; "Price";
    "Indications_for_Use"; "Side_Effect_1" ].

(** Three lines as [pd.read_csv] gives them: an empty field is NaN. *)
Definition sample_lines : list (list cell) :=
  [ [ Str "1"; Str "Panadol"; Str "Paracetamol"; Str "Analgesic"; Str "15";
      Str "For relief of pain and fever"; Str "Nausea" ];
    [ Str "2"; Str "Adol"; Str "Paracetamol"; NaN; Str "on request";
      Str "Fever"; NaN ];
    [ Str "3"; Str "Lipitor"; Str "Atorvastatin"; Str "Statin"; Str "25";
      Str "High cholesterol"; NaN ] ].

(** [pd.to_numeric] on the price cells of the sample. *)
Definition sample_to_numeric (s : string) : float :=
  if s =? "15" then FNum (Qmake 15 1)
  else if s =? "25" then FNum (Qmake 25 1)
  else FNaN.

(** [str.contains] for a pattern without regex operators. *)
Definition sample_str_contains (pat text : string) : bool :=
  Py.str_in (Py.lower pat) (Py.lower text).

Definition sample : MedicationProcessor :=
  fst (load_data sample_to_numeric __init__ (Ok (frame sample_header sample_lines))).

(** ** Vocabulary of the proofs *)

(** [collapsed b s]: every whitespace character of [s] is a space that
    follows a non-whitespace character ([b] tells that the character before
    [s] was whitespace). *)
Fixpoint collapsed (b : bool) (s : string) : bool :=
  match s with
  | EmptyString => true
  | String c s' =>
      if Py.isspace c then (c =? " ")%char && negb b && collapsed true s'
      else collapsed false s'
  end.

(** [s] does not begin with whitespace. *)
Definition starts_clean (s : string) : Prop :=
  match s with
  | EmptyString => True
  | String c _ => Py.isspace c = false
  end.

(** [\b pattern \b] at the current position. *)
Definition bounded_here (prev : option ascii) (pattern text : string) : bool :=
  Re.boundary prev (Re.head text) && prefix pattern text
  && Re.boundary (last_of pattern prev) (Re.head (skip (length pattern) text)).

(** The count in an entry of the match dictionary. *)
Definition num (o : option nat) : nat :=
  match o with
  | Some n => n
  | None => 0
  end.

(** The pattern, between word boundaries, is found in the text. *)
Definition hit (t pattern : string) : bool :=
  match Re.search (word_pattern pattern) t with
  | Some _ => true
  | None => false
  end.

(** One step of the name-index loop. *)
Definition index_step (ix : Dict.t string nat) (entry : nat * cell)
    : Dict.t string nat :=
  match name_key (snd entry) with
  | Some k => Dict.set k (fst entry) ix
  | None => ix
  end.

(** The dictionary of the duplicate removal holds records of rows of [d]
    under their own identifiers. *)
Definition by_id (d : DataFrame) (u : list (value * medication)) : Prop :=
  forall k m, In (k, m) u ->
  exists r, In r (body d) /\ m = medication_of d r
            /\ k = VCell (Str (Py.str_of_nat (label r))).

(** ** Vocabulary of the further properties *)

(** The list is in strictly ascending order of code points: it is sorted
    and holds no value twice. *)
Fixpoint ascending (l : list string) : Prop :=
  match l with
  | [] => True
  | x :: l' =>
      match l' with
      | [] => True
      | y :: _ => String.ltb x y = true /\ ascending l'
      end
  end.

(** The entry a label contributes to the match dictionary: none when none
    of its patterns is found. *)
Definition intent_entry (t : string) (e : string * list string)
    : list (string * nat) :=
  match List.length (filter (hit t) (snd e)) with
  | 0 => []
  | S n => [(fst e, S n)]
  end.

(** The text holds no whitespace character. *)
Definition spacefree (w : string) : bool :=
  forallb (fun c => negb (Py.isspace c)) (list_ascii_of_string w).

(** The criteria [{category: c}]. *)
Definition category_criteria (c : string) : Criteria :=
  {| trade_name := None; generic_name := None; category := Some c;
     min_price := None; max_price := None; indication := None |}.

(** The criteria [{}]. *)
Definition no_criteria : Criteria :=
  {| trade_name := None; generic_name := None; category := None;
     min_price := None; max_price := None; indication := None |}.

(** The text under a key of a record. *)
Definition field (med : medication) (key : string) : string :=
  match Dict.get key med with
  | Some (VCell (Str s)) => s
  | _ => ""
  end.

(** The term occurs, up to case, in one of the four fields a search
    reads. *)
Definition mentions (search : string) (med : medication) : bool :=
  existsb (fun key => Py.str_in (Py.lower search) (Py.lower (field med key)))
    ["Trade_Name"; "Generic_Name"; "Category"; "Indications_for_Use"].

(** The record passes the filters that are set: its category is the given
    one, letter for letter, and it mentions the term. *)
Definition wanted (search category : string) (med : medication) : bool :=
  (negb (truthy category) || String.eqb (field med "Category") category)
  && (negb (truthy search) || mentions search med).

(** The condition occurs, up to case, in the category or in the
    indications of the record. *)
Definition treats (condition : string) (med : medication) : bool :=
  Py.str_in (Py.lower condition) (Py.lower (field med "Category"))
  || Py.str_in (Py.lower condition) (Py.lower (field med "Indications_for_Use")).

(** The cut at a limit: nothing is cut when the limit is unset, is zero, or
    is not below the length. *)
Definition limited {A : Type} (limit : option Z) (l : list A) : list A :=
  match limit_set limit with
  | Some n => if (n <? Z.of_nat (List.length l))%Z then Py.slice_to l n else l
  | None => l
  end.

(** The first of the names that is no column of the frame. *)
Definition first_missing (d : DataFrame) (names : list string) : option string :=
  find (fun name => negb (has_column d name)) names.

(** ** Vocabulary for data sets with numeric columns *)

(** The frame [load_data] keeps, the processor it leaves when called on a
    new processor, and the records of the rows. *)
Definition raw_frame (to_numeric : string -> float)
    (header : list string) (lines : list (list Raw.cell)) : Raw.DataFrame :=
  Raw.clean to_numeric (Raw.frame header lines).

Definition raw_loaded (to_numeric : string -> float)
    (header : list string) (lines : list (list Raw.cell))
    : Raw.MedicationProcessor :=
  fst (Raw.load_data to_numeric Raw.__init__ (Ok (Raw.frame header lines))).

Definition raw_records (to_numeric : string -> float)
    (header : list string) (lines : list (list Raw.cell)) : list Raw.medication :=
  map (Raw.medication_of (raw_frame to_numeric header lines))
    (Raw.body (raw_frame to_numeric header lines)).

(** A name cell that the index loops get past: a text, or a number that
    is zero and so skipped. *)
Definition name_ok (c : Raw.cell) : bool :=
  match c with
  | Raw.Num x _ => negb (Raw.nonzero x)
  | _ => true
  end.

(** Every cell of the column passes the test; true when the frame has no
    such column. *)
Definition column_all (test : Raw.cell -> bool) (d : Raw.DataFrame)
    (name : string) : bool :=
  match position name (Raw.columns d) with
  | Some i => forallb test (Raw.at_column i d)
  | None => true
  end.

(** No category is a number, and no name is a number other than zero. *)
Definition indexable (d : Raw.DataFrame) : bool :=
  column_all (fun c => negb (Raw.is_number c)) d "Category"
  && column_all name_ok d "Trade_Name"
  && column_all name_ok d "Generic_Name".

(** The record holds a text under the key. *)
Definition text_field (key : string) (med : Raw.medication) : Prop :=
  exists s, Dict.get key med = Some (Raw.VCell (Raw.Str s)).










(** The text under a key of a record, empty when the record holds no text
    there. *)
Definition raw_field (med : Raw.medication) (key : string) : string :=
  match Dict.get key med with
  | Some (Raw.VCell (Raw.Str s)) => s
  | _ => ""
  end.

(** The four fields a search reads. *)
Definition searched_fields : list string :=
  [ "Trade_Name"; "Generic_Name"; "Category"; "Indications_for_Use" ].

Definition raw_mentions (search : string) (med : Raw.medication) : bool :=
  existsb (fun key => Py.str_in (Py.lower search) (Py.lower (raw_field med key)))
    searched_fields.

Definition raw_wanted (search category : string) (med : Raw.medication) : bool :=
  (negb (truthy category) || String.eqb (raw_field med "Category") category)
  && (negb (truthy search) || raw_mentions search med).

Definition raw_treats (condition : string) (med : Raw.medication) : bool :=
  Py.str_in (Py.lower condition) (Py.lower (raw_field med "Category"))
  || Py.str_in (Py.lower condition)
       (Py.lower (raw_field med "Indications_for_Use")).

(** The first of the names that is no column of the frame. *)
Definition raw_first_missing (d : Raw.DataFrame) (names : list string)
    : option string :=
  find (fun name => negb (Raw.has_column d name)) names.

(** A data set whose prices [pd.read_csv] reads as numbers. *)
Definition priced_header : list string := [ "Trade_Name"; "Price" ].

Definition priced_lines : list (list Raw.cell) :=
  [ [ Raw.Str "Panadol"; Raw.Num (Raw.Fin (15 # 1)) "15" ];
    [ Raw.Str "Lipitor"; Raw.Num (Raw.Fin (25 # 1)) "25" ] ].

(** A data set whose indications [pd.read_csv] reads as numbers. *)
Definition numeric_header : list string :=
  [ "Trade_Name"; "Category"; "Indications_for_Use" ].

Definition numeric_lines : list (list Raw.cell) :=
  [ [ Raw.Str "Panadol"; Raw.Str "Analgesic"; Raw.Num (Raw.Fin (5 # 1)) "5" ] ].

(* ================================================================= *)
(** * Properties *)

(** ** Characters *)

Lemma isspace_lower_char (c : ascii) : Py.isspace (Py.lower_char c) = Py.isspace c.
Proof. destruct c as [[] [] [] [] [] [] [] []]; reflexivity. Qed.

Lemma lower_char_idem (c : ascii) : Py.lower_char (Py.lower_char c) = Py.lower_char c.
Proof. destruct c as [[] [] [] [] [] [] [] []]; reflexivity. Qed.

Lemma lower_idem (s : string) : Py.lower (Py.lower s) = Py.lower s.
Proof.
  induction s as [|c s IH]; simpl; [reflexivity|].
  now rewrite lower_char_idem, IH.
Qed.

(** ** The normalizer *)

Lemma lower_sub_spaces (b : bool) (s : string) :
  Py.lower (Py.sub_spaces b s) = Py.sub_spaces b (Py.lower s).
Proof.
  revert b; induction s as [|c s IH]; intros b; simpl; [reflexivity|].
  rewrite isspace_lower_char.
  destruct (Py.isspace c) eqn:Hc; [destruct b|]; simpl; rewrite ?IH; reflexivity.
Qed.

Lemma lower_lstrip (s : string) : Py.lower (Py.lstrip s) = Py.lstrip (Py.lower s).
Proof.
  induction s as [|c s IH]; simpl; [reflexivity|].
  rewrite isspace_lower_char. now destruct (Py.isspace c).
Qed.

Lemma lower_rstrip (s : string) : Py.lower (Py.rstrip s) = Py.rstrip (Py.lower s).
Proof.
  induction s as [|c s IH]; simpl; [reflexivity|].
  rewrite <- IH, isspace_lower_char.
  destruct (Py.rstrip s); simpl; [now destruct (Py.isspace c)|reflexivity].
Qed.

Lemma lower_preprocess (x : string) :
  Py.lower (_preprocess_text x) = _preprocess_text x.
Proof.
  unfold _preprocess_text, Py.strip, Py.re_sub_spaces.
  now rewrite lower_rstrip, lower_lstrip, lower_sub_spaces, lower_idem.
Qed.

Lemma collapsed_sub_spaces (b : bool) (s : string) :
  collapsed b (Py.sub_spaces b s) = true.
Proof.
  revert b; induction s as [|c s IH]; intros b; simpl; [reflexivity|].
  destruct (Py.isspace c) eqn:Hc.
  - destruct b; [apply IH|]. simpl. apply IH.
  - simpl. rewrite Hc. apply IH.
Qed.

Lemma sub_spaces_collapsed (b : bool) (s : string) :
  collapsed b s = true -> Py.sub_spaces b s = s.
Proof.
  revert b; induction s as [|c s IH]; intros b H; simpl in *; [reflexivity|].
  destruct (Py.isspace c).
  - apply andb_true_iff in H as [H H2]. apply andb_true_iff in H as [H0 H1].
    apply Ascii.eqb_eq in H0. subst c.
    destruct b; [discriminate|]. now rewrite IH.
  - now rewrite IH.
Qed.

Lemma collapsed_weaken (s : string) :
  collapsed true s = true -> collapsed false s = true.
Proof.
  destruct s as [|c s]; simpl; [reflexivity|].
  destruct (Py.isspace c); [|trivial].
  rewrite andb_false_r. discriminate.
Qed.

Lemma collapsed_lstrip (b : bool) (s : string) :
  collapsed b s = true -> collapsed false (Py.lstrip s) = true.
Proof.
  revert b; induction s as [|c s IH]; intros b H; simpl in *; [reflexivity|].
  destruct (Py.isspace c) eqn:Hc.
  - apply andb_true_iff in H as [_ H]. now apply (IH true).
  - simpl. now rewrite Hc.
Qed.

Lemma collapsed_rstrip (b : bool) (s : string) :
  collapsed b s = true -> collapsed b (Py.rstrip s) = true.
Proof.
  revert b; induction s as [|c s IH]; intros b H; simpl in *; [reflexivity|].
  destruct (Py.isspace c) eqn:Hc.
  - apply andb_true_iff in H as [H0 H].
    specialize (IH true H).
    destruct (Py.rstrip s); [reflexivity|].
    simpl. rewrite Hc, H0. exact IH.
  - specialize (IH false H).
    destruct (Py.rstrip s); simpl; rewrite Hc; [reflexivity|exact IH].
Qed.

Lemma starts_clean_lstrip (s : string) : starts_clean (Py.lstrip s).
Proof.
  induction s as [|c s IH]; simpl; [exact I|].
  destruct (Py.isspace c) eqn:Hc; [exact IH|exact Hc].
Qed.

Lemma lstrip_starts_clean (s : string) : starts_clean s -> Py.lstrip s = s.
Proof. destruct s as [|c s]; simpl; [reflexivity|]. now intros ->. Qed.

Lemma starts_clean_rstrip (s : string) : starts_clean s -> starts_clean (Py.rstrip s).
Proof.
  destruct s as [|c s]; simpl; [trivial|]. intros Hc.
  destruct (Py.rstrip s); [rewrite Hc|]; exact Hc.
Qed.

Lemma rstrip_idem (s : string) : Py.rstrip (Py.rstrip s) = Py.rstrip s.
Proof.
  induction s as [|c s IH]; simpl; [reflexivity|].
  destruct (Py.rstrip s) as [|d r] eqn:Hr.
  - destruct (Py.isspace c) eqn:Hc; simpl; [reflexivity|now rewrite Hc].
  - change (Py.rstrip (String c (String d r)) = String c (String d r)).
    cbn [Py.rstrip]. cbn [Py.rstrip] in IH.
    destruct (Py.rstrip r) as [|e r'] eqn:Hr'.
    + destruct (Py.isspace d); [discriminate|]. now inversion IH.
    + now inversion IH.
Qed.

Lemma strip_idem (s : string) : Py.strip (Py.strip s) = Py.strip s.
Proof.
  unfold Py.strip.
  rewrite (lstrip_starts_clean (Py.rstrip (Py.lstrip s))).
  - apply rstrip_idem.
  - apply starts_clean_rstrip, starts_clean_lstrip.
Qed.

Lemma preprocess_text_idempotent (x : string) :
  _preprocess_text (_preprocess_text x) = _preprocess_text x.
Proof.
  remember (_preprocess_text x) as y eqn:Hy.
  unfold _preprocess_text at 1.
  rewrite Hy, lower_preprocess.
  unfold _preprocess_text, Py.re_sub_spaces.
  rewrite (@sub_spaces_collapsed false).
  - apply strip_idem.
  - unfold Py.strip. apply collapsed_rstrip, (@collapsed_lstrip false).
    apply collapsed_sub_spaces.
Qed.

Lemma split_words_nonempty (s w : string) : In w (Py.split s) -> w <> "".
Proof.
  revert w; induction s as [|c s IH]; intros w H; simpl in H; [contradiction|].
  destruct (Py.isspace c); [now apply IH|].
  destruct s as [|d s']; [destruct H as [<-|[]]; discriminate|].
  destruct (Py.isspace d).
  - destruct H as [<-|H]; [discriminate|now apply IH].
  - destruct (Py.split (String d s')) as [|w0 ws].
    + destruct H as [<-|[]]; discriminate.
    + destruct H as [<-|H]; [discriminate|]. apply IH. now right.
Qed.

Lemma split_starts_clean (c : ascii) (s : string) :
  Py.isspace c = false -> Py.split (String c s) <> [].
Proof.
  intros Hc. simpl. rewrite Hc.
  destruct s as [|d s']; [discriminate|].
  destruct (Py.isspace d); [discriminate|].
  destruct (Py.split (String d s')); discriminate.
Qed.

Lemma join_cons_char (sep : string) (c : ascii) (w : string) (ws : list string) :
  Py.join sep (String c w :: ws) = String c (Py.join sep (w :: ws)).
Proof. destruct ws; reflexivity. Qed.

Lemma join_nonempty (sep w : string) (ws : list string) :
  w <> "" -> Py.join sep (w :: ws) <> "".
Proof.
  destruct w as [|c w]; [congruence|]. intros _.
  rewrite join_cons_char. discriminate.
Qed.

Lemma rstrip_cons_clean (c : ascii) (r : string) :
  Py.isspace c = false -> Py.rstrip (String c r) = String c (Py.rstrip r).
Proof. intros Hc. simpl. destruct (Py.rstrip r); [now rewrite Hc|reflexivity]. Qed.

Lemma starts_clean_sub_spaces (s : string) : starts_clean (Py.sub_spaces true s).
Proof.
  induction s as [|c s IH]; simpl; [exact I|].
  destruct (Py.isspace c) eqn:Hc; [exact IH|exact Hc].
Qed.

Lemma split_cons_clean (c : ascii) (s : string) :
  Py.isspace c = false ->
  Py.split (String c s) =
  match s with
  | EmptyString => [String c EmptyString]
  | String d _ =>
      if Py.isspace d then String c EmptyString :: Py.split s
      else match Py.split s with
           | w :: ws => String c w :: ws
           | [] => [String c EmptyString]
           end
  end.
Proof. intros Hc. simpl. now rewrite Hc. Qed.

Lemma sub_spaces_clean_head (b : bool) (c : ascii) (s : string) :
  Py.isspace c = false ->
  Py.sub_spaces b (String c s) = String c (Py.sub_spaces false s).
Proof. intros Hc. simpl. now rewrite Hc. Qed.

Lemma rstrip_sub_spaces_words (s : string) :
  Py.rstrip (Py.sub_spaces true s) = Py.join " " (Py.split s).
Proof.
  induction s as [|c s IH]; [reflexivity|].
  destruct (Py.isspace c) eqn:Hc.
  - simpl. rewrite Hc. exact IH.
  - rewrite (sub_spaces_clean_head true c s Hc), (rstrip_cons_clean c _ Hc),
      (split_cons_clean c s Hc).
    destruct s as [|d s']; [reflexivity|].
    destruct (Py.isspace d) eqn:Hd.
    + assert (E : Py.sub_spaces false (String d s')
                  = String " " (Py.sub_spaces true (String d s')))
        by (simpl; now rewrite Hd).
      rewrite E. cbn [Py.rstrip]. rewrite IH.
      destruct (Py.split (String d s')) as [|w ws] eqn:Hw; [reflexivity|].
      assert (Hne : Py.join " " (w :: ws) <> "").
      { apply join_nonempty, (split_words_nonempty (String d s')).
        rewrite Hw. now left. }
      change (Py.join " " (String c "" :: w :: ws))
        with (String c (String " " (Py.join " " (w :: ws)))).
      destruct (Py.join " " (w :: ws)) as [|e j]; [congruence|reflexivity].
    + rewrite (sub_spaces_clean_head false d s' Hd),
        <- (sub_spaces_clean_head true d s' Hd), IH.
      destruct (Py.split (String d s')) as [|w ws] eqn:Hw.
      * exfalso. now apply (split_starts_clean d s' Hd).
      * now rewrite join_cons_char.
Qed.

Lemma strip_sub_spaces (s : string) :
  Py.strip (Py.sub_spaces false s) = Py.rstrip (Py.sub_spaces true s).
Proof.
  unfold Py.strip. destruct s as [|c s]; [reflexivity|].
  cbn [Py.sub_spaces].
  destruct (Py.isspace c) eqn:Hc.
  - change (Py.lstrip (String " " (Py.sub_spaces true s)))
      with (Py.lstrip (Py.sub_spaces true s)).
    now rewrite (lstrip_starts_clean _ (starts_clean_sub_spaces s)).
  - cbn [Py.lstrip]. now rewrite Hc.
Qed.

Lemma preprocess_text_words (x : string) :
  _preprocess_text x = normalize_words x.
Proof.
  unfold _preprocess_text, normalize_words, Py.re_sub_spaces.
  now rewrite strip_sub_spaces, rstrip_sub_spaces_words.
Qed.

(** ** The regex matcher on literal patterns *)

Lemma rmatch_lit (p : string) : forall prev s g k,
  Re.rmatch (Re.lit p) prev s g k =
  if prefix p s then k (last_of p prev) (skip (length p) s) g else None.
Proof.
  induction p as [|c p IH]; intros prev s g k.
  - destruct s; reflexivity.
  - cbn [Re.lit Re.rmatch].
    destruct s as [|x s]; [reflexivity|].
    cbn [prefix length skip last_of].
    destruct (ascii_dec c x) as [->|Hne].
    + rewrite Ascii.eqb_refl. apply IH.
    + destruct (Ascii.eqb_spec x c) as [->|_]; [congruence|reflexivity].
Qed.

Lemma rmatch_word_pattern (p : string) (prev : option ascii) (s : string) :
  Re.rmatch (word_pattern p) prev s [] Re.accept =
  if bounded_here prev p s then Some [] else None.
Proof.
  unfold word_pattern, bounded_here. cbn [Re.rmatch].
  destruct (Re.boundary prev (Re.head s)); [|reflexivity].
  rewrite rmatch_lit. cbn [andb].
  destruct (prefix p s); [|reflexivity].
  cbn [Re.rmatch andb].
  now destruct (Re.boundary _ _).
Qed.

Lemma prefix_head (p s : string) :
  prefix p s = true -> p <> "" -> Re.head s = Re.head p.
Proof.
  destruct p as [|c p]; [congruence|]. intros H _.
  destruct s as [|x s]; [discriminate|]. simpl in *.
  destruct (ascii_dec c x); [now subst|discriminate].
Qed.

Lemma last_of_cons_word (p : string) (prev : option ascii) :
  p <> "" -> last_of p prev = last_of p None.
Proof. destruct p; [congruence|reflexivity]. Qed.

Lemma bounded_here_word (prev : option ascii) (p s : string) :
  word_ended p = true ->
  bounded_here prev p s =
  negb (Re.isword_opt prev) && prefix p s
  && negb (Re.isword_opt (Re.head (skip (length p) s))).
Proof.
  unfold word_ended, bounded_here. intros H.
  apply andb_true_iff in H as [Hh Hl].
  assert (Hp : p <> "") by (destruct p; [discriminate|congruence]).
  destruct (prefix p s) eqn:Hpre.
  - rewrite (prefix_head p s Hpre Hp), (last_of_cons_word p prev Hp).
    unfold Re.boundary. rewrite Hh, Hl.
    now destruct (Re.isword_opt prev), (Re.isword_opt (Re.head (skip (length p) s))).
  - now rewrite !andb_false_r.
Qed.

Lemma search_word_pattern (p : string) : word_ended p = true ->
  forall s prev,
  Re.search_from (word_pattern p) prev s =
  if whole_word_from prev p s then Some [] else None.
Proof.
  intros Hp s. induction s as [|c s IH]; intros prev.
  - cbn [Re.search_from whole_word_from].
    rewrite rmatch_word_pattern, (bounded_here_word prev p "" Hp).
    rewrite orb_false_r. now destruct (_ && _).
  - cbn [Re.search_from whole_word_from].
    rewrite rmatch_word_pattern, (bounded_here_word prev p _ Hp), IH.
    now destruct (_ && _).
Qed.

Lemma prefix_skip (p t : string) :
  prefix p t = true -> t = p ++ skip (length p) t.
Proof.
  revert t; induction p as [|c p IH]; intros t H; [reflexivity|].
  destruct t as [|x t]; [discriminate|]. simpl in *.
  destruct (ascii_dec c x) as [->|]; [|discriminate].
  f_equal. now apply IH.
Qed.

Lemma prefix_app (p a : string) : prefix p (p ++ a) = true.
Proof.
  induction p as [|c p IH]; simpl; [now destruct a|].
  destruct (ascii_dec c c); [exact IH|congruence].
Qed.

Lemma skip_app (p a : string) : skip (length p) (p ++ a) = a.
Proof. induction p as [|c p IH]; simpl; [reflexivity|exact IH]. Qed.

Lemma whole_word_from_spec (p : string) : forall t prev,
  whole_word_from prev p t = true <->
  exists before after,
    t = before ++ p ++ after
    /\ Re.isword_opt (last_of before prev) = false
    /\ Re.isword_opt (Re.head after) = false.
Proof.
  intros t prev; split.
  - revert prev; induction t as [|c t IH]; intros prev H;
      cbn [whole_word_from] in H; apply orb_true_iff in H as [H|H].
    + apply andb_true_iff in H as [H H2]. apply andb_true_iff in H as [H0 H1].
      exists "", (skip (length p) ""). repeat split.
      * now apply prefix_skip.
      * now apply negb_true_iff.
      * now apply negb_true_iff.
    + discriminate.
    + apply andb_true_iff in H as [H H2]. apply andb_true_iff in H as [H0 H1].
      exists "", (skip (length p) (String c t)). repeat split.
      * now apply prefix_skip.
      * now apply negb_true_iff.
      * now apply negb_true_iff.
    + destruct (IH (Some c) H) as (b & a & E & Hb & Ha).
      exists (String c b), a. repeat split; [simpl; now rewrite E|exact Hb|exact Ha].
  - intros (b & a & E & Hb & Ha). subst t.
    revert prev Hb; induction b as [|c b IH]; intros prev Hb.
    + cbn [append last_of] in *.
      assert (H : negb (Re.isword_opt prev) && prefix p (p ++ a)
                  && negb (Re.isword_opt (Re.head (skip (length p) (p ++ a)))) = true).
      { now rewrite prefix_app, skip_app, Hb, Ha. }
      destruct (p ++ a); cbn [whole_word_from]; now rewrite H.
    + cbn [append whole_word_from]. rewrite (IH (Some c) Hb). apply orb_true_r.
Qed.

Lemma whole_word_inb_spec (p t : string) :
  whole_word_inb p t = true <-> whole_word_in p t.
Proof. apply whole_word_from_spec. Qed.

(** ** Dictionaries *)

Section DictFacts.
Context {K V : Type} {EK : Eqb K}.

Lemma eqb_refl' (k : K) : eqb k k = true.
Proof. now apply eqb_eq. Qed.

Lemma eqb_neq' (a b : K) : a <> b -> eqb a b = false.
Proof.
  intros H. destruct (eqb a b) eqn:E; [|reflexivity].
  apply eqb_eq in E. contradiction.
Qed.

Lemma get_set_same (k : K) (v : V) (d : Dict.t K V) :
  Dict.get k (Dict.set k v d) = Some v.
Proof.
  induction d as [|[k' v'] d IH]; simpl.
  - now rewrite eqb_refl'.
  - destruct (eqb k' k) eqn:E; simpl; rewrite E; [reflexivity|exact IH].
Qed.

Lemma get_set_other (k k' : K) (v : V) (d : Dict.t K V) :
  k <> k' -> Dict.get k' (Dict.set k v d) = Dict.get k' d.
Proof.
  intros Hne. induction d as [|[k0 v0] d IH]; simpl.
  - now rewrite (eqb_neq' k k' Hne).
  - destruct (eqb k0 k) eqn:E; simpl.
    + apply eqb_eq in E. subst k0. now rewrite (eqb_neq' k k' Hne).
    + now rewrite IH.
Qed.

Lemma get_In (k : K) (v : V) (d : Dict.t K V) :
  Dict.get k d = Some v -> In (k, v) d.
Proof.
  induction d as [|[k0 v0] d IH]; simpl; [discriminate|].
  destruct (eqb k0 k) eqn:E.
  - apply eqb_eq in E. subst k0. intros [= ->]. now left.
  - intros H. right. now apply IH.
Qed.

Lemma In_get (k : K) (v : V) (d : Dict.t K V) :
  NoDup (map fst d) -> In (k, v) d -> Dict.get k d = Some v.
Proof.
  induction d as [|[k0 v0] d IH]; simpl; [contradiction|].
  intros Hnd [H|H].
  - inversion H; subst. now rewrite eqb_refl'.
  - inversion Hnd as [|? ? Hnotin Hnd']; subst.
    destruct (eqb k0 k) eqn:E.
    + apply eqb_eq in E. subst k0. exfalso. apply Hnotin.
      now apply (in_map fst) in H.
    + now apply IH.
Qed.

(** Assigning fresh keys one after the other lists them in order. *)
Lemma set_fresh (k : K) (v : V) (d : Dict.t K V) :
  ~ In k (map fst d) -> Dict.set k v d = (d ++ [(k, v)])%list.
Proof.
  induction d as [|[k0 v0] d IH]; simpl; [reflexivity|].
  intros H. rewrite eqb_neq' by (intros ->; apply H; now left).
  rewrite IH; [reflexivity|]. intros Hin. apply H. now right.
Qed.
End DictFacts.

(** ** Intent counting *)

Lemma count_match_same (intent : string) (m : Dict.t string nat) :
  Dict.get intent (count_match intent m) = Some (num (Dict.get intent m) + 1).
Proof.
  unfold count_match. destruct (Dict.get intent m) as [n|] eqn:E; simpl;
    now rewrite get_set_same.
Qed.

Lemma count_match_other (intent l : string) (m : Dict.t string nat) :
  intent <> l -> Dict.get l (count_match intent m) = Dict.get l m.
Proof.
  intros H. unfold count_match.
  destruct (Dict.get intent m); now rewrite get_set_other.
Qed.

Lemma count_patterns_same (t intent : string) (ps : list string) :
  forall m,
  num (Dict.get intent (count_patterns t intent ps m)) =
  num (Dict.get intent m) + List.length (filter (hit t) ps).
Proof.
  unfold count_patterns.
  induction ps as [|p ps IH]; intros m; simpl; [lia|].
  rewrite IH. unfold hit at 2.
  destruct (Re.search (word_pattern p) t); simpl; [|lia].
  rewrite count_match_same. simpl. lia.
Qed.

Lemma count_patterns_other (t intent l : string) (ps : list string) :
  intent <> l -> forall m,
  Dict.get l (count_patterns t intent ps m) = Dict.get l m.
Proof.
  intros Hne. unfold count_patterns.
  induction ps as [|p ps IH]; intros m; simpl; [reflexivity|].
  rewrite IH. destruct (Re.search (word_pattern p) t); [|reflexivity].
  now apply count_match_other.
Qed.

Lemma count_table (t : string) (table : Dict.t string (list string)) :
  NoDup (map fst table) ->
  forall label ps m, In (label, ps) table ->
  num (Dict.get label
         (fold_left (fun matched '(intent, patterns) =>
                       count_patterns t intent patterns matched) table m)) =
  num (Dict.get label m) + List.length (filter (hit t) ps).
Proof.
  induction table as [|[l0 ps0] table IH]; intros Hnd label ps m Hin;
    [contradiction|].
  inversion Hnd as [|? ? Hnotin Hnd']; subst. simpl.
  destruct Hin as [Hin|Hin].
  - inversion Hin; subst.
    assert (Hkeep : forall m',
      Dict.get label
        (fold_left (fun matched '(intent, patterns) =>
                      count_patterns t intent patterns matched) table m')
      = Dict.get label m').
    { clear IH Hnd Hnd'. induction table as [|[l1 ps1] table IHt]; intros m';
        [reflexivity|]. simpl.
      rewrite IHt by (intros H; apply Hnotin; now right).
      apply count_patterns_other. intros ->. apply Hnotin. now left. }
    rewrite Hkeep. apply count_patterns_same.
  - rewrite (IH Hnd' label ps _ Hin). f_equal. f_equal.
    apply count_patterns_other. intros ->. apply Hnotin.
    now apply (in_map fst) in Hin.
Qed.

Lemma intent_labels_distinct : NoDup (map fst intent_patterns).
Proof.
  simpl. repeat (constructor; [simpl; intuition discriminate|]). constructor.
Qed.

Lemma intent_patterns_word_ended (label : string) (ps : list string) (p : string) :
  In (label, ps) intent_patterns -> In p ps -> word_ended p = true.
Proof.
  intros Hl Hp.
  assert (H : forallb (fun '(_, ps) => forallb word_ended ps) intent_patterns = true)
    by reflexivity.
  rewrite forallb_forall in H. specialize (H _ Hl). simpl in H.
  rewrite forallb_forall in H. now apply H.
Qed.

(** C4 (amended).  For every label of the intent table, the match count of a
    text is the number of the label's patterns that occur in the normalized
    text as whole words: every pattern, single word or phrase, is searched
    between two word boundaries and counts at most once. *)
Theorem intent_match_count_whole_words (text label : string) (patterns : list string) :
  In (label, patterns) (Dict.items intent_patterns) ->
  match_count text label =
    List.length (filter (fun p => whole_word_inb p (_preprocess_text text)) patterns)
  /\ (forall p, whole_word_inb p (_preprocess_text text) = true
                <-> whole_word_in p (_preprocess_text text)).
Proof.
  intros Hin. split; [|intros p; apply whole_word_inb_spec].
  unfold match_count, matched_intents, Dict.items in *.
  fold (num (Dict.get label
    (fold_left (fun matched '(intent, patterns) =>
                  count_patterns (_preprocess_text text) intent patterns matched)
       intent_patterns []))).
  rewrite (count_table (_preprocess_text text) intent_patterns
             intent_labels_distinct label patterns [] Hin).
  simpl. f_equal. apply filter_ext_in. intros p Hp.
  unfold hit, Re.search.
  rewrite (search_word_pattern p (intent_patterns_word_ended label patterns p Hin Hp)).
  unfold whole_word_inb. now destruct (whole_word_from _ _ _).
Qed.

Lemma intent_match_count_witness :
  In ("price", [ "price"; "cost"; "how much"; "expensive"; "cheap"; "afford" ])
     (Dict.items intent_patterns)
  /\ match_count "How much does it COST?" "price" = 2.
Proof.
  assert (H : In ("price", [ "price"; "cost"; "how much"; "expensive"; "cheap"; "afford" ])
                 (Dict.items intent_patterns))
    by (right; left; reflexivity).
  split; [exact H|].
  rewrite (proj1 (intent_match_count_whole_words "How much does it COST?" "price" _ H)).
  reflexivity.
Defined.

(** The count the specification words differs on a phrase followed by a
    letter: the phrase is a substring of the text and yet is not counted. *)
Lemma intent_phrase_not_substring_matched :
  exists patterns,
    Dict.get "side_effects" intent_patterns = Some patterns
    /\ match_count "side effects of panadol" "side_effects"
       <> List.length
            (filter (fun p => word_or_phrase_inb p
                                (_preprocess_text "side effects of panadol"))
               patterns).
Proof. eexists. split; [reflexivity|]. vm_compute. discriminate. Qed.

(** ** Condition extraction *)

(** C2.  The last template returns its first group, the verb, where the
    phrase after the verb is expected; the other templates return the
    phrase. *)
Theorem category_query_last_template_returns_verb :
  _identify_category_query "what treats headache" = Ok (Some "treats")
  /\ _identify_category_query "what helps with a sore throat" = Ok (Some "helps with")
  /\ _identify_category_query "medications for headache" = Ok (Some "headache").
Proof. repeat split; reflexivity. Qed.

(** ** The normalizer, continued *)

Lemma In_sub_spaces (c : ascii) (b : bool) (s : string) :
  Py.isspace c = false -> In c (list_ascii_of_string s) ->
  In c (list_ascii_of_string (Py.sub_spaces b s)).
Proof.
  intros Hc. revert b; induction s as [|x s IH]; intros b H; simpl in *;
    [contradiction|].
  destruct H as [->|H].
  - rewrite Hc. now left.
  - destruct (Py.isspace x); [destruct b|]; simpl; auto.
Qed.

Lemma In_lstrip (c : ascii) (s : string) :
  Py.isspace c = false -> In c (list_ascii_of_string s) ->
  In c (list_ascii_of_string (Py.lstrip s)).
Proof.
  intros Hc. induction s as [|x s IH]; intros H; simpl in *; [contradiction|].
  destruct (Py.isspace x) eqn:Hx; [|exact H].
  destruct H as [->|H]; [congruence|auto].
Qed.

Lemma In_rstrip (c : ascii) (s : string) :
  Py.isspace c = false -> In c (list_ascii_of_string s) ->
  In c (list_ascii_of_string (Py.rstrip s)).
Proof.
  intros Hc. induction s as [|x s IH]; intros H; simpl in *; [contradiction|].
  destruct H as [->|H].
  - destruct (Py.rstrip s); [rewrite Hc|]; now left.
  - specialize (IH H). destruct (Py.rstrip s); [contradiction|now right].
Qed.

Lemma In_lower (c : ascii) (s : string) :
  In c (list_ascii_of_string s) ->
  In (Py.lower_char c) (list_ascii_of_string (Py.lower s)).
Proof.
  induction s as [|x s IH]; simpl; [trivial|].
  intros [->|H]; [now left|right; auto].
Qed.

Lemma punctuation_fixed (c : ascii) :
  is_punctuation c = true -> Py.lower_char c = c /\ Py.isspace c = false.
Proof. destruct c as [[] [] [] [] [] [] [] []]; (discriminate || (split; reflexivity)). Qed.

(** C5 (amended).  The normalizer lowercases the text, turns every run of
    whitespace into one space and trims both ends, that is, it returns the
    lowercased words joined by single spaces; it removes nothing else, so
    every punctuation character of the input is still in the output; and it
    is idempotent. *)
Theorem preprocess_text_normal_form (x : string) :
  _preprocess_text x = normalize_words x
  /\ (forall c, is_punctuation c = true ->
        In c (list_ascii_of_string x) ->
        In c (list_ascii_of_string (_preprocess_text x)))
  /\ _preprocess_text (_preprocess_text x) = _preprocess_text x.
Proof.
  split; [apply preprocess_text_words|].
  split; [|apply preprocess_text_idempotent].
  intros c Hp Hin. destruct (punctuation_fixed c Hp) as [Hl Hs].
  unfold _preprocess_text, Py.strip, Py.re_sub_spaces.
  apply In_rstrip, In_lstrip, In_sub_spaces; try exact Hs.
  rewrite <- Hl. now apply In_lower.
Qed.

(** The normalizer leaves the comma and the exclamation mark in place. *)
Lemma preprocess_text_keeps_punctuation :
  ~ removes_punctuation _preprocess_text "Panadol,  please!".
Proof.
  intros H. specialize (H ","%char).
  assert (Hin : In ","%char (list_ascii_of_string (_preprocess_text "Panadol,  please!")))
    by (vm_compute; tauto).
  specialize (H Hin). discriminate.
Qed.

Lemma preprocess_text_normal_form_witness :
  In ","%char (list_ascii_of_string (_preprocess_text "Panadol,  please!")).
Proof.
  apply (proj1 (proj2 (preprocess_text_normal_form "Panadol,  please!")) ","%char).
  - reflexivity.
  - vm_compute. tauto.
Defined.

(** ** Loading *)

Lemma str_of_nat_inj (a b : nat) : Py.str_of_nat a = Py.str_of_nat b -> a = b.
Proof.
  unfold Py.str_of_nat. intros H.
  apply (f_equal NilEmpty.uint_of_string) in H.
  rewrite !NilEmpty.usu in H. injection H as H.
  apply (f_equal Nat.of_uint) in H.
  now rewrite !DecimalNat.Unsigned.of_to in H.
Qed.

Lemma map_fst_combine_seq {A : Type} (l : list A) (start : nat) :
  map fst (combine (seq start (List.length l)) l) = seq start (List.length l).
Proof.
  revert start; induction l as [|a l IH]; intros start; simpl; [reflexivity|].
  now rewrite IH.
Qed.

Lemma frame_labels (header : list string) (lines : list (list cell)) :
  map label (body (frame header lines)) = seq 0 (List.length lines).
Proof.
  unfold frame, enumerate. simpl. rewrite map_map.
  transitivity (map fst (combine (seq 0 (List.length lines)) lines)).
  - apply map_ext. now intros [i cs].
  - apply map_fst_combine_seq.
Qed.

Lemma clean_labels (tn : string -> float) (d : DataFrame) :
  map label (body (clean tn d)) = map label (body d).
Proof.
  unfold clean, fillna. cbn [columns body].
  destruct (has_column _ "Price"); cbn [body]; rewrite ?map_map; reflexivity.
Qed.

Lemma loaded_frame_labels (tn : string -> float) (header : list string)
    (lines : list (list cell)) :
  map label (body (loaded_frame tn header lines)) = seq 0 (List.length lines).
Proof. unfold loaded_frame. now rewrite clean_labels, frame_labels. Qed.

Lemma NoDup_map_inj {A B : Type} (f : A -> B) (l : list A) :
  (forall x y, f x = f y -> x = y) -> NoDup l -> NoDup (map f l).
Proof.
  intros Hinj. induction 1 as [|x l Hx Hnd IH]; simpl; constructor; [|exact IH].
  intros Hin. apply in_map_iff in Hin as (y & Hy & Hin).
  apply Hinj in Hy. now subst.
Qed.

Lemma loaded_keys_distinct (tn : string -> float) (header : list string)
    (lines : list (list cell)) :
  NoDup (map (fun r => Py.str_of_nat (label r)) (body (loaded_frame tn header lines))).
Proof.
  rewrite <- (map_map label Py.str_of_nat), loaded_frame_labels.
  apply NoDup_map_inj; [apply str_of_nat_inj|apply seq_NoDup].
Qed.

(** Filling a dictionary with distinct keys lists the entries in order. *)
Lemma fold_set_fresh {A V : Type} (key : A -> string) (val : A -> V) (l : list A) :
  forall acc : Dict.t string V,
  NoDup (map fst acc ++ map key l) ->
  fold_left (fun m r => Dict.set (key r) (val r) m) l acc
  = (acc ++ map (fun r => (key r, val r)) l)%list.
Proof.
  induction l as [|r l IH]; intros acc Hnd; simpl.
  - now rewrite app_nil_r.
  - rewrite set_fresh.
    + rewrite IH.
      * now rewrite <- app_assoc.
      * rewrite map_app. simpl. rewrite <- app_assoc. exact Hnd.
    + simpl in Hnd. apply NoDup_remove_2 in Hnd.
      intros Hin. apply Hnd. apply in_or_app. now left.
Qed.

Lemma column_col_cells (d : DataFrame) (name : string) :
  has_column d name = true -> column d name = Ok (col_cells d name).
Proof.
  unfold has_column, column, col_cells.
  now destruct (position name (columns d)).
Qed.

Lemma col_cells_absent (d : DataFrame) (name : string) :
  has_column d name = false -> col_cells d name = [].
Proof.
  unfold has_column, col_cells. now destruct (position name (columns d)).
Qed.

(** Decide whether a column is there, and read it when it is. *)
Ltac case_column d name :=
  let H := fresh "Hcol" in
  destruct (has_column d name) eqn:H;
  [ rewrite (column_col_cells d name H)
  | rewrite ?(col_cells_absent d name H) ];
  cbv [bind df set_df set_categories set_trade_name_index set_generic_name_index
       set_medications_dict categories trade_name_index generic_name_index
       category_index medications_dict __init__].

Section Loaded.
Variable to_numeric : string -> float.
Variable header : list string.
Variable lines : list (list cell).

Let d := loaded_frame to_numeric header lines.
Let self := loaded to_numeric header lines.

(** The state a fresh processor reaches by [load_data]. *)
Lemma load_data_state :
  load_data to_numeric __init__ (Ok (frame header lines)) =
  ({| df := Some d;
      medications_dict :=
        map (fun r => (Py.str_of_nat (label r), medication_of d r)) (body d);
      categories := sorted (unique (dropna (col_cells d "Category")));
      trade_name_index := index_names (col_cells d "Trade_Name") [];
      generic_name_index := index_names (col_cells d "Generic_Name") [];
      category_index :=
        fold_left (fun ix category => Dict.set (Py.lower category) category ix)
          (sorted (unique (dropna (col_cells d "Category")))) [] |}, true).
Proof.
  unfold load_data, _clean_data, _create_indexes, _create_medications_dict.
  cbv [df set_df bind __init__].
  fold (loaded_frame to_numeric header lines). fold d.
  pose proof (fold_set_fresh (fun r => Py.str_of_nat (label r)) (medication_of d)
                (body d) [] (loaded_keys_distinct to_numeric header lines)) as Hm.
  cbn [app] in Hm.
  case_column d "Category"; case_column d "Trade_Name";
    case_column d "Generic_Name";
    rewrite Hm; reflexivity.
Qed.

Lemma loaded_df : df self = Some d.
Proof. unfold self, loaded. now rewrite load_data_state. Qed.

Lemma loaded_medications_dict :
  medications_dict self =
  map (fun r => (Py.str_of_nat (label r), medication_of d r)) (body d).
Proof. unfold self, loaded. now rewrite load_data_state. Qed.

Lemma loaded_categories :
  categories self = sorted (unique (dropna (col_cells d "Category"))).
Proof. unfold self, loaded. now rewrite load_data_state. Qed.

Lemma loaded_trade_name_index :
  trade_name_index self = index_names (col_cells d "Trade_Name") [].
Proof. unfold self, loaded. now rewrite load_data_state. Qed.

Lemma loaded_generic_name_index :
  generic_name_index self = index_names (col_cells d "Generic_Name") [].
Proof. unfold self, loaded. now rewrite load_data_state. Qed.

Lemma loaded_values : Dict.values (medications_dict self) = records to_numeric header lines.
Proof.
  rewrite loaded_medications_dict. unfold Dict.values, records.
  rewrite map_map. reflexivity.
Qed.

End Loaded.

(** C6.  A blank category is listed: a missing cell is filled with the
    empty string before [dropna] runs, so the second row of the sample puts
    the empty string into the categories, next to the three records. *)
Theorem categories_list_blank_value :
  categories sample = [ ""; "Analgesic"; "Statin" ]
  /\ List.length (Dict.values (medications_dict sample)) = 3.
Proof. split; reflexivity. Qed.

(** ** Search *)

(** C10.  A limit of zero is no limit: whatever the table, the term and the
    category, [get_medications] returns what it returns without a limit. *)
Theorem get_medications_limit_zero (self : MedicationProcessor)
    (search category : string) :
  get_medications self search category (Some 0%Z)
  = get_medications self search category None.
Proof. reflexivity. Qed.

Lemma subseq_refl {A : Type} (l : list A) : subseq l l.
Proof. induction l; [apply subseq_nil|apply subseq_keep; assumption]. Qed.

Lemma subseq_trans {A : Type} (l1 l2 l3 : list A) :
  subseq l1 l2 -> subseq l2 l3 -> subseq l1 l3.
Proof.
  intros H12 H23. revert l1 H12.
  induction H23 as [|x l l' H IH|x l l' H IH]; intros l1 H12.
  - exact H12.
  - apply subseq_skip. now apply IH.
  - inversion H12; subst; [apply subseq_skip|apply subseq_keep]; now apply IH.
Qed.

Lemma subseq_firstn {A : Type} (n : nat) (l : list A) : subseq (firstn n l) l.
Proof.
  revert n; induction l as [|x l IH]; intros [|n]; simpl.
  - constructor.
  - constructor.
  - apply subseq_skip. apply (IH 0).
  - apply subseq_keep. apply IH.
Qed.

Lemma subseq_filter {A : Type} (f : A -> bool) (l : list A) : subseq (filter f l) l.
Proof.
  induction l as [|x l IH]; simpl; [constructor|].
  destruct (f x); [apply subseq_keep|apply subseq_skip]; exact IH.
Qed.

Lemma subseq_map {A B : Type} (f : A -> B) (l l' : list A) :
  subseq l l' -> subseq (map f l) (map f l').
Proof.
  induction 1; simpl;
    [apply subseq_nil|apply subseq_skip|apply subseq_keep]; assumption.
Qed.

Lemma subseq_slice_to {A : Type} (l : list A) (n : Z) : subseq (Py.slice_to l n) l.
Proof. unfold Py.slice_to. destruct (n <? 0)%Z; apply subseq_firstn. Qed.

Lemma filterM_subseq {A : Type} (f : A -> result bool) (l r : list A) :
  filterM f l = Ok r -> subseq r l.
Proof.
  revert r; induction l as [|x l IH]; intros r; simpl.
  - intros [= <-]. constructor.
  - destruct (f x) as [keep|]; [|discriminate]. cbn [bind].
    destruct (filterM f l) as [rest|]; [|discriminate]. cbn [bind].
    intros [= <-].
    destruct keep; [apply subseq_keep|apply subseq_skip]; now apply IH.
Qed.

Lemma slice_to_nonneg {A : Type} (l : list A) (n : Z) :
  (0 <= n)%Z -> Py.slice_to l n = firstn (Z.to_nat n) l.
Proof.
  intros H. unfold Py.slice_to.
  destruct (n <? 0)%Z eqn:E; [|reflexivity].
  apply Z.ltb_lt in E. lia.
Qed.

Lemma limit_set_pos (n : Z) : (0 < n)%Z -> limit_set (Some n) = Some n.
Proof.
  intros H. unfold limit_set.
  destruct (n =? 0)%Z eqn:E; [|reflexivity].
  apply Z.eqb_eq in E. lia.
Qed.

(** A limit below the number of results keeps the first [limit] of them. *)
Lemma get_medications_limit (self : MedicationProcessor)
    (search category : string) (limit : Z) (l : list medication) :
  get_medications self search category None = Ok l ->
  (0 < limit < Z.of_nat (List.length l))%Z ->
  get_medications self search category (Some limit)
  = Ok (firstn (Z.to_nat limit) l).
Proof.
  unfold get_medications. intros H [Hpos Hlt].
  rewrite (limit_set_pos limit Hpos). cbn [limit_set] in H.
  destruct (negb (truthy search) && negb (truthy category)).
  - injection H as <-. now rewrite slice_to_nonneg by lia.
  - repeat match goal with
           | H : bind ?m _ = Ok _ |- _ =>
               destruct m; cbn [bind] in H |- *; [|discriminate]
           end.
    injection H as <-.
    apply Z.ltb_lt in Hlt. rewrite Hlt.
    now rewrite slice_to_nonneg by lia.
Qed.

Section SearchLoaded.
Variable to_numeric : string -> float.
Variable header : list string.
Variable lines : list (list cell).

Local Abbreviation d := (loaded_frame to_numeric header lines).
Local Abbreviation self := (loaded to_numeric header lines).

Lemma loaded_get (r : Row) :
  In r (body d) ->
  Dict.get (Py.str_of_nat (label r)) (medications_dict self)
  = Some (medication_of d r).
Proof.
  intros Hin. rewrite loaded_medications_dict.
  apply In_get.
  - rewrite map_map. cbn [fst]. apply loaded_keys_distinct.
  - apply in_map_iff. now exists r.
Qed.

(** The records of a selection of rows of the loaded frame. *)
Lemma records_of_loaded (cols : list string) (rows : list Row) :
  (forall r, In r rows -> In r (body d)) ->
  records_of self {| columns := cols; body := rows |} = map (medication_of d) rows.
Proof.
  unfold records_of. cbn [body].
  induction rows as [|r rows IH]; intros Hsub; [reflexivity|].
  cbn [flat_map map]. rewrite (loaded_get r) by (apply Hsub; now left).
  cbn [app]. f_equal. apply IH. intros r' H. apply Hsub. now right.
Qed.

Lemma get_medications_all :
  get_medications self "" "" None = Ok (records to_numeric header lines).
Proof.
  unfold get_medications. cbn. now rewrite loaded_values.
Qed.

Lemma get_medications_subseq (search category : string) (l : list medication) :
  get_medications self search category None = Ok l ->
  subseq l (records to_numeric header lines).
Proof.
  unfold get_medications. cbn [limit_set].
  rewrite loaded_values, loaded_df.
  destruct (negb (truthy search) && negb (truthy category)).
  - intros [= <-]. apply subseq_refl.
  - assert (Hcat : forall r0,
      (if truthy category
       then filtered_df <- select d "Category" (fun c => cell_is c category) ;;
            Ok (records_of self filtered_df)
       else Ok (records to_numeric header lines)) = Ok r0 ->
      subseq r0 (records to_numeric header lines)).
    { intros r0. destruct (truthy category).
      - unfold select. destruct (position "Category" (columns d)); [|discriminate].
        cbn [bind]. rewrite records_of_loaded.
        + intros [= <-]. unfold records.
          apply subseq_map, subseq_filter.
        + intros r Hr. now apply filter_In in Hr.
      - intros [= <-]. apply subseq_refl. }
    destruct (if truthy category then _ else _) as [r0|]; cbn [bind]; [|discriminate].
    specialize (Hcat r0 eq_refl).
    destruct (truthy search).
    + destruct (filterM _ r0) as [r1|] eqn:Hf; cbn [bind]; [|discriminate].
      intros [= <-]. apply (subseq_trans r1 r0); [|exact Hcat].
      now apply filterM_subseq in Hf.
    + cbn [bind]. now intros [= <-].
Qed.

End SearchLoaded.

(** C7 (amended).  [get_medications] keeps the row order of the table: with
    no term, no category and no limit it returns all records in row order;
    whatever the term and the category, the result without a limit is a
    subsequence of the records; and every limit that is positive and smaller
    than the number of results returns exactly the first [limit] of them. *)
Theorem get_medications_keeps_order (to_numeric : string -> float)
    (header : list string) (lines : list (list cell)) :
  let self := loaded to_numeric header lines in
  get_medications self "" "" None = Ok (records to_numeric header lines)
  /\ (forall search category l,
        get_medications self search category None = Ok l ->
        subseq l (records to_numeric header lines))
  /\ (forall search category limit l,
        get_medications self search category None = Ok l ->
        (0 < limit < Z.of_nat (List.length l))%Z ->
        get_medications self search category (Some limit)
        = Ok (firstn (Z.to_nat limit) l)).
Proof.
  intros self. split; [apply get_medications_all|].
  split.
  - intros search category l. apply get_medications_subseq.
  - intros search category limit l. apply get_medications_limit.
Qed.

Lemma get_medications_keeps_order_witness :
  get_medications sample "fever" "" (Some 1%Z)
  = Ok (firstn 1 (firstn 2 (records sample_to_numeric sample_header sample_lines))).
Proof.
  apply (proj2 (proj2 (get_medications_keeps_order
                         sample_to_numeric sample_header sample_lines))
           "fever" "" 1%Z
           (firstn 2 (records sample_to_numeric sample_header sample_lines))).
  - reflexivity.
  - vm_compute. split; reflexivity.
Defined.

(** The limit zero is smaller than the three results of the sample and the
    call does not return the first zero records. *)
Lemma get_medications_limit_zero_returns_all :
  exists l,
    get_medications sample "" "" None = Ok l
    /\ (0 < Z.of_nat (List.length l))%Z
    /\ get_medications sample "" "" (Some 0%Z) <> Ok (firstn 0 l).
Proof.
  eexists. split; [reflexivity|]. split; [reflexivity|].
  vm_compute. discriminate.
Qed.

(** ** Advanced search *)

Lemma filter_filter {A : Type} (f g : A -> bool) (l : list A) :
  filter g (filter f l) = filter (fun x => f x && g x) l.
Proof.
  induction l as [|x l IH]; simpl; [reflexivity|].
  destruct (f x); simpl; [destruct (g x)|]; now rewrite IH.
Qed.

Lemma filter_all {A : Type} (l : list A) : filter (fun _ => true) l = l.
Proof. induction l as [|x l IH]; simpl; [reflexivity|now rewrite IH]. Qed.

(** One optional selection on a column: the frame keeps its columns and the
    rows that pass the test. *)
Lemma select_step {X : Type} (d q : DataFrame) (criterion : option X)
    (name : string) (test : X -> cell -> bool) :
  columns q = columns d ->
  (criterion <> None -> has_column d name = true) ->
  exists q',
    match criterion with
    | Some x => select q name (test x)
    | None => Ok q
    end = Ok q'
    /\ columns q' = columns d
    /\ body q' = filter (fun r => holds criterion (fun x => test x (cell_of d r name)))
                   (body q).
Proof.
  intros Hcols Hneed. destruct criterion as [x|]; cbn [holds].
  - assert (Hc : has_column d name = true) by (apply Hneed; discriminate).
    unfold select, has_column, cell_of in *. rewrite Hcols.
    destruct (position name (columns d)) as [i|]; [|discriminate].
    eexists. split; [reflexivity|]. split; reflexivity.
  - exists q. split; [reflexivity|]. split; [exact Hcols|].
    now rewrite filter_all.
Qed.

Lemma select_price_step (d q : DataFrame) (criterion : option Q)
    (test : float -> Q -> bool) :
  columns q = columns d ->
  (criterion <> None -> has_column d "Price_Numeric" = true) ->
  exists q',
    match criterion with
    | Some m => select_price q (fun x => test x m)
    | None => Ok q
    end = Ok q'
    /\ columns q' = columns d
    /\ body q' = filter (fun r => holds criterion (fun m => test (Price_Numeric r) m))
                   (body q).
Proof.
  intros Hcols Hneed. destruct criterion as [m|]; cbn [holds].
  - assert (Hc : has_column d "Price_Numeric" = true) by (apply Hneed; discriminate).
    unfold select_price, has_column in *. rewrite Hcols.
    destruct (position "Price_Numeric" (columns d)); [|discriminate].
    eexists. split; [reflexivity|]. split; reflexivity.
  - exists q. split; [reflexivity|]. split; [exact Hcols|].
    now rewrite filter_all.
Qed.

Lemma needs_In {X : Type} (criterion : option X) (name : string) :
  criterion <> None -> In name (needs criterion name).
Proof. destruct criterion; [now left|congruence]. Qed.

Section AdvancedLoaded.
Variable to_numeric : string -> float.
Variable str_contains : string -> string -> bool.
Variable header : list string.
Variable lines : list (list cell).

Local Abbreviation d := (loaded_frame to_numeric header lines).
Local Abbreviation self := (loaded to_numeric header lines).

(** The criteria are applied one after the other, each on the rows the
    previous ones kept: the result is the records of the rows that satisfy
    all the given criteria. *)
Lemma advanced_search_conjunctive (criteria : Criteria) :
  (forall c, In c (needed criteria) -> has_column d c = true) ->
  advanced_search str_contains self criteria
  = Ok (map (medication_of d) (filter (satisfies str_contains d criteria) (body d))).
Proof.
  intros Hneed. unfold advanced_search. rewrite loaded_df.
  assert (H1 : given (trade_name criteria) <> None -> has_column d "Trade_Name" = true).
  { intros H. apply Hneed. unfold needed. apply in_or_app. left. now apply needs_In. }
  assert (H2 : given (generic_name criteria) <> None -> has_column d "Generic_Name" = true).
  { intros H. apply Hneed. unfold needed. apply in_or_app. right.
    apply in_or_app. left. now apply needs_In. }
  assert (H3 : given (category criteria) <> None -> has_column d "Category" = true).
  { intros H. apply Hneed. unfold needed. do 2 (apply in_or_app; right).
    apply in_or_app. left. now apply needs_In. }
  assert (H4 : min_price criteria <> None -> has_column d "Price_Numeric" = true).
  { intros H. apply Hneed. unfold needed. do 3 (apply in_or_app; right).
    apply in_or_app. left. now apply needs_In. }
  assert (H5 : max_price criteria <> None -> has_column d "Price_Numeric" = true).
  { intros H. apply Hneed. unfold needed. do 4 (apply in_or_app; right).
    apply in_or_app. left. now apply needs_In. }
  assert (H6 : given (indication criteria) <> None
               -> has_column d "Indications_for_Use" = true).
  { intros H. apply Hneed. unfold needed. do 5 (apply in_or_app; right).
    now apply needs_In. }
  destruct (select_step d d (given (trade_name criteria)) "Trade_Name"
              (contains str_contains) eq_refl H1) as (q1 & E1 & C1 & B1).
  rewrite E1. cbn [bind].
  destruct (select_step d q1 (given (generic_name criteria)) "Generic_Name"
              (contains str_contains) C1 H2) as (q2 & E2 & C2 & B2).
  rewrite E2. cbn [bind].
  destruct (select_step d q2 (given (category criteria)) "Category"
              (fun cat c => cell_is c cat) C2 H3) as (q3 & E3 & C3 & B3).
  cbv beta in E3. rewrite E3. cbn [bind].
  destruct (select_price_step d q3 (min_price criteria) float_ge C3 H4)
    as (q4 & E4 & C4 & B4).
  rewrite E4. cbn [bind].
  destruct (select_price_step d q4 (max_price criteria) float_le C4 H5)
    as (q5 & E5 & C5 & B5).
  rewrite E5. cbn [bind].
  destruct (select_step d q5 (given (indication criteria)) "Indications_for_Use"
              (contains str_contains) C5 H6) as (q6 & E6 & C6 & B6).
  rewrite E6. cbn [bind].
  assert (Hbody : body q6 = filter (satisfies str_contains d criteria) (body d)).
  { rewrite B6, B5, B4, B3, B2, B1. rewrite !filter_filter.
    apply filter_ext. intros r. unfold satisfies. now rewrite !andb_assoc. }
  destruct q6 as [cols rows]. cbn [body] in Hbody. subst rows.
  rewrite records_of_loaded; [reflexivity|].
  intros r Hr. now apply filter_In in Hr.
Qed.

End AdvancedLoaded.

(** ** The price column *)

Lemma position_In (name : string) (cols : list string) :
  In name cols -> exists i, position name cols = Some i.
Proof.
  induction cols as [|c cols IH]; simpl; [contradiction|].
  intros [->|H].
  - rewrite String.eqb_refl. now exists 0.
  - destruct (String.eqb c name); [now exists 0|].
    destruct (IH H) as [i ->]. now exists (S i).
Qed.

Lemma position_app (name : string) (cols extra : list string) (i : nat) :
  position name cols = Some i -> position name (cols ++ extra) = Some i.
Proof.
  revert i; induction cols as [|c cols IH]; intros i; simpl; [discriminate|].
  destruct (String.eqb c name); [trivial|].
  destruct (position name cols) as [j|]; [|discriminate].
  now rewrite (IH j eq_refl).
Qed.

Lemma position_last (name : string) (cols : list string) :
  exists i, position name (cols ++ [name]) = Some i.
Proof. apply position_In, in_or_app. right. now left. Qed.

Section PriceColumn.
Variable to_numeric : string -> float.
Variable header : list string.
Variable lines : list (list cell).
Hypothesis has_price : In "Price" (map Py.strip header).

Local Abbreviation d := (loaded_frame to_numeric header lines).

Lemma loaded_has_price_numeric : has_column d "Price_Numeric" = true.
Proof.
  unfold loaded_frame, clean, has_column. cbn [columns fillna frame].
  destruct (position_In "Price" _ has_price) as [i ->].
  cbn [columns].
  destruct (position "Price_Numeric" (map Py.strip header)) as [j|] eqn:E.
  - now rewrite E.
  - now destruct (position_last "Price_Numeric" (map Py.strip header)) as [j ->].
Qed.

(** The numeric price of a row is the parse of its price cell. *)
Lemma loaded_price_numeric (r : Row) :
  In r (body d) ->
  Price_Numeric r = to_numeric_cell to_numeric (row_get_default d r "Price").
Proof.
  unfold loaded_frame, clean, has_column, row_get_default, row_get.
  cbn [columns fillna frame].
  destruct (position_In "Price" _ has_price) as [i Hi]. rewrite Hi.
  cbn [columns body]. intros Hin.
  apply in_map_iff in Hin as (r0 & <- & _). cbn [Price_Numeric cells].
  destruct (position "Price_Numeric" (map Py.strip header));
    [rewrite Hi|rewrite (position_app _ _ _ i Hi)]; reflexivity.
Qed.

End PriceColumn.


Lemma medication_price (d : DataFrame) (r : Row) :
  Dict.get "Price" (medication_of d r) = Some (VCell (row_get_default d r "Price")).
Proof. reflexivity. Qed.

(** ** The name indexes *)

Lemma index_names_steps (names : list cell) (ix : Dict.t string nat) :
  index_names names ix = fold_left index_step (enumerate names) ix.
Proof.
  unfold index_names. generalize (enumerate names) as l. intros l.
  revert ix; induction l as [|[i c] l IH]; intros ix; [reflexivity|].
  cbn [fold_left]. rewrite IH. f_equal.
  unfold index_step. cbn [fst snd]. destruct c as [|s]; [reflexivity|].
  cbn [name_key]. now destruct (truthy s).
Qed.

Lemma index_from_get (names : list cell) :
  forall start ix k idx,
  Dict.get k (fold_left index_step
                (combine (seq start (List.length names)) names) ix) = Some idx ->
  (start <= idx
   /\ (exists c, nth_error names (idx - start) = Some c /\ name_key c = Some k)
   /\ forall j c, idx - start < j -> nth_error names j = Some c ->
                  name_key c <> Some k)
  \/ (Dict.get k ix = Some idx
      /\ forall j c, nth_error names j = Some c -> name_key c <> Some k).
Proof.
  induction names as [|c names IH]; intros start ix k idx H.
  - right. split; [exact H|]. intros [|j] c'; discriminate.
  - cbn [List.length seq combine fold_left] in H.
    destruct (IH (S start) _ k idx H) as [(Hle & (c' & Hc' & Hk) & Hlast)|[Hget Hnone]].
    + left. split; [lia|]. split.
      * exists c'. replace (idx - start) with (S (idx - S start)) by lia.
        now split.
      * intros [|j] c0 Hj; [lia|]. cbn [nth_error]. apply Hlast. lia.
    + unfold index_step in Hget. cbn [fst snd] in Hget.
      destruct (name_key c) as [k0|] eqn:Hkey.
      * destruct (String.eqb_spec k0 k) as [->|Hne].
        -- rewrite get_set_same in Hget. injection Hget as <-.
           left. split; [lia|]. split.
           ++ exists c. rewrite Nat.sub_diag. now split.
           ++ intros [|j] c0 Hj; [lia|]. cbn [nth_error]. apply Hnone.
        -- rewrite get_set_other in Hget by exact Hne.
           right. split; [exact Hget|].
           intros [|j] c0; cbn [nth_error]; [|apply Hnone].
           intros [= <-]. rewrite Hkey. congruence.
      * right. split; [exact Hget|].
        intros [|j] c0; cbn [nth_error]; [|apply Hnone].
        intros [= <-]. rewrite Hkey. discriminate.
Qed.

(** An entry of a name index built from scratch points to the last row
    that bears the name. *)
Lemma index_names_last (names : list cell) (k : string) (idx : nat) :
  Dict.get k (index_names names []) = Some idx -> last_with_key names k idx.
Proof.
  rewrite index_names_steps. unfold enumerate. intros H.
  destruct (index_from_get names 0 [] k idx H) as [(_ & Hc & Hlast)|[Hget _]].
  - rewrite Nat.sub_0_r in *. split; [exact Hc|].
    intros j c Hj. now apply Hlast.
  - discriminate.
Qed.

(** ** Rows and records of the loaded table *)

Section RowsLoaded.
Variable to_numeric : string -> float.
Variable header : list string.
Variable lines : list (list cell).

Local Abbreviation d := (loaded_frame to_numeric header lines).
Local Abbreviation self := (loaded to_numeric header lines).

Lemma loaded_row_label (idx : nat) (r : Row) :
  nth_error (body d) idx = Some r -> label r = idx.
Proof.
  intros H.
  assert (E : nth_error (map label (body d)) idx = Some (label r))
    by (now rewrite nth_error_map, H).
  rewrite loaded_frame_labels, nth_error_seq in E.
  destruct (idx <? List.length lines)%nat; now inversion E.
Qed.

Lemma loaded_rows_by_label (r1 r2 : Row) :
  In r1 (body d) -> In r2 (body d) -> label r1 = label r2 -> r1 = r2.
Proof.
  intros H1 H2 Hl.
  apply In_nth_error in H1 as [i1 H1]. apply In_nth_error in H2 as [i2 H2].
  pose proof (loaded_row_label i1 r1 H1). pose proof (loaded_row_label i2 r2 H2).
  assert (i1 = i2) by congruence. subst i2. congruence.
Qed.

(** The row an index entry points to. *)
Lemma index_entry_row (name k : string) (idx : nat) :
  Dict.get k (index_names (col_cells d name) []) = Some idx ->
  exists r s,
    nth_error (body d) idx = Some r /\ label r = idx
    /\ row_get_default d r name = Str s /\ Py.lower s = k
    /\ last_with_key (col_cells d name) k idx.
Proof.
  intros H. apply index_names_last in H.
  pose proof H as [(c & Hc & Hk) _].
  unfold col_cells in Hc. unfold row_get_default, row_get.
  destruct (position name (columns d)) as [i|]; [|now destruct idx].
  rewrite nth_error_map in Hc.
  destruct (nth_error (body d) idx) as [r|] eqn:Hr; [|discriminate].
  injection Hc as <-.
  destruct (nth i (cells r) NaN) as [|s] eqn:Hcell; [discriminate|].
  cbn [name_key] in Hk. destruct (truthy s); [|discriminate].
  injection Hk as Hk.
  exists r, s. cbn [option_map]. rewrite Hcell.
  split; [reflexivity|]. split; [now apply loaded_row_label|].
  split; [reflexivity|]. split; [exact Hk|exact H].
Qed.

(** A record found in the dictionary is the record of a row. *)
Lemma loaded_get_inv (key : string) (med : medication) :
  Dict.get key (medications_dict self) = Some med ->
  exists r, In r (body d) /\ med = medication_of d r
            /\ key = Py.str_of_nat (label r).
Proof.
  intros H. apply get_In in H. rewrite loaded_medications_dict in H.
  apply in_map_iff in H as (r & E & Hin). inversion E; subst.
  now exists r.
Qed.

Lemma lookup_names_In (index : Dict.t string nat) (t k : string) (idx : nat)
    (r : Row) :
  Dict.get k index = Some idx -> Py.str_in k t = true ->
  In r (body d) -> label r = idx ->
  In (medication_of d r) (lookup_names self index t).
Proof.
  intros Hget Hin Hr Hl. unfold lookup_names.
  apply in_flat_map. exists (k, idx). split; [now apply get_In|].
  rewrite Hin, <- Hl, (loaded_get to_numeric header lines r Hr). now left.
Qed.

Lemma lookup_names_rows (index : Dict.t string nat) (t : string) (med : medication) :
  In med (lookup_names self index t) ->
  exists r, In r (body d) /\ med = medication_of d r.
Proof.
  unfold lookup_names. intros H.
  apply in_flat_map in H as ([k idx] & _ & H).
  destruct (Py.str_in k t); [|contradiction].
  destruct (Dict.get _ _) as [m|] eqn:Hget; [|contradiction].
  apply loaded_get_inv in Hget as (r & Hr & -> & _).
  destruct H as [<-|[]]. now exists r.
Qed.

Lemma set_by_id_row (r : Row) (u : list (value * medication)) :
  In r (body d) -> by_id d u ->
  by_id d (set_by_id (VCell (Str (Py.str_of_nat (label r)))) (medication_of d r) u)
  /\ In (medication_of d r)
       (map snd (set_by_id (VCell (Str (Py.str_of_nat (label r))))
                   (medication_of d r) u))
  /\ forall m, In m (map snd u) ->
       In m (map snd (set_by_id (VCell (Str (Py.str_of_nat (label r))))
                        (medication_of d r) u)).
Proof.
  intros Hr. induction u as [|[k' m'] u IH]; intros Hu.
  - cbn [set_by_id map snd]. split; [|split; [now left|intros m []]].
    intros k m [E|[]]. inversion E; subst. now exists r.
  - assert (Hu' : by_id d u) by (intros k m H; apply (Hu k m); now right).
    destruct (Hu k' m' (or_introl eq_refl)) as (r' & Hr' & -> & ->).
    cbn [set_by_id value_eqb cell_eqb].
    destruct (String.eqb_spec (Py.str_of_nat (label r')) (Py.str_of_nat (label r)))
      as [E|Hne].
    + apply str_of_nat_inj in E.
      assert (r' = r) by (now apply loaded_rows_by_label). subst r'.
      split; [exact Hu|]. split; [now left|]. intros m H. exact H.
    + destruct (IH Hu') as (Hinv & Hin & Hkeep).
      split; [|split].
      * intros k m [E|H]; [inversion E; subst; now exists r'|now apply Hinv].
      * now right.
      * intros m [<-|H]; [now left|right; now apply Hkeep].
Qed.

Lemma remove_duplicates_rows (found : list medication) :
  forall u,
  (forall m, In m found -> exists r, In r (body d) /\ m = medication_of d r) ->
  by_id d u ->
  exists u',
    remove_duplicates found u = Ok u' /\ by_id d u'
    /\ forall m, In m found \/ In m (map snd u) -> In m (map snd u').
Proof.
  induction found as [|med found IH]; intros u Hfound Hu.
  - exists u. split; [reflexivity|]. split; [exact Hu|]. now intros m [[]|H].
  - destruct (Hfound med (or_introl eq_refl)) as (r & Hr & ->).
    cbn [remove_duplicates]. unfold getitem at 1.
    change (Dict.get "id" (medication_of d r))
      with (Some (VCell (Str (Py.str_of_nat (label r))))).
    cbn [bind].
    destruct (set_by_id_row r u Hr Hu) as (Hinv & Hin & Hkeep).
    destruct (IH _ (fun m H => Hfound m (or_intror H)) Hinv) as (u' & E & Hu' & Hall).
    exists u'. split; [exact E|]. split; [exact Hu'|].
    intros m [[<-|H]|H]; apply Hall; auto.
Qed.

(** [_identify_medication_names] returns, and what it returns holds every
    record the two indexes point to for the names found in the text. *)
Lemma identify_medication_names_found (text : string) :
  exists found,
    _identify_medication_names self text = Ok found
    /\ (forall m, In m found -> exists r, In r (body d) /\ m = medication_of d r)
    /\ forall m,
         In m (lookup_names self (trade_name_index self) (_preprocess_text text))
         \/ In m (lookup_names self (generic_name_index self) (_preprocess_text text)) ->
         In m found.
Proof.
  unfold _identify_medication_names.
  destruct (remove_duplicates_rows
              (lookup_names self (trade_name_index self) (_preprocess_text text)
               ++ lookup_names self (generic_name_index self) (_preprocess_text text))
              []) as (u & E & Hu & Hall).
  - intros m H. apply in_app_or in H as [H|H]; now apply lookup_names_rows in H.
  - intros k m [].
  - rewrite E. cbn [bind]. exists (map snd u). split; [reflexivity|]. split.
    + intros m H. apply in_map_iff in H as ([k m'] & <- & H).
      destruct (Hu k m' H) as (r & Hr & -> & _). now exists r.
    + intros m H. apply Hall. left. apply in_or_app. tauto.
Qed.

End RowsLoaded.

(** ** Medication extraction *)

(** C1.  For every trade name T of the trade-name index of the loaded table
    and every question whose normalized form contains T as a substring,
    whatever surrounds it, [_identify_medication_names] returns a list that
    holds the record the index keeps for T, whose trade name is T up to
    case. *)
Theorem identify_trade_name_record (to_numeric : string -> float)
    (header : list string) (lines : list (list cell))
    (T text : string) (idx : nat) :
  let self := loaded to_numeric header lines in
  Dict.get T (trade_name_index self) = Some idx ->
  Py.str_in T (_preprocess_text text) = true ->
  exists found med name,
    _identify_medication_names self text = Ok found
    /\ In med found
    /\ Dict.get (Py.str_of_nat idx) (medications_dict self) = Some med
    /\ Dict.get "Trade_Name" med = Some (VCell (Str name))
    /\ Py.lower name = T.
Proof.
  intros self Hget Hin. subst self.
  pose proof Hget as Hrow. rewrite loaded_trade_name_index in Hrow.
  apply index_entry_row in Hrow as (r & s & Hr & Hl & Hcell & Hlow & _).
  assert (Hbody : In r (body (loaded_frame to_numeric header lines)))
    by (now apply nth_error_In in Hr).
  destruct (identify_medication_names_found to_numeric header lines text)
    as (found & E & _ & Hall).
  exists found, (medication_of (loaded_frame to_numeric header lines) r), s.
  split; [exact E|]. split.
  - apply Hall. left. now apply (lookup_names_In _ _ _ _ _ T idx).
  - split; [rewrite <- Hl; now apply loaded_get|].
    split; [|exact Hlow].
    change (Dict.get "Trade_Name" (medication_of (loaded_frame to_numeric header lines) r))
      with (Some (VCell (row_get_default (loaded_frame to_numeric header lines) r "Trade_Name"))).
    now rewrite Hcell.
Qed.

Lemma identify_trade_name_record_witness :
  Dict.get "adol" (trade_name_index sample) = Some 1
  /\ Py.str_in "adol" (_preprocess_text "Is PANADOL safe?") = true
  /\ exists found med name,
       _identify_medication_names sample "Is PANADOL safe?" = Ok found
       /\ In med found
       /\ Dict.get (Py.str_of_nat 1) (medications_dict sample) = Some med
       /\ Dict.get "Trade_Name" med = Some (VCell (Str name))
       /\ Py.lower name = "adol".
Proof.
  assert (H1 : Dict.get "adol" (trade_name_index sample) = Some 1) by reflexivity.
  assert (H2 : Py.str_in "adol" (_preprocess_text "Is PANADOL safe?") = true)
    by reflexivity.
  split; [exact H1|]. split; [exact H2|].
  exact (identify_trade_name_record sample_to_numeric sample_header sample_lines
           "adol" "Is PANADOL safe?" 1 H1 H2).
Defined.

(** C3 (amended).  For every generic name G of the generic-name index that
    occurs in the normalized question, the result holds the record the index
    keeps for G; the index keeps one row per name, the last row of the table
    that bears it. *)
Theorem identify_generic_name_record (to_numeric : string -> float)
    (header : list string) (lines : list (list cell))
    (G text : string) (idx : nat) :
  let self := loaded to_numeric header lines in
  Dict.get G (generic_name_index self) = Some idx ->
  Py.str_in G (_preprocess_text text) = true ->
  exists found med name,
    _identify_medication_names self text = Ok found
    /\ In med found
    /\ Dict.get (Py.str_of_nat idx) (medications_dict self) = Some med
    /\ Dict.get "Generic_Name" med = Some (VCell (Str name))
    /\ Py.lower name = G
    /\ last_with_key (col_cells (loaded_frame to_numeric header lines) "Generic_Name")
         G idx.
Proof.
  intros self Hget Hin. subst self.
  pose proof Hget as Hrow. rewrite loaded_generic_name_index in Hrow.
  apply index_entry_row in Hrow as (r & s & Hr & Hl & Hcell & Hlow & Hlast).
  assert (Hbody : In r (body (loaded_frame to_numeric header lines)))
    by (now apply nth_error_In in Hr).
  destruct (identify_medication_names_found to_numeric header lines text)
    as (found & E & _ & Hall).
  exists found, (medication_of (loaded_frame to_numeric header lines) r), s.
  split; [exact E|]. split.
  - apply Hall. right. now apply (lookup_names_In _ _ _ _ _ G idx).
  - split; [rewrite <- Hl; now apply loaded_get|].
    split; [|split; [exact Hlow|exact Hlast]].
    change (Dict.get "Generic_Name" (medication_of (loaded_frame to_numeric header lines) r))
      with (Some (VCell (row_get_default (loaded_frame to_numeric header lines) r "Generic_Name"))).
    now rewrite Hcell.
Qed.

Lemma identify_generic_name_record_witness :
  Dict.get "paracetamol" (generic_name_index sample) = Some 1
  /\ Py.str_in "paracetamol" (_preprocess_text "Tell me about Paracetamol") = true
  /\ exists found med name,
       _identify_medication_names sample "Tell me about Paracetamol" = Ok found
       /\ In med found
       /\ Dict.get (Py.str_of_nat 1) (medications_dict sample) = Some med
       /\ Dict.get "Generic_Name" med = Some (VCell (Str name))
       /\ Py.lower name = "paracetamol"
       /\ last_with_key
            (col_cells (loaded_frame sample_to_numeric sample_header sample_lines)
               "Generic_Name")
            "paracetamol" 1.
Proof.
  assert (H1 : Dict.get "paracetamol" (generic_name_index sample) = Some 1)
    by reflexivity.
  assert (H2 : Py.str_in "paracetamol" (_preprocess_text "Tell me about Paracetamol") = true)
    by reflexivity.
  split; [exact H1|]. split; [exact H2|].
  exact (identify_generic_name_record sample_to_numeric sample_header sample_lines
           "paracetamol" "Tell me about Paracetamol" 1 H1 H2).
Defined.

(** Two records of the sample share the generic name found in the text;
    the result holds the second and not the first. *)
Lemma generic_name_shared_by_two_records :
  exists found panadol adol,
    _identify_medication_names sample "paracetamol" = Ok found
    /\ Dict.mem "paracetamol" (generic_name_index sample) = true
    /\ Py.str_in "paracetamol" (_preprocess_text "paracetamol") = true
    /\ Dict.get "0" (medications_dict sample) = Some panadol
    /\ Dict.get "1" (medications_dict sample) = Some adol
    /\ Dict.get "Generic_Name" panadol = Some (VCell (Str "Paracetamol"))
    /\ Dict.get "Generic_Name" adol = Some (VCell (Str "Paracetamol"))
    /\ In adol found
    /\ ~ In panadol found.
Proof.
  do 3 eexists. repeat (split; [reflexivity|]).
  split; [now left|].
  intros [H|[]]. discriminate H.
Qed.

(** ** Groups of a match *)

Lemma star_cls_keeps (cls : ascii -> bool) (s : string) :
  forall prev g k res,
  Re.star_cls cls prev s g k = Some res ->
  exists prev' s', k prev' s' g = Some res.
Proof.
  induction s as [|c s IH]; intros prev g k res H; cbn [Re.star_cls] in H.
  - now exists prev, "".
  - destruct (cls c); [|now exists prev, (String c s)].
    destruct (Re.star_cls cls (Some c) s g k) as [r|] eqn:E.
    + injection H as <-. now apply IH in E.
    + now exists prev, (String c s).
Qed.

(** A result of the matcher is a result of its continuation, called on
    groups that extend the ones given. *)
Lemma rmatch_keeps (r : Re.regex) :
  forall prev s g k res,
  Re.rmatch r prev s g k = Some res ->
  exists prev' s' g', k prev' s' g' = Some res /\ incl g g'.
Proof.
  induction r as [|c|a IHa b IHb|a IHa b IHb|a IHa|cls|n a IHa|];
    intros prev s g k res H; cbn [Re.rmatch] in H.
  - exists prev, s, g. split; [exact H|apply incl_refl].
  - destruct s as [|x s]; [discriminate|].
    destruct (x =? c)%char; [|discriminate].
    exists (Some x), s, g. split; [exact H|apply incl_refl].
  - apply IHa in H as (p1 & s1 & g1 & H & I1).
    apply IHb in H as (p2 & s2 & g2 & H & I2).
    exists p2, s2, g2. split; [exact H|]. now apply (incl_tran I1).
  - destruct (Re.rmatch a prev s g k) as [r1|] eqn:E.
    + injection H as <-. now apply IHa in E.
    + now apply IHb in H.
  - destruct (Re.rmatch a prev s g k) as [r1|] eqn:E.
    + injection H as <-. now apply IHa in E.
    + exists prev, s, g. split; [exact H|apply incl_refl].
  - destruct s as [|x s]; [discriminate|].
    destruct (cls x); [|discriminate].
    apply star_cls_keeps in H as (p' & s' & H).
    exists p', s', g. split; [exact H|apply incl_refl].
  - apply IHa in H as (p1 & s1 & g1 & H & I1).
    eexists p1, s1, _. split; [exact H|]. now apply incl_tl.
  - destruct (Re.boundary prev (Re.head s)); [|discriminate].
    exists prev, s, g. split; [exact H|apply incl_refl].
Qed.

Lemma rmatch_captures (n : nat) (r : Re.regex) :
  captures n r = true ->
  forall prev s g k res,
  Re.rmatch r prev s g k = Some res ->
  exists prev' s' g' sub,
    k prev' s' g' = Some res /\ In (n, sub) g'.
Proof.
  induction r as [|c|a IHa b IHb|a IHa b IHb|a IHa|cls|m a IHa|];
    intros Hc prev s g k res H; cbn [captures] in Hc; try discriminate;
    cbn [Re.rmatch] in H.
  - apply orb_true_iff in Hc as [Hc|Hc].
    + apply (IHa Hc) in H as (p1 & s1 & g1 & sub & H & Hin).
      apply rmatch_keeps in H as (p2 & s2 & g2 & H & I2).
      exists p2, s2, g2, sub. split; [exact H|now apply I2].
    + apply rmatch_keeps in H as (p1 & s1 & g1 & H & _).
      now apply (IHb Hc) in H.
  - apply andb_true_iff in Hc as [Ha Hb].
    destruct (Re.rmatch a prev s g k) as [r1|] eqn:E.
    + injection H as <-. now apply (IHa Ha) in E.
    + now apply (IHb Hb) in H.
  - apply orb_true_iff in Hc as [Hc|Hc].
    + apply Nat.eqb_eq in Hc. subst m.
      apply rmatch_keeps in H as (p1 & s1 & g1 & H & _).
      eexists p1, s1, _, _. split; [exact H|now left].
    + apply (IHa Hc) in H as (p1 & s1 & g1 & sub & H & Hin).
      eexists p1, s1, _, sub. split; [exact H|now right].
Qed.

Lemma group_In (n : nat) (sub : string) (g : Re.groups) :
  In (n, sub) g -> exists s, Re.group n g = Some s.
Proof.
  induction g as [|[m s0] g IH]; [contradiction|].
  intros [E|H]; cbn [Re.group].
  - inversion E; subst. rewrite Nat.eqb_refl. now exists sub.
  - destruct (Nat.eqb m n); [now exists s0|now apply IH].
Qed.

Lemma search_captures (n : nat) (r : Re.regex) (text : string) (m : Re.groups) :
  captures n r = true -> Re.search r text = Some m ->
  exists s, Re.group n m = Some s.
Proof.
  intros Hc. unfold Re.search. generalize (@None ascii) as prev.
  induction text as [|c text IH]; intros prev H; cbn [Re.search_from] in H.
  - destruct (Re.rmatch r prev "" [] Re.accept) as [g|] eqn:E; [|discriminate].
    injection H as <-.
    apply (rmatch_captures n r Hc) in E as (p & s & g' & sub & E & Hin).
    injection E as <-. now apply group_In in Hin.
  - destruct (Re.rmatch r prev (String c text) [] Re.accept) as [g|] eqn:E.
    + injection H as <-.
      apply (rmatch_captures n r Hc) in E as (p & s & g' & sub & E & Hin).
      injection E as <-. now apply group_In in Hin.
    + now apply IH in H.
Qed.

Lemma condition_patterns_capture (pattern : string) (re : Re.regex) :
  In (pattern, re) condition_patterns ->
  Py.endswith pattern "([\w\s]+)" = true /\ captures 1 re = true.
Proof.
  intros H.
  assert (Hall : forallb (fun '(p, r) => Py.endswith p "([\w\s]+)" && captures 1 r)
                   condition_patterns = true) by reflexivity.
  rewrite forallb_forall in Hall. specialize (Hall _ H). cbn beta iota in Hall.
  now apply andb_true_iff in Hall.
Qed.

(** Condition extraction returns on every text. *)
Lemma identify_category_query_total (text : string) :
  exists c, _identify_category_query text = Ok c.
Proof.
  unfold _identify_category_query.
  generalize (_preprocess_text text) as t. intros t.
  assert (H : forall p re, In (p, re) condition_patterns ->
                Py.endswith p "([\w\s]+)" = true /\ captures 1 re = true)
    by apply condition_patterns_capture.
  revert H. generalize condition_patterns as pats.
  induction pats as [|[p re] pats IH]; intros H; cbn [first_condition].
  - now exists None.
  - destruct (Re.search re t) as [m|] eqn:E.
    + destruct (H p re (or_introl eq_refl)) as [He Hc]. rewrite He.
      destruct (search_captures 1 re t m Hc E) as [s Hs].
      unfold group_strip. rewrite Hs. cbn [bind]. now eexists.
    + apply IH. intros p' re' Hin. apply H. now right.
Qed.

(** ** Response generation *)

Lemma position_lt (name : string) (cols : list string) (i : nat) :
  position name cols = Some i -> i < List.length cols.
Proof.
  revert i; induction cols as [|c cols IH]; intros i; simpl; [discriminate|].
  destruct (String.eqb c name); [intros [= <-]; lia|].
  destruct (position name cols) as [j|]; [|discriminate].
  intros [= <-]. specialize (IH j eq_refl). lia.
Qed.

Lemma position_app_inv (name x : string) (cols : list string) (i : nat) :
  name <> x -> position name (cols ++ [x]) = Some i -> position name cols = Some i.
Proof.
  intros Hne. revert i; induction cols as [|c cols IH]; intros i; simpl.
  - destruct (String.eqb_spec x name); [congruence|discriminate].
  - destruct (String.eqb c name); [trivial|].
    destruct (position name (cols ++ [x])) as [j|]; [|discriminate].
    now rewrite (IH j eq_refl).
Qed.

Lemma In_firstn {A : Type} (n : nat) (l : list A) (x : A) :
  In x (firstn n l) -> In x l.
Proof.
  revert n; induction l as [|a l IH]; intros [|n]; simpl; try contradiction.
  intros [->|H]; [now left|right; now apply (IH n)].
Qed.

Lemma pad_length (n : nat) (cs : list cell) : List.length (pad n cs) = n.
Proof.
  unfold pad. rewrite length_firstn, length_app, repeat_length. lia.
Qed.

Section CellsLoaded.
Variable to_numeric : string -> float.
Variable header : list string.
Variable lines : list (list cell).

Local Abbreviation d := (loaded_frame to_numeric header lines).
Local Abbreviation self := (loaded to_numeric header lines).

(** After [fillna], a row has one text cell per column of the csv. *)
Lemma loaded_cells (r : Row) :
  In r (body d) ->
  List.length (cells r) = List.length header
  /\ forall c, In c (cells r) -> c <> NaN.
Proof.
  assert (H : forall r0, In r0 (body (fillna (frame header lines))) ->
            List.length (cells r0) = List.length header
            /\ forall c, In c (cells r0) -> c <> NaN).
  { intros r0 Hin. unfold fillna, frame in Hin. cbn [body] in Hin.
    rewrite map_map in Hin. apply in_map_iff in Hin as ([i cs] & <- & _).
    cbn [cells]. split.
    - now rewrite length_map, pad_length.
    - intros c Hc. apply in_map_iff in Hc as (c0 & <- & _).
      destruct c0; discriminate. }
  unfold loaded_frame, clean. cbn [columns body].
  destruct (has_column _ "Price"); cbn [body]; [|apply H].
  intros Hin. apply in_map_iff in Hin as (r0 & <- & Hin). cbn [cells].
  now apply H.
Qed.

Lemma loaded_columns :
  columns d = map Py.strip header
  \/ columns d = (map Py.strip header ++ ["Price_Numeric"])%list.
Proof.
  unfold loaded_frame, clean. cbn [columns fillna frame].
  destruct (has_column _ "Price"); cbn [columns]; [|now left].
  destruct (has_column _ "Price_Numeric"); [now left|now right].
Qed.

(** Every field a record reads from its row is text. *)
Lemma loaded_cell_str (r : Row) (name : string) :
  In r (body d) -> name <> "Price_Numeric" ->
  exists s, row_get_default d r name = Str s.
Proof.
  intros Hin Hne. unfold row_get_default, row_get.
  destruct (position name (columns d)) as [i|] eqn:Hp; cbn [option_map];
    [|now exists ""].
  destruct (loaded_cells r Hin) as [Hlen Hstr].
  assert (Hi : i < List.length (cells r)).
  { rewrite Hlen, <- (length_map Py.strip).
    destruct loaded_columns as [E|E]; rewrite E in Hp.
    - now apply position_lt in Hp.
    - apply position_app_inv in Hp; [|exact Hne]. now apply position_lt in Hp. }
  pose proof (Hstr _ (nth_In (cells r) NaN Hi)) as Hc.
  destruct (nth i (cells r) NaN) as [|s]; [congruence|now exists s].
Qed.

End CellsLoaded.

(** The templates read keys that every record has. *)
Lemma generate_side_effects_response_total (d : DataFrame) (r : Row) :
  exists s, _generate_side_effects_response (medication_of d r) = Ok s.
Proof.
  unfold _generate_side_effects_response.
  change (get_side_effects (medication_of d r)) with (VList (side_effects_of d r)).
  destruct (side_effects_of d r); eexists; reflexivity.
Qed.

Lemma generate_price_response_total (d : DataFrame) (r : Row) :
  exists s, _generate_price_response (medication_of d r) = Ok s.
Proof. eexists. reflexivity. Qed.

Lemma generate_usage_response_total (d : DataFrame) (r : Row) :
  exists s, _generate_usage_response (medication_of d r) = Ok s.
Proof.
  unfold _generate_usage_response.
  change (getitem (medication_of d r) "Dosage_Form")
    with (@Ok value (VCell (row_get_default d r "Dosage_Form"))).
  change (getitem (medication_of d r) "Strength")
    with (@Ok value (VCell (row_get_default d r ("Strenght/" ++ LF ++ "Conc.")))).
  cbn [bind].
  destruct (value_truthy (VCell (row_get_default d r "Dosage_Form")));
    [destruct (value_truthy (VCell (row_get_default d r ("Strenght/" ++ LF ++ "Conc."))))|];
    eexists; reflexivity.
Qed.

Lemma generate_general_info_response_total (d : DataFrame) (r : Row) :
  exists s, _generate_general_info_response (medication_of d r) = Ok s.
Proof.
  unfold _generate_general_info_response.
  change (get_side_effects (medication_of d r)) with (VList (side_effects_of d r)).
  destruct (side_effects_of d r) as [|e l].
  - eexists. reflexivity.
  - cbn [value_truthy iterate bind].
    destruct (5 <? List.length (map cell_str (e :: l)))%nat; eexists; reflexivity.
Qed.

Lemma filterM_total {A : Type} (f : A -> result bool) (l : list A) :
  (forall x, In x l -> exists b, f x = Ok b) ->
  exists l', filterM f l = Ok l' /\ forall x, In x l' -> In x l.
Proof.
  induction l as [|a l IH]; intros H.
  - exists []. split; [reflexivity|trivial].
  - destruct (H a (or_introl eq_refl)) as [b Hb].
    destruct IH as (l' & E & Hsub); [intros x Hx; apply H; now right|].
    cbn [filterM]. rewrite Hb, E. cbn [bind].
    eexists. split; [reflexivity|].
    intros x Hx. destruct b; [destruct Hx as [->|Hx]|];
      [now left|right; auto|right; auto].
Qed.

Section AnswerLoaded.
Variable to_numeric : string -> float.
Variable header : list string.
Variable lines : list (list cell).

Local Abbreviation d := (loaded_frame to_numeric header lines).
Local Abbreviation self := (loaded to_numeric header lines).

Lemma field_contains_total (r : Row) (key needle : string) :
  In r (body d) -> key = "Category" \/ key = "Indications_for_Use" ->
  exists b, field_contains (medication_of d r) key needle = Ok b.
Proof.
  intros Hin [-> | ->]; unfold field_contains.
  - change (getitem (medication_of d r) "Category")
      with (@Ok value (VCell (row_get_default d r "Category"))).
    destruct (loaded_cell_str to_numeric header lines r "Category" Hin
                ltac:(discriminate)) as [s ->].
    eexists. reflexivity.
  - change (getitem (medication_of d r) "Indications_for_Use")
      with (@Ok value (VCell (row_get_default d r "Indications_for_Use"))).
    destruct (loaded_cell_str to_numeric header lines r "Indications_for_Use" Hin
                ltac:(discriminate)) as [s ->].
    eexists. reflexivity.
Qed.

Lemma listing_total (meds : list medication) :
  (forall m, In m meds -> exists r, m = medication_of d r) ->
  forall response : string,
  exists s,
    fold_left
      (fun acc med =>
         response <- acc ;;
         t <- fmt med "Trade_Name" ;;
         g <- fmt med "Generic_Name" ;;
         let response := response ++ "**" ++ t ++ "** (" ++ g ++ ")" ++ LF in
         i <- fmt med "Indications_for_Use" ;;
         let response := response ++ "• " ++ i ++ LF in
         p <- fmt med "Price" ;;
         Ok (response ++ "• Price: " ++ p ++ LF ++ LF))
      meds (Ok response) = Ok s.
Proof.
  induction meds as [|m meds IH]; intros H response.
  - now exists response.
  - destruct (H m (or_introl eq_refl)) as [r ->].
    cbn [fold_left].
    change (fmt (medication_of d r) "Trade_Name")
      with (@Ok string (cell_str (row_get_default d r "Trade_Name"))).
    change (fmt (medication_of d r) "Generic_Name")
      with (@Ok string (cell_str (row_get_default d r "Generic_Name"))).
    change (fmt (medication_of d r) "Indications_for_Use")
      with (@Ok string (cell_str (row_get_default d r "Indications_for_Use"))).
    change (fmt (medication_of d r) "Price")
      with (@Ok string (cell_str (row_get_default d r "Price"))).
    cbn [bind]. apply IH. intros m' Hm'. apply H. now right.
Qed.

Lemma generate_category_response_total (condition : string) :
  exists s, _generate_category_response self condition = Ok s.
Proof.
  unfold _generate_category_response. rewrite loaded_values.
  destruct (filterM_total
              (fun med =>
                 orM (field_contains med "Category" (Py.lower condition))
                   (field_contains med "Indications_for_Use" (Py.lower condition)))
              (records to_numeric header lines)) as (matching & E & Hsub).
  { intros m Hm. unfold records in Hm. apply in_map_iff in Hm as (r & <- & Hr).
    unfold orM.
    destruct (field_contains_total r "Category" (Py.lower condition) Hr
                (or_introl eq_refl)) as [b ->].
    cbn [bind]. destruct b; [now eexists|].
    apply field_contains_total; [exact Hr|now right]. }
  rewrite E. cbn [bind].
  destruct matching as [|m matching]; [eexists; reflexivity|].
  destruct (listing_total (firstn 5 (m :: matching))) with
    (response := "Here are medications that might be used for " ++ condition
                 ++ ":" ++ LF ++ LF) as [s Hs].
  { intros m' Hm'. apply In_firstn, Hsub in Hm'. unfold records in Hm'.
    apply in_map_iff in Hm' as (r & <- & _). now exists r. }
  cbv beta iota zeta in Hs |- *. rewrite Hs. cbn [bind].
  destruct (5 <? List.length (m :: matching))%nat; eexists; reflexivity.
Qed.

Lemma answer_question_returns (question : string) :
  exists answer, answer_question self question = Ok answer.
Proof.
  unfold answer_question, _analyze_question.
  destruct (identify_medication_names_found to_numeric header lines question)
    as (found & E & Hrows & _).
  rewrite E. cbn [bind].
  destruct (identify_category_query_total question) as [cond Ec].
  rewrite Ec. cbn [bind medications intent condition].
  destruct found as [|med found].
  - destruct (given cond) as [c|].
    + apply generate_category_response_total.
    + destruct (_ && _); [|destruct (_ && _)]; eexists; reflexivity.
  - destruct (Hrows med (or_introl eq_refl)) as (r & _ & ->).
    destruct (_ =? "side_effects");
      [apply generate_side_effects_response_total|].
    destruct (_ =? "price"); [apply generate_price_response_total|].
    destruct (_ =? "usage"); [apply generate_usage_response_total|].
    apply generate_general_info_response_total.
Qed.

End AnswerLoaded.

Lemma cell_value_str (c : cell) (key : string) (med : medication) :
  (exists s, c = Str s) -> Dict.get key med = Some (VCell c) ->
  exists s, Dict.get key med = Some (VCell (Str s)).
Proof. intros [s ->] H. now exists s. Qed.

(* ================================================================= *)
(** * Further properties of the processor, the engine and the handlers *)

(** ** Lookup by identifier *)

Section LookupLoaded.
Variable to_numeric : string -> float.
Variable header : list string.
Variable lines : list (list cell).

Local Abbreviation d := (loaded_frame to_numeric header lines).
Local Abbreviation self := (loaded to_numeric header lines).

Lemma loaded_body_length : List.length (body d) = List.length lines.
Proof.
  rewrite <- (length_map label), loaded_frame_labels. apply length_seq.
Qed.

Lemma records_nth (i : nat) :
  nth_error (records to_numeric header lines) i
  = option_map (medication_of d) (nth_error (body d) i).
Proof. unfold records. apply nth_error_map. Qed.

Lemma get_medication_by_id_nth (i : nat) :
  get_medication_by_id self (Py.str_of_nat i)
  = nth_error (records to_numeric header lines) i.
Proof.
  rewrite records_nth. unfold get_medication_by_id.
  destruct (nth_error (body d) i) as [r|] eqn:Hr; cbn [option_map].
  - rewrite <- (loaded_row_label to_numeric header lines i r Hr).
    apply loaded_get. now apply nth_error_In in Hr.
  - destruct (Dict.get _ _) as [med|] eqn:Hget; [|reflexivity].
    apply loaded_get_inv in Hget as (r & Hin & _ & Hkey).
    apply str_of_nat_inj in Hkey.
    apply In_nth_error in Hin as [j Hj].
    pose proof (loaded_row_label to_numeric header lines j r Hj) as Hl.
    congruence.
Qed.

Lemma get_medication_by_id_key (key : string) (med : medication) :
  get_medication_by_id self key = Some med ->
  exists i, key = Py.str_of_nat i /\ i < List.length lines
            /\ Dict.get "id" med = Some (VCell (Str key)).
Proof.
  unfold get_medication_by_id. intros H.
  apply loaded_get_inv in H as (r & Hin & -> & ->).
  exists (label r). split; [reflexivity|]. split; [|reflexivity].
  apply In_nth_error in Hin as [j Hj].
  rewrite (loaded_row_label to_numeric header lines j r Hj).
  rewrite <- loaded_body_length. apply nth_error_Some. congruence.
Qed.

End LookupLoaded.

(** X1.  On a loaded table, [get_medication_by_id] with the decimal text of
    a row number returns the record of that row, and nothing when the table
    has no such row; a key that finds a record is such a number, and the
    record carries it as its [id]. *)
Theorem get_medication_by_id_round_trip (to_numeric : string -> float)
    (header : list string) (lines : list (list cell)) :
  let self := loaded to_numeric header lines in
  (forall i,
      get_medication_by_id self (Py.str_of_nat i)
      = nth_error (records to_numeric header lines) i)
  /\ (forall key med,
        get_medication_by_id self key = Some med ->
        exists i, key = Py.str_of_nat i /\ i < List.length lines
                  /\ Dict.get "id" med = Some (VCell (Str key))).
Proof.
  intros self. split.
  - apply get_medication_by_id_nth.
  - apply get_medication_by_id_key.
Qed.

Lemma get_medication_by_id_round_trip_witness :
  get_medication_by_id sample "2" <> None
  /\ exists i, "2" = Py.str_of_nat i /\ i < List.length sample_lines.
Proof.
  destruct (get_medication_by_id sample "2") as [med|] eqn:E; [|discriminate E].
  split; [discriminate|].
  destruct (proj2 (get_medication_by_id_round_trip
                     sample_to_numeric sample_header sample_lines) "2" med E)
    as (i & Hi & Hlt & _).
  now exists i.
Defined.

(** X2.  Loading gives one record per line of the data set, in order, with
    the identifiers 0, 1, 2, ... as decimal texts; the identifiers are
    pairwise distinct and the medication count is the number of lines. *)
Theorem loaded_identifiers (to_numeric : string -> float)
    (header : list string) (lines : list (list cell)) :
  let self := loaded to_numeric header lines in
  map (fun med => Dict.get "id" med) (Dict.values (medications_dict self))
  = map (fun i => Some (VCell (Str (Py.str_of_nat i)))) (seq 0 (List.length lines))
  /\ NoDup (map (fun med => Dict.get "id" med) (Dict.values (medications_dict self)))
  /\ get_medication_count self = List.length lines
  /\ List.length (Dict.values (medications_dict self)) = List.length lines.
Proof.
  intros self. subst self.
  assert (Hids : map (fun med => Dict.get "id" med)
                   (Dict.values (medications_dict (loaded to_numeric header lines)))
                 = map (fun i => Some (VCell (Str (Py.str_of_nat i))))
                     (seq 0 (List.length lines))).
  { rewrite loaded_values. unfold records. rewrite map_map.
    rewrite <- (loaded_frame_labels to_numeric header lines), map_map.
    apply map_ext. reflexivity. }
  split; [exact Hids|]. split; [|split].
  - rewrite Hids. apply NoDup_map_inj; [|apply seq_NoDup].
    intros x y [= H]. now apply str_of_nat_inj.
  - unfold get_medication_count. rewrite loaded_df. apply loaded_body_length.
  - rewrite loaded_values. unfold records.
    rewrite length_map. apply loaded_body_length.
Qed.


(** ** The categories *)

Lemma dropna_In (s : string) (l : list cell) : In s (dropna l) <-> In (Str s) l.
Proof.
  induction l as [|[|x] l IH]; simpl; [tauto| |].
  - rewrite IH. split; [tauto|]. intros [H|H]; [discriminate|exact H].
  - rewrite IH. split; intros [H|H]; auto; left; congruence.
Qed.

Lemma unique_fold (l : list string) :
  forall seen,
  NoDup seen ->
  NoDup (fold_left
           (fun seen x => if existsb (String.eqb x) seen then seen
                          else (seen ++ [x])%list) l seen)
  /\ forall x,
       In x (fold_left
               (fun seen x => if existsb (String.eqb x) seen then seen
                              else (seen ++ [x])%list) l seen)
       <-> In x seen \/ In x l.
Proof.
  induction l as [|a l IH]; intros seen Hnd; cbn [fold_left].
  - split; [exact Hnd|]. intros x. simpl. tauto.
  - destruct (existsb (String.eqb a) seen) eqn:E.
    + destruct (IH seen Hnd) as [H1 H2]. split; [exact H1|].
      intros x. rewrite H2. simpl. split; [tauto|].
      intros [H|[<-|H]]; auto. left.
      apply existsb_exists in E as (y & Hy & Heq).
      apply String.eqb_eq in Heq. now subst.
    + assert (Hnot : ~ In a seen).
      { intros Hin. rewrite <- Bool.not_true_iff_false in E. apply E.
        apply existsb_exists. exists a. split; [exact Hin|apply String.eqb_refl]. }
      assert (Hnd' : NoDup (seen ++ [a])).
      { apply NoDup_app; [exact Hnd|repeat constructor; intros []|].
        intros x Hx [<-|[]]. contradiction. }
      destruct (IH _ Hnd') as [H1 H2]. split; [exact H1|].
      intros x. rewrite H2, in_app_iff. simpl. tauto.
Qed.

Lemma unique_NoDup (l : list string) : NoDup (unique l).
Proof. apply unique_fold. constructor. Qed.

Lemma unique_In (x : string) (l : list string) : In x (unique l) <-> In x l.
Proof.
  unfold unique. rewrite (proj2 (unique_fold l [] (NoDup_nil _))). simpl. tauto.
Qed.

Lemma insert_sorted_In (x y : string) (l : list string) :
  In y (insert_sorted x l) <-> y = x \/ In y l.
Proof.
  induction l as [|a l IH]; simpl; [intuition|].
  destruct (String.leb x a); simpl; [intuition|].
  rewrite IH. intuition.
Qed.

Lemma sorted_In (x : string) (l : list string) : In x (sorted l) <-> In x l.
Proof.
  induction l as [|a l IH]; simpl; [tauto|].
  rewrite insert_sorted_In, IH. intuition.
Qed.

Lemma leb_ltb (x y : string) : String.leb x y = true -> x <> y -> String.ltb x y = true.
Proof.
  unfold String.leb, String.ltb.
  destruct (String.compare x y) eqn:E; try reflexivity; try discriminate.
  intros _ H. apply String.compare_eq_iff in E. contradiction.
Qed.

Lemma not_leb_ltb (x y : string) : String.leb x y = false -> String.ltb y x = true.
Proof.
  unfold String.leb, String.ltb. rewrite (String.compare_antisym y x).
  destruct (String.compare x y); try discriminate. reflexivity.
Qed.

Lemma insert_sorted_ascending (x : string) (l : list string) :
  ascending l -> ~ In x l -> ascending (insert_sorted x l).
Proof.
  induction l as [|a l IH]; intros Hasc Hnot; [exact I|].
  cbn [insert_sorted].
  destruct (String.leb x a) eqn:E.
  - split; [|exact Hasc]. apply leb_ltb; [exact E|].
    intros ->. apply Hnot. now left.
  - assert (Hl : ascending l) by (destruct l; [exact I|apply Hasc]).
    specialize (IH Hl (fun H => Hnot (or_intror H))).
    destruct l as [|b l].
    + cbn. split; [now apply not_leb_ltb|exact I].
    + cbn [insert_sorted] in IH |- *.
      destruct (String.leb x b).
      * split; [now apply not_leb_ltb|exact IH].
      * split; [apply Hasc|exact IH].
Qed.

Lemma sorted_ascending (l : list string) : NoDup l -> ascending (sorted l).
Proof.
  induction 1 as [|x l Hx Hnd IH]; [exact I|].
  cbn [sorted fold_right]. apply insert_sorted_ascending; [exact IH|].
  fold (sorted l). now rewrite sorted_In.
Qed.

Lemma position_None (name : string) (cols : list string) :
  ~ In name cols -> position name cols = None.
Proof.
  induction cols as [|c cols IH]; intros H; simpl; [reflexivity|].
  destruct (String.eqb_spec c name) as [->|_]; [exfalso; apply H; now left|].
  rewrite IH; [reflexivity|]. intros Hin. apply H. now right.
Qed.

Section CategoriesLoaded.
Variable to_numeric : string -> float.
Variable header : list string.
Variable lines : list (list cell).

Local Abbreviation d := (loaded_frame to_numeric header lines).
Local Abbreviation self := (loaded to_numeric header lines).

(** A column of the csv is a column of the loaded frame, at a position
    within the cells of each row. *)
Lemma loaded_position (name : string) :
  name <> "Price_Numeric" ->
  position name (columns d) = position name (map Py.strip header).
Proof.
  intros Hne.
  destruct (loaded_columns to_numeric header lines) as [E|E]; rewrite E;
    [reflexivity|].
  destruct (position name (map Py.strip header)) as [i|] eqn:Hp.
  - now apply position_app.
  - destruct (position name (map Py.strip header ++ ["Price_Numeric"])) as [j|] eqn:Hq;
      [|reflexivity].
    apply position_app_inv in Hq; [congruence|exact Hne].
Qed.

Lemma col_cells_records (name : string) (c : cell) :
  In name (map Py.strip header) -> name <> "Price_Numeric" ->
  (In c (col_cells d name)
   <-> exists r, In r (body d) /\ row_get_default d r name = c).
Proof.
  intros Hin Hne. unfold col_cells, row_get_default, row_get.
  rewrite (loaded_position name Hne).
  destruct (position_In name _ Hin) as [i ->]. cbn [option_map].
  rewrite in_map_iff. split; intros (r & H1 & H2); exists r; auto.
Qed.

Lemma get_categories_ascending : ascending (get_categories self).
Proof.
  unfold get_categories. rewrite loaded_categories.
  apply sorted_ascending, unique_NoDup.
Qed.

Lemma get_categories_In (c : string) :
  In "Category" (map Py.strip header) ->
  (In c (get_categories self)
   <-> exists med, In med (records to_numeric header lines)
                   /\ Dict.get "Category" med = Some (VCell (Str c))).
Proof.
  intros Hcol. unfold get_categories.
  rewrite loaded_categories, sorted_In, unique_In, dropna_In.
  rewrite (col_cells_records "Category" (Str c) Hcol) by discriminate.
  unfold records. split.
  - intros (r & Hr & Hc). exists (medication_of d r).
    split; [now apply in_map|].
    change (Dict.get "Category" (medication_of d r))
      with (Some (VCell (row_get_default d r "Category"))).
    now rewrite Hc.
  - intros (med & Hmed & Hc). apply in_map_iff in Hmed as (r & <- & Hr).
    exists r. split; [exact Hr|].
    change (Dict.get "Category" (medication_of d r))
      with (Some (VCell (row_get_default d r "Category"))) in Hc.
    congruence.
Qed.

Lemma get_categories_no_column :
  ~ In "Category" (map Py.strip header) -> get_categories self = [].
Proof.
  intros Hcol. unfold get_categories. rewrite loaded_categories.
  unfold col_cells. rewrite (loaded_position "Category") by discriminate.
  now rewrite (position_None _ _ Hcol).
Qed.

End CategoriesLoaded.

(** X4.  The categories of a loaded table are in strictly ascending order
    (sorted, no value twice); when the data set has a Category column they
    are exactly the category values of the records, the empty text of a
    blank category included; without the column the list is empty. *)
Theorem get_categories_sorted_distinct (to_numeric : string -> float)
    (header : list string) (lines : list (list cell)) :
  let self := loaded to_numeric header lines in
  ascending (get_categories self)
  /\ (In "Category" (map Py.strip header) ->
      forall c,
        In c (get_categories self)
        <-> exists med, In med (records to_numeric header lines)
                        /\ Dict.get "Category" med = Some (VCell (Str c)))
  /\ (~ In "Category" (map Py.strip header) -> get_categories self = []).
Proof.
  intros self. split; [apply get_categories_ascending|].
  split.
  - intros Hcol c. now apply get_categories_In.
  - apply get_categories_no_column.
Qed.

Lemma get_categories_sorted_distinct_witness :
  In "Category" (map Py.strip sample_header)
  /\ (In "Statin" (get_categories sample)
      <-> exists med, In med (records sample_to_numeric sample_header sample_lines)
                      /\ Dict.get "Category" med = Some (VCell (Str "Statin"))).
Proof.
  assert (H : In "Category" (map Py.strip sample_header)) by (vm_compute; tauto).
  split; [exact H|].
  exact (proj1 (proj2 (get_categories_sorted_distinct
                         sample_to_numeric sample_header sample_lines)) H "Statin").
Defined.

(** ** Lookup by name *)

Lemma truthy_iff (s : string) : truthy s = true <-> s <> "".
Proof.
  unfold truthy. destruct (String.eqb_spec s ""); simpl; split; congruence.
Qed.

Lemma index_from_complete (names : list cell) :
  forall start ix k,
  (Dict.get k ix <> None
   \/ exists i c, nth_error names i = Some c /\ name_key c = Some k) ->
  Dict.get k (fold_left index_step
                (combine (seq start (List.length names)) names) ix) <> None.
Proof.
  induction names as [|c names IH]; intros start ix k H.
  - destruct H as [H|(i & c & H & _)]; [exact H|now destruct i].
  - cbn [List.length seq combine fold_left]. apply IH.
    unfold index_step. cbn [fst snd].
    destruct H as [H|([|i] & c' & Hc & Hk)].
    + left. destruct (name_key c) as [k0|]; [|exact H].
      destruct (String.eqb_spec k0 k) as [->|Hne].
      * now rewrite get_set_same.
      * now rewrite get_set_other.
    + left. injection Hc as <-. rewrite Hk. now rewrite get_set_same.
    + right. now exists i, c'.
Qed.

Lemma index_names_complete (names : list cell) (k : string) (i : nat) (c : cell) :
  nth_error names i = Some c -> name_key c = Some k ->
  exists idx, Dict.get k (index_names names []) = Some idx.
Proof.
  intros Hc Hk. rewrite index_names_steps. unfold enumerate.
  destruct (Dict.get k (fold_left index_step _ [])) as [idx|] eqn:E;
    [now exists idx|].
  exfalso. apply (index_from_complete names 0 [] k); [|exact E].
  right. now exists i, c.
Qed.

Section NamesLoaded.
Variable to_numeric : string -> float.
Variable header : list string.
Variable lines : list (list cell).

Local Abbreviation d := (loaded_frame to_numeric header lines).
Local Abbreviation self := (loaded to_numeric header lines).

(** An entry of a name index leads to the record of a row that bears the
    name. *)
Lemma index_hit (col k : string) (idx : nat) :
  Dict.get k (index_names (col_cells d col) []) = Some idx ->
  exists r s,
    In r (body d)
    /\ Dict.get (Py.str_of_nat idx) (medications_dict self) = Some (medication_of d r)
    /\ row_get_default d r col = Str s /\ s <> "" /\ Py.lower s = k.
Proof.
  intros H. apply index_names_last in H as [(c & Hc & Hk) _].
  unfold col_cells in Hc. unfold row_get_default, row_get.
  destruct (position col (columns d)) as [i|]; [|now destruct idx].
  rewrite nth_error_map in Hc.
  destruct (nth_error (body d) idx) as [r|] eqn:Hr; [|discriminate].
  injection Hc as <-.
  destruct (nth i (cells r) NaN) as [|s] eqn:Hcell; [discriminate|].
  cbn [name_key] in Hk. destruct (truthy s) eqn:Ht; [|discriminate].
  injection Hk as Hk.
  assert (Hin : In r (body d)) by (now apply nth_error_In in Hr).
  exists r, s. cbn [option_map]. rewrite Hcell.
  split; [exact Hin|]. split.
  - rewrite <- (loaded_row_label to_numeric header lines idx r Hr).
    now apply loaded_get.
  - split; [reflexivity|]. split; [now apply truthy_iff|exact Hk].
Qed.

(** A row that bears a name has its name in the index. *)
Lemma index_complete (col : string) (r : Row) (s : string) :
  In r (body d) -> row_get_default d r col = Str s -> s <> "" ->
  exists idx, Dict.get (Py.lower s) (index_names (col_cells d col) []) = Some idx.
Proof.
  intros Hin Hcell Hs. unfold row_get_default, row_get in Hcell.
  unfold col_cells.
  destruct (position col (columns d)) as [p|]; cbn [option_map] in Hcell.
  - apply In_nth_error in Hin as [i Hi].
    apply (index_names_complete _ _ i (Str s)).
    + rewrite nth_error_map, Hi. cbn [option_map]. now rewrite Hcell.
    + cbn [name_key]. now rewrite (proj2 (truthy_iff s) Hs).
  - injection Hcell as <-. congruence.
Qed.

Lemma get_medication_by_name_trade (name : string) (med : medication) (s : string) :
  In med (records to_numeric header lines) ->
  Dict.get "Trade_Name" med = Some (VCell (Str s)) -> s <> "" ->
  Py.lower s = Py.lower name ->
  exists found t,
    get_medication_by_name self name = Some found
    /\ Dict.get "Trade_Name" found = Some (VCell (Str t))
    /\ Py.lower t = Py.lower name.
Proof.
  intros Hmed Hget Hs Hlow. unfold records in Hmed.
  apply in_map_iff in Hmed as (r & <- & Hr).
  change (Dict.get "Trade_Name" (medication_of d r))
    with (Some (VCell (row_get_default d r "Trade_Name"))) in Hget.
  injection Hget as Hcell.
  destruct (index_complete "Trade_Name" r s Hr Hcell Hs) as [idx Hidx].
  rewrite Hlow, <- loaded_trade_name_index in Hidx.
  unfold get_medication_by_name. rewrite Hidx.
  rewrite loaded_trade_name_index in Hidx.
  destruct (index_hit "Trade_Name" _ idx Hidx) as (r' & t & _ & Hrec & Hcell' & _ & Ht).
  exists (medication_of d r'), t. split; [exact Hrec|]. split; [|exact Ht].
  change (Dict.get "Trade_Name" (medication_of d r'))
    with (Some (VCell (row_get_default d r' "Trade_Name"))).
  now rewrite Hcell'.
Qed.

Lemma get_medication_by_name_none (name : string) :
  get_medication_by_name self name = None
  <-> forall med s,
        In med (records to_numeric header lines) ->
        Dict.get "Trade_Name" med = Some (VCell (Str s))
        \/ Dict.get "Generic_Name" med = Some (VCell (Str s)) ->
        s <> "" -> Py.lower s <> Py.lower name.
Proof.
  unfold get_medication_by_name.
  rewrite loaded_trade_name_index, loaded_generic_name_index. split.
  - intros Hnone med s Hmed Hfield Hs Hlow. unfold records in Hmed.
    apply in_map_iff in Hmed as (r & <- & Hr).
    destruct (Dict.get (Py.lower name) (index_names (col_cells d "Trade_Name") []))
      as [idx|] eqn:Ht.
    { destruct (index_hit "Trade_Name" _ idx Ht) as (r' & t & _ & Hrec & _).
      congruence. }
    destruct (Dict.get (Py.lower name) (index_names (col_cells d "Generic_Name") []))
      as [idx|] eqn:Hg.
    { destruct (index_hit "Generic_Name" _ idx Hg) as (r' & t & _ & Hrec & _).
      congruence. }
    destruct Hfield as [Hf|Hf].
    + change (Dict.get "Trade_Name" (medication_of d r))
        with (Some (VCell (row_get_default d r "Trade_Name"))) in Hf.
      injection Hf as Hcell.
      destruct (index_complete "Trade_Name" r s Hr Hcell Hs) as [idx Hidx].
      congruence.
    + change (Dict.get "Generic_Name" (medication_of d r))
        with (Some (VCell (row_get_default d r "Generic_Name"))) in Hf.
      injection Hf as Hcell.
      destruct (index_complete "Generic_Name" r s Hr Hcell Hs) as [idx Hidx].
      congruence.
  - intros Hall.
    destruct (Dict.get (Py.lower name) (index_names (col_cells d "Trade_Name") []))
      as [idx|] eqn:Ht.
    { destruct (index_hit "Trade_Name" _ idx Ht) as (r & s & Hr & _ & Hcell & Hs & Hlow).
      exfalso. apply (Hall (medication_of d r) s); auto.
      - unfold records. now apply in_map.
      - left. change (Dict.get "Trade_Name" (medication_of d r))
          with (Some (VCell (row_get_default d r "Trade_Name"))).
        now rewrite Hcell. }
    destruct (Dict.get (Py.lower name) (index_names (col_cells d "Generic_Name") []))
      as [idx|] eqn:Hg; [|reflexivity].
    destruct (index_hit "Generic_Name" _ idx Hg) as (r & s & Hr & _ & Hcell & Hs & Hlow).
    exfalso. apply (Hall (medication_of d r) s); auto.
    + unfold records. now apply in_map.
    + right. change (Dict.get "Generic_Name" (medication_of d r))
        with (Some (VCell (row_get_default d r "Generic_Name"))).
      now rewrite Hcell.
Qed.

End NamesLoaded.

(** X5.  [get_medication_by_name] is case-insensitive and looks at trade
    names first: when a record has the name as its non-blank trade name, up
    to case, the lookup returns a record with that trade name; it returns
    nothing exactly when no record has the name as a non-blank trade or
    generic name. *)
Theorem get_medication_by_name_spec (to_numeric : string -> float)
    (header : list string) (lines : list (list cell)) (name : string) :
  let self := loaded to_numeric header lines in
  (forall med s,
      In med (records to_numeric header lines) ->
      Dict.get "Trade_Name" med = Some (VCell (Str s)) -> s <> "" ->
      Py.lower s = Py.lower name ->
      exists found t,
        get_medication_by_name self name = Some found
        /\ Dict.get "Trade_Name" found = Some (VCell (Str t))
        /\ Py.lower t = Py.lower name)
  /\ (get_medication_by_name self name = None
      <-> forall med s,
            In med (records to_numeric header lines) ->
            Dict.get "Trade_Name" med = Some (VCell (Str s))
            \/ Dict.get "Generic_Name" med = Some (VCell (Str s)) ->
            s <> "" -> Py.lower s <> Py.lower name).
Proof.
  intros self. split.
  - intros med s. apply get_medication_by_name_trade.
  - apply get_medication_by_name_none.
Qed.

Lemma get_medication_by_name_spec_witness :
  exists found t,
    get_medication_by_name sample "LIPITOR" = Some found
    /\ Dict.get "Trade_Name" found = Some (VCell (Str t))
    /\ Py.lower t = Py.lower "LIPITOR".
Proof.
  destruct (nth_error (records sample_to_numeric sample_header sample_lines) 2)
    as [med|] eqn:E; [|discriminate E].
  apply (proj1 (get_medication_by_name_spec
                  sample_to_numeric sample_header sample_lines "LIPITOR")
           med "Lipitor").
  - now apply nth_error_In in E.
  - injection E as <-. reflexivity.
  - discriminate.
  - reflexivity.
Defined.

(** ** Medication extraction, continued *)

Lemma set_keys_In {V : Type} (k x : string) (v : V) (d : Dict.t string V) :
  In x (map fst (Dict.set k v d)) -> x = k \/ In x (map fst d).
Proof.
  induction d as [|[k0 v0] d IH]; simpl.
  - intros [<-|[]]. now left.
  - destruct (String.eqb k0 k); simpl; intros [H|H]; auto.
    destruct (IH H); auto.
Qed.

Lemma set_keys_NoDup {V : Type} (k : string) (v : V) (d : Dict.t string V) :
  NoDup (map fst d) -> NoDup (map fst (Dict.set k v d)).
Proof.
  induction d as [|[k0 v0] d IH]; simpl; intros H.
  - repeat constructor. intros [].
  - inversion H as [|? ? Hnot Hnd]; subst.
    destruct (String.eqb_spec k0 k) as [->|Hne]; simpl.
    + now constructor.
    + constructor; [|now apply IH].
      intros Hin. apply set_keys_In in Hin as [->|Hin]; contradiction.
Qed.

Lemma index_names_keys (names : list cell) : NoDup (map fst (index_names names [])).
Proof.
  rewrite index_names_steps.
  assert (H : forall l ix, NoDup (map fst ix) ->
                NoDup (map fst (fold_left index_step l ix))).
  { induction l as [|e l IH]; intros ix Hix; [exact Hix|].
    cbn [fold_left]. apply IH. unfold index_step.
    destruct (name_key (snd e)); [now apply set_keys_NoDup|exact Hix]. }
  apply H. constructor.
Qed.

Lemma set_by_id_values (k : value) (v m : medication) (u : list (value * medication)) :
  In m (map snd (set_by_id k v u)) -> m = v \/ In m (map snd u).
Proof.
  induction u as [|[k0 m0] u IH]; simpl.
  - intros [<-|[]]. now left.
  - destruct (value_eqb k0 k); simpl; intros [H|H]; auto.
    destruct (IH H); auto.
Qed.

Lemma set_by_id_keys_In (k x : value) (v : medication) (u : list (value * medication)) :
  In x (map fst (set_by_id k v u)) -> x = k \/ In x (map fst u).
Proof.
  induction u as [|[k0 m0] u IH]; simpl.
  - intros [<-|[]]. now left.
  - destruct (value_eqb k0 k); simpl; intros [H|H]; auto.
    destruct (IH H); auto.
Qed.

Section ExtractionLoaded.
Variable to_numeric : string -> float.
Variable header : list string.
Variable lines : list (list cell).

Local Abbreviation d := (loaded_frame to_numeric header lines).
Local Abbreviation self := (loaded to_numeric header lines).

Lemma set_by_id_keys (r : Row) (u : list (value * medication)) :
  by_id d u -> NoDup (map fst u) ->
  NoDup (map fst (set_by_id (VCell (Str (Py.str_of_nat (label r))))
                    (medication_of d r) u)).
Proof.
  induction u as [|[k0 m0] u IH]; intros Hu Hnd.
  - cbn. repeat constructor. intros [].
  - assert (Hu' : by_id d u) by (intros k m H; apply (Hu k m); now right).
    destruct (Hu k0 m0 (or_introl eq_refl)) as (r' & _ & _ & ->).
    inversion Hnd as [|? ? Hnot Hnd']; subst.
    cbn [set_by_id value_eqb cell_eqb].
    destruct (String.eqb_spec (Py.str_of_nat (label r')) (Py.str_of_nat (label r)))
      as [E|Hne]; cbn [map fst].
    + now constructor.
    + constructor; [|now apply IH].
      intros Hin. apply set_by_id_keys_In in Hin as [Hin|Hin]; [|contradiction].
      congruence.
Qed.

Lemma remove_duplicates_sound (found : list medication) :
  forall u u',
  (forall m, In m found -> exists r, In r (body d) /\ m = medication_of d r) ->
  by_id d u -> NoDup (map fst u) ->
  remove_duplicates found u = Ok u' ->
  by_id d u' /\ NoDup (map fst u')
  /\ forall m, In m (map snd u') -> In m found \/ In m (map snd u).
Proof.
  induction found as [|med found IH]; intros u u' Hfound Hu Hnd H.
  - injection H as <-. split; [exact Hu|]. split; [exact Hnd|]. auto.
  - destruct (Hfound med (or_introl eq_refl)) as (r & Hr & ->).
    cbn [remove_duplicates] in H. unfold getitem at 1 in H.
    change (Dict.get "id" (medication_of d r))
      with (Some (VCell (Str (Py.str_of_nat (label r))))) in H.
    cbn [bind] in H.
    destruct (set_by_id_row to_numeric header lines r u Hr Hu) as (Hinv & _ & _).
    destruct (IH _ u' (fun m Hm => Hfound m (or_intror Hm)) Hinv
                (set_by_id_keys r u Hu Hnd) H) as (Hu' & Hnd' & Hsub).
    split; [exact Hu'|]. split; [exact Hnd'|].
    intros m Hm. destruct (Hsub m Hm) as [Hin|Hin]; [left; now right|].
    apply set_by_id_values in Hin as [->|Hin]; [left; now left|now right].
Qed.

Lemma by_id_distinct (u : list (value * medication)) :
  by_id d u -> NoDup (map fst u) ->
  NoDup (map (fun med => Dict.get "id" med) (map snd u)).
Proof.
  intros Hu Hnd.
  assert (E : map (fun med => Dict.get "id" med) (map snd u) = map Some (map fst u)).
  { rewrite !map_map. apply map_ext_in. intros [k m] Hin.
    destruct (Hu k m Hin) as (r & _ & -> & ->). reflexivity. }
  rewrite E. apply NoDup_map_inj; [now intros x y [= ->]|exact Hnd].
Qed.

Lemma lookup_names_sound (index : Dict.t string nat) (t : string) (med : medication) :
  NoDup (map fst index) ->
  In med (lookup_names self index t) ->
  exists name idx,
    Dict.get name index = Some idx /\ Py.str_in name t = true
    /\ get_medication_by_id self (Py.str_of_nat idx) = Some med.
Proof.
  intros Hnd H. unfold lookup_names in H.
  apply in_flat_map in H as ([k idx] & Hin & H).
  destruct (Py.str_in k t) eqn:Hk; [|contradiction].
  unfold get_medication_by_id.
  destruct (Dict.get (Py.str_of_nat idx) (medications_dict self)) as [m|] eqn:Hget;
    [|contradiction].
  destruct m as [|e m]; [contradiction|]. destruct H as [<-|[]].
  exists k, idx. split; [now apply In_get|]. now split.
Qed.

Lemma identify_medication_names_sound (text : string) :
  exists found,
    _identify_medication_names self text = Ok found
    /\ NoDup (map (fun med => Dict.get "id" med) found)
    /\ (forall med, In med found ->
          exists name idx,
            (Dict.get name (trade_name_index self) = Some idx
             \/ Dict.get name (generic_name_index self) = Some idx)
            /\ Py.str_in name (_preprocess_text text) = true
            /\ get_medication_by_id self (Py.str_of_nat idx) = Some med)
    /\ (found = [] <->
        forall name idx,
          Dict.get name (trade_name_index self) = Some idx
          \/ Dict.get name (generic_name_index self) = Some idx ->
          Py.str_in name (_preprocess_text text) = false).
Proof.
  destruct (identify_medication_names_found to_numeric header lines text)
    as (found & E & Hrows & Hall).
  exists found. split; [exact E|].
  unfold _identify_medication_names in E.
  destruct (remove_duplicates _ []) as [u|] eqn:Hu; [|discriminate].
  cbn [bind] in E. injection E as <-.
  apply remove_duplicates_sound in Hu as (Hby & Hnd & Hsub).
  2:{ intros m H. apply in_app_or in H as [H|H];
        now apply (lookup_names_rows to_numeric header lines) in H. }
  2:{ intros k m []. }
  2:{ constructor. }
  assert (Hsound : forall med, In med (map snd u) ->
            exists name idx,
              (Dict.get name (trade_name_index self) = Some idx
               \/ Dict.get name (generic_name_index self) = Some idx)
              /\ Py.str_in name (_preprocess_text text) = true
              /\ get_medication_by_id self (Py.str_of_nat idx) = Some med).
  { intros med Hmed. destruct (Hsub med Hmed) as [Hin|[]].
    apply in_app_or in Hin as [Hin|Hin].
    - apply lookup_names_sound in Hin as (name & idx & H1 & H2 & H3).
      + exists name, idx. auto.
      + rewrite loaded_trade_name_index. apply index_names_keys.
    - apply lookup_names_sound in Hin as (name & idx & H1 & H2 & H3).
      + exists name, idx. auto.
      + rewrite loaded_generic_name_index. apply index_names_keys. }
  split; [now apply by_id_distinct|]. split; [exact Hsound|].
  split.
  - intros Hnil name idx Hidx.
    destruct (Py.str_in name (_preprocess_text text)) eqn:Hin; [|reflexivity].
    exfalso.
    assert (Hrow : exists r, In r (body d) /\ label r = idx).
    { destruct Hidx as [Hidx|Hidx];
        [rewrite loaded_trade_name_index in Hidx
        |rewrite loaded_generic_name_index in Hidx];
        apply (index_entry_row to_numeric header lines) in Hidx
          as (r & s & Hr & Hl & _);
        exists r; (split; [now apply nth_error_In in Hr|exact Hl]). }
    destruct Hrow as (r & Hr & Hl).
    assert (Hmem : In (medication_of d r) (map snd u)).
    { apply Hall. destruct Hidx as [Hidx|Hidx]; [left|right];
        now apply (lookup_names_In to_numeric header lines _ _ name idx). }
    rewrite Hnil in Hmem. contradiction.
  - intros Hno. destruct (map snd u) as [|med rest] eqn:Hm; [reflexivity|].
    destruct (Hsound med (or_introl eq_refl)) as (name & idx & Hidx & Hin & _).
    rewrite (Hno name idx Hidx) in Hin. discriminate.
Qed.

End ExtractionLoaded.

(** X6.  [_identify_medication_names] returns records with pairwise
    distinct identifiers; every one of them is the record a trade-name or
    generic-name index entry points to for a name that occurs in the
    normalized question; and the list is empty exactly when no name of
    either index occurs in it. *)
Theorem identify_medication_names_distinct_sound (to_numeric : string -> float)
    (header : list string) (lines : list (list cell)) (text : string) :
  let self := loaded to_numeric header lines in
  exists found,
    _identify_medication_names self text = Ok found
    /\ NoDup (map (fun med => Dict.get "id" med) found)
    /\ (forall med, In med found ->
          exists name idx,
            (Dict.get name (trade_name_index self) = Some idx
             \/ Dict.get name (generic_name_index self) = Some idx)
            /\ Py.str_in name (_preprocess_text text) = true
            /\ get_medication_by_id self (Py.str_of_nat idx) = Some med)
    /\ (found = [] <->
        forall name idx,
          Dict.get name (trade_name_index self) = Some idx
          \/ Dict.get name (generic_name_index self) = Some idx ->
          Py.str_in name (_preprocess_text text) = false).
Proof. intros self. apply identify_medication_names_sound. Qed.

Lemma identify_medication_names_distinct_sound_witness :
  exists found,
    _identify_medication_names sample "hello there" = Ok found /\ found = [].
Proof.
  destruct (identify_medication_names_distinct_sound
              sample_to_numeric sample_header sample_lines "hello there")
    as (found & E & _ & Hsound & _).
  exists found. split; [exact E|].
  destruct found as [|med rest]; [reflexivity|].
  destruct (Hsound med (or_introl eq_refl)) as (name & idx & Hidx & Hin & _).
  exfalso.
  assert (Hkeys : forall index : Dict.t string nat,
            index = trade_name_index sample \/ index = generic_name_index sample ->
            Dict.get name index = Some idx ->
            Py.str_in name (_preprocess_text "hello there") = false).
  { intros index Hix Hget. apply get_In in Hget.
    destruct Hix as [-> | ->]; vm_compute in Hget;
      repeat (destruct Hget as [Hget|Hget]; [injection Hget as <- <-; reflexivity|]);
      contradiction. }
  destruct Hidx as [Hidx|Hidx];
    [rewrite (Hkeys _ (or_introl eq_refl) Hidx) in Hin
    |rewrite (Hkeys _ (or_intror eq_refl) Hidx) in Hin]; discriminate.
Defined.

(** ** Intent classification *)

Lemma get_notin {V : Type} (k : string) (d : Dict.t string V) :
  ~ In k (map fst d) -> Dict.get k d = None.
Proof.
  induction d as [|[k0 v0] d IH]; simpl; intros H; [reflexivity|].
  destruct (String.eqb_spec k0 k) as [->|_]; [exfalso; apply H; now left|].
  apply IH. intros Hin. apply H. now right.
Qed.

Lemma get_app_last {V : Type} (k : string) (v : V) (d : Dict.t string V) :
  ~ In k (map fst d) -> Dict.get k (d ++ [(k, v)])%list = Some v.
Proof.
  induction d as [|[k0 v0] d IH]; simpl; intros H.
  - now rewrite String.eqb_refl.
  - destruct (String.eqb_spec k0 k) as [->|_]; [exfalso; apply H; now left|].
    apply IH. intros Hin. apply H. now right.
Qed.

Lemma set_app_last {V : Type} (k : string) (v w : V) (d : Dict.t string V) :
  ~ In k (map fst d) -> Dict.set k w (d ++ [(k, v)])%list = (d ++ [(k, w)])%list.
Proof.
  induction d as [|[k0 v0] d IH]; simpl; intros H.
  - now rewrite String.eqb_refl.
  - destruct (String.eqb_spec k0 k) as [->|_]; [exfalso; apply H; now left|].
    rewrite IH; [reflexivity|]. intros Hin. apply H. now right.
Qed.

Lemma count_match_present (label : string) (n : nat) (m : Dict.t string nat) :
  ~ In label (map fst m) ->
  count_match label (m ++ [(label, n)])%list = (m ++ [(label, n + 1)])%list.
Proof.
  intros Hm. unfold count_match.
  now rewrite (get_app_last label n m Hm), (set_app_last label n (n + 1) m Hm).
Qed.

Lemma count_match_absent (label : string) (m : Dict.t string nat) :
  ~ In label (map fst m) ->
  count_match label m = (m ++ [(label, 1)])%list.
Proof.
  intros Hm. unfold count_match.
  now rewrite (get_notin label m Hm), (set_fresh label 1 m Hm).
Qed.

Lemma count_patterns_present (t label : string) (ps : list string) :
  forall (m : Dict.t string nat) (n : nat),
  ~ In label (map fst m) ->
  count_patterns t label ps (m ++ [(label, n)])%list
  = (m ++ [(label, n + List.length (filter (hit t) ps))])%list.
Proof.
  unfold count_patterns.
  induction ps as [|p ps IH]; intros m n Hm; cbn [fold_left filter].
  - now rewrite Nat.add_0_r.
  - destruct (Re.search (word_pattern p) t) as [g|] eqn:Hs.
    + assert (Hh : hit t p = true) by (unfold hit; now rewrite Hs).
      rewrite Hh, (count_match_present label n m Hm), (IH m (n + 1) Hm).
      cbn [List.length]. do 3 f_equal. lia.
    + assert (Hh : hit t p = false) by (unfold hit; now rewrite Hs).
      rewrite Hh. now apply IH.
Qed.

Lemma count_patterns_absent (t label : string) (ps : list string) :
  forall m : Dict.t string nat,
  ~ In label (map fst m) ->
  count_patterns t label ps m = (m ++ intent_entry t (label, ps))%list.
Proof.
  unfold intent_entry. cbn [fst snd].
  induction ps as [|p ps IH]; intros m Hm.
  - cbn. now rewrite app_nil_r.
  - unfold count_patterns in *. cbn [fold_left filter].
    destruct (Re.search (word_pattern p) t) as [g|] eqn:Hs.
    + assert (Hh : hit t p = true) by (unfold hit; now rewrite Hs).
      rewrite Hh, (count_match_absent label m Hm).
      fold (count_patterns t label ps (m ++ [(label, 1)])%list).
      rewrite (count_patterns_present t label ps m 1 Hm). reflexivity.
    + assert (Hh : hit t p = false) by (unfold hit; now rewrite Hs).
      rewrite Hh. now apply IH.
Qed.

Lemma intent_entry_keys (t : string) (e : string * list string) (x : string) :
  In x (map fst (intent_entry t e)) -> x = fst e.
Proof.
  unfold intent_entry. destruct (List.length _); [intros []|].
  now intros [<-|[]].
Qed.

Lemma matched_items (t : string) (table : Dict.t string (list string)) :
  NoDup (map fst table) ->
  forall m : Dict.t string nat,
  (forall l, In l (map fst table) -> ~ In l (map fst m)) ->
  fold_left (fun matched '(intent, patterns) =>
               count_patterns t intent patterns matched) table m
  = (m ++ flat_map (intent_entry t) table)%list.
Proof.
  induction table as [|[l0 ps0] table IH]; intros Hnd m Hm.
  - cbn. now rewrite app_nil_r.
  - inversion Hnd as [|? ? Hnot Hnd']; subst. cbn [fold_left flat_map].
    rewrite count_patterns_absent by (apply Hm; now left).
    rewrite IH; [now rewrite <- app_assoc|exact Hnd'|].
    intros l Hl Hin. rewrite map_app in Hin. apply in_app_or in Hin as [Hin|Hin].
    + apply (Hm l); [now right|exact Hin].
    + apply intent_entry_keys in Hin. cbn in Hin. now subst.
Qed.

Lemma matched_intents_items (text : string) :
  matched_intents text = flat_map (intent_entry (_preprocess_text text)) intent_patterns.
Proof.
  unfold matched_intents, Dict.items.
  rewrite (matched_items _ intent_patterns intent_labels_distinct []);
    [reflexivity|]. intros l _ [].
Qed.

Lemma match_count_entry (text label : string) (ps : list string) :
  In (label, ps) intent_patterns ->
  match_count text label = List.length (filter (hit (_preprocess_text text)) ps).
Proof.
  intros Hin. unfold match_count, matched_intents, Dict.items.
  fold (num (Dict.get label
    (fold_left (fun matched '(intent, patterns) =>
                  count_patterns (_preprocess_text text) intent patterns matched)
       intent_patterns []))).
  now rewrite (count_table _ intent_patterns intent_labels_distinct label ps [] Hin).
Qed.

(** The item [max] returns: the items before it have a smaller count, the
    items after it have no larger one. *)
Lemma max_by_count_first (rest : list (string * nat)) :
  forall best pre mid,
  (forall y, In y pre -> snd y < snd best) ->
  (forall y, In y mid -> snd y <= snd best) ->
  exists before after,
    (pre ++ best :: mid ++ rest)%list
    = (before ++ max_by_count best rest :: after)%list
    /\ (forall y, In y before -> snd y < snd (max_by_count best rest))
    /\ (forall y, In y after -> snd y <= snd (max_by_count best rest)).
Proof.
  induction rest as [|x rest IH]; intros best pre mid Hpre Hmid.
  - exists pre, mid. cbn. rewrite app_nil_r. auto.
  - cbn [max_by_count]. destruct (snd best <? snd x)%nat eqn:E.
    + apply Nat.ltb_lt in E.
      destruct (IH x (pre ++ best :: mid)%list []) as (b & a & Heq & Hb & Ha).
      * intros y Hy. apply in_app_or in Hy as [Hy|[<-|Hy]].
        -- specialize (Hpre y Hy). lia.
        -- exact E.
        -- specialize (Hmid y Hy). lia.
      * intros y [].
      * exists b, a. split; [|auto]. rewrite <- Heq, <- app_assoc. reflexivity.
    + apply Nat.ltb_ge in E.
      destruct (IH best pre (mid ++ [x])%list Hpre) as (b & a & Heq & Hb & Ha).
      * intros y Hy. apply in_app_or in Hy as [Hy|[<-|[]]]; auto.
      * exists b, a. split; [|auto]. rewrite <- Heq, <- app_assoc. reflexivity.
Qed.

Lemma flat_map_entry_split (t : string) (table : Dict.t string (list string)) :
  forall before r after,
  flat_map (intent_entry t) table = (before ++ r :: after)%list ->
  exists tb e ta,
    table = (tb ++ e :: ta)%list /\ intent_entry t e = [r]
    /\ flat_map (intent_entry t) tb = before
    /\ flat_map (intent_entry t) ta = after.
Proof.
  induction table as [|e table IH]; intros before r after H.
  - now destruct before.
  - cbn [flat_map] in H.
    destruct (intent_entry t e) as [|x [|x' l]] eqn:He.
    + destruct (IH _ _ _ H) as (tb & e' & ta & -> & He' & Hb & Ha).
      exists (e :: tb), e', ta. cbn [flat_map]. rewrite He. auto.
    + destruct before as [|b before]; cbn in H.
      * injection H as -> <-. exists [], e, table. auto.
      * injection H as -> H.
        destruct (IH _ _ _ H) as (tb & e' & ta & -> & He' & Hb & Ha).
        exists (e :: tb), e', ta. cbn [flat_map]. rewrite He, Hb. auto.
    + unfold intent_entry in He. destruct (List.length _); discriminate.
Qed.

Lemma intent_entry_count (t : string) (e : string * list string) (y : string * nat) :
  In y (intent_entry t e) ->
  y = (fst e, List.length (filter (hit t) (snd e))) /\ 0 < snd y.
Proof.
  unfold intent_entry. destruct (List.length _) as [|n]; [intros []|].
  intros [<-|[]]. cbn. split; [reflexivity|lia].
Qed.

Lemma intent_entry_bound (t : string) (tb : Dict.t string (list string))
    (e : string * list string) (bound : nat) (strict : bool) :
  0 < bound ->
  (forall y, In y (flat_map (intent_entry t) tb) ->
     if strict then snd y < bound else snd y <= bound) ->
  In e tb ->
  if strict then List.length (filter (hit t) (snd e)) < bound
  else List.length (filter (hit t) (snd e)) <= bound.
Proof.
  intros Hpos Hall Hin.
  destruct (List.length (filter (hit t) (snd e))) as [|n] eqn:Hn.
  - destruct strict; lia.
  - specialize (Hall (fst e, S n)). cbn [snd] in Hall. apply Hall.
    apply in_flat_map. exists e. split; [exact Hin|].
    unfold intent_entry. rewrite Hn. now left.
Qed.

(** X7. [_identify_intent] returns the first label of the intent table, in
    declaration order, whose match count is the largest: the labels declared
    before it have a strictly smaller count, the labels declared after it
    have no larger one, and its count is positive.  The default
    ['general_info'] is returned exactly when no pattern of any label occurs
    in the text. *)
Theorem identify_intent_first_maximum (text : string) :
  (_identify_intent text = "general_info"
   /\ forall label ps, In (label, ps) intent_patterns ->
        match_count text label = 0)
  \/ exists before ps after,
       intent_patterns = (before ++ (_identify_intent text, ps) :: after)%list
       /\ 0 < match_count text (_identify_intent text)
       /\ (forall l ps', In (l, ps') before ->
             match_count text l < match_count text (_identify_intent text))
       /\ (forall l ps', In (l, ps') after ->
             match_count text l <= match_count text (_identify_intent text)).
Proof.
  unfold _identify_intent, Dict.items. rewrite matched_intents_items.
  set (t := _preprocess_text text).
  destruct (flat_map (intent_entry t) intent_patterns) as [|x items] eqn:Hf.
  - left. split; [reflexivity|]. intros label ps Hin.
    rewrite (match_count_entry text label ps Hin). fold t.
    destruct (List.length (filter (hit t) ps)) as [|n] eqn:Hn; [reflexivity|].
    assert (Hy : In (label, S n) (flat_map (intent_entry t) intent_patterns)).
    { apply in_flat_map. exists (label, ps). split; [exact Hin|].
      unfold intent_entry. cbn [fst snd]. rewrite Hn. now left. }
    rewrite Hf in Hy. destruct Hy.
  - right.
    destruct (max_by_count_first items x [] []) as (b & a & Heq & Hb & Ha);
      [intros y []|intros y []|].
    cbn [app] in Heq. rewrite Heq in Hf.
    destruct (flat_map_entry_split t intent_patterns b _ a Hf)
      as (tb & e & ta & Htab & He & Htb & Hta).
    set (best := max_by_count x items) in *.
    destruct (intent_entry_count t e best) as [Hbest Hpos];
      [rewrite He; now left|].
    assert (Hlabel : fst best = fst e) by now rewrite Hbest.
    assert (Hcount : match_count text (fst best) = snd best).
    { rewrite Hlabel, (match_count_entry text (fst e) (snd e)).
      - fold t. now rewrite Hbest.
      - rewrite Htab. apply in_or_app. right. left. now destruct e. }
    exists tb, (snd e), ta. rewrite Hcount, Hlabel.
    split; [rewrite Htab; now destruct e|]. split; [exact Hpos|]. split.
    + intros l ps' Hin.
      rewrite (match_count_entry text l ps'); fold t.
      * apply (intent_entry_bound t tb (l, ps') (snd best) true Hpos);
          [rewrite Htb; exact Hb|exact Hin].
      * rewrite Htab. apply in_or_app. now left.
    + intros l ps' Hin.
      rewrite (match_count_entry text l ps'); fold t.
      * apply (intent_entry_bound t ta (l, ps') (snd best) false Hpos);
          [rewrite Hta; exact Ha|exact Hin].
      * rewrite Htab. apply in_or_app. right. now right.
Qed.

(** ** Search, continued *)

(** X8. An advanced search by category alone is the plain search by that
    category: for every state of the processor, loaded or not, and every
    non-empty category the two calls return the same list, or raise the same
    error when the table has no Category column. *)
Theorem advanced_search_category_is_get_medications
    (str_contains : string -> string -> bool) (self : MedicationProcessor)
    (c : string) :
  c <> "" ->
  advanced_search str_contains self (category_criteria c)
  = get_medications self "" c None.
Proof.
  intros Hc. apply truthy_iff in Hc.
  unfold advanced_search, get_medications, category_criteria.
  cbn [trade_name generic_name category min_price max_price indication given
       limit_set].
  rewrite Hc. cbn [truthy String.eqb negb andb bind].
  destruct (df self) as [d|]; [|reflexivity].
  destruct (select d "Category" (fun c0 => cell_is c0 c)) as [q|e];
    reflexivity.
Qed.

Lemma advanced_search_category_is_get_medications_witness :
  advanced_search sample_str_contains sample (category_criteria "Statin")
  = get_medications sample "" "Statin" None.
Proof.
  apply advanced_search_category_is_get_medications. discriminate.
Defined.

Lemma filterM_filter {A : Type} (f : A -> result bool) (g : A -> bool)
    (l : list A) :
  (forall x, In x l -> f x = Ok (g x)) -> filterM f l = Ok (filter g l).
Proof.
  induction l as [|a l IH]; intros H; [reflexivity|].
  cbn [filterM filter]. rewrite (H a (or_introl eq_refl)).
  rewrite IH by (intros x Hx; apply H; now right).
  cbn [bind]. reflexivity.
Qed.

Lemma map_filter_swap {A B : Type} (f : A -> B) (p : A -> bool) (g : B -> bool)
    (l : list A) :
  (forall x, In x l -> p x = g (f x)) ->
  map f (filter p l) = filter g (map f l).
Proof.
  induction l as [|a l IH]; intros H; [reflexivity|].
  cbn [filter map]. rewrite <- (H a (or_introl eq_refl)).
  rewrite <- IH by (intros x Hx; apply H; now right).
  now destruct (p a).
Qed.

Lemma slice_to_all {A : Type} (l : list A) (n : Z) :
  (Z.of_nat (List.length l) <= n)%Z -> Py.slice_to l n = l.
Proof.
  intros H. rewrite slice_to_nonneg by lia. apply firstn_all2. lia.
Qed.

Section FilterLoaded.
Variable to_numeric : string -> float.
Variable header : list string.
Variable lines : list (list cell).

Local Abbreviation d := (loaded_frame to_numeric header lines).
Local Abbreviation self := (loaded to_numeric header lines).

(** The four fields a search reads are texts, the cells of the columns of
    the same names. *)
Lemma searched_field (r : Row) (key : string) :
  In r (body d) ->
  In key ["Trade_Name"; "Generic_Name"; "Category"; "Indications_for_Use"] ->
  getitem (medication_of d r) key
  = Ok (VCell (Str (field (medication_of d r) key)))
  /\ row_get_default d r key = Str (field (medication_of d r) key).
Proof.
  intros Hin Hkey.
  assert (Hne : key <> "Price_Numeric").
  { intros ->. cbn in Hkey. intuition discriminate. }
  destruct (loaded_cell_str to_numeric header lines r key Hin Hne) as [s Hs].
  cbn in Hkey. unfold getitem, field.
  destruct Hkey as [<-|[<-|[<-|[<-|[]]]]];
    cbn [medication_of Dict.get]; cbn; rewrite Hs; split; reflexivity.
Qed.

Lemma field_contains_loaded (r : Row) (key needle : string) :
  In r (body d) ->
  In key ["Trade_Name"; "Generic_Name"; "Category"; "Indications_for_Use"] ->
  field_contains (medication_of d r) key needle
  = Ok (Py.str_in needle (Py.lower (field (medication_of d r) key))).
Proof.
  intros Hin Hkey. unfold field_contains.
  rewrite (proj1 (searched_field r key Hin Hkey)). reflexivity.
Qed.

Lemma search_test_loaded (r : Row) (search : string) :
  In r (body d) ->
  orM (field_contains (medication_of d r) "Trade_Name" (Py.lower search))
    (orM (field_contains (medication_of d r) "Generic_Name" (Py.lower search))
       (orM (field_contains (medication_of d r) "Category" (Py.lower search))
          (field_contains (medication_of d r) "Indications_for_Use"
             (Py.lower search))))
  = Ok (mentions search (medication_of d r)).
Proof.
  intros Hin.
  rewrite !field_contains_loaded by (try exact Hin; cbn; tauto).
  unfold mentions. cbn [existsb orM bind].
  repeat match goal with
         | |- context [Py.str_in ?a ?b] =>
             let x := fresh "b" in
             generalize (Py.str_in a b); intros x
         end.
  destruct b, b0, b1, b2; reflexivity.
Qed.

Lemma category_test_loaded (r : Row) (category : string) (i : nat) :
  In r (body d) -> position "Category" (columns d) = Some i ->
  cell_is (nth i (cells r) NaN) category
  = String.eqb (field (medication_of d r) "Category") category.
Proof.
  intros Hin Hp.
  pose proof (proj2 (searched_field r "Category" Hin ltac:(cbn; tauto))) as H.
  unfold row_get_default, row_get in H. rewrite Hp in H. cbn [option_map] in H.
  now rewrite H.
Qed.

End FilterLoaded.

Section SearchFilter.
Variable to_numeric : string -> float.
Variable header : list string.
Variable lines : list (list cell).

Local Abbreviation d := (loaded_frame to_numeric header lines).
Local Abbreviation self := (loaded to_numeric header lines).
Local Abbreviation all := (records to_numeric header lines).

Lemma search_filter_loaded (search : string) (l : list medication) :
  (forall med, In med l -> In med all) ->
  filterM
    (fun med =>
       orM (field_contains med "Trade_Name" (Py.lower search))
         (orM (field_contains med "Generic_Name" (Py.lower search))
            (orM (field_contains med "Category" (Py.lower search))
               (field_contains med "Indications_for_Use" (Py.lower search)))))
    l
  = Ok (filter (mentions search) l).
Proof.
  intros Hsub. apply filterM_filter. intros med Hin.
  apply Hsub, in_map_iff in Hin as (r & <- & Hr).
  now apply search_test_loaded.
Qed.

Lemma category_filter_loaded (category : string) :
  In "Category" (map Py.strip header) ->
  exists q,
    select d "Category" (fun c => cell_is c category) = Ok q
    /\ records_of self q
       = filter (fun med => String.eqb (field med "Category") category) all.
Proof.
  intros Hcol.
  destruct (position_In "Category" _ Hcol) as [i Hp].
  rewrite <- (loaded_position to_numeric header lines "Category")
    in Hp by discriminate.
  unfold select. rewrite Hp. eexists. split; [reflexivity|].
  rewrite records_of_loaded by (intros r Hr; now apply filter_In in Hr).
  unfold records. apply map_filter_swap. intros r Hr.
  now apply category_test_loaded.
Qed.

Lemma limited_all {A : Type} (n : Z) (l : list A) :
  (if (n <? Z.of_nat (List.length l))%Z then Py.slice_to l n else l)
  = Py.slice_to l n.
Proof.
  destruct (n <? Z.of_nat (List.length l))%Z eqn:E; [reflexivity|].
  apply Z.ltb_ge in E. now rewrite slice_to_all.
Qed.

Lemma get_medications_filtered (search category : string) (limit : option Z) :
  category = "" \/ In "Category" (map Py.strip header) ->
  get_medications self search category limit
  = Ok (limited limit (filter (wanted search category) all)).
Proof.
  intros Hcol. unfold get_medications, limited, wanted.
  rewrite loaded_values, loaded_df.
  destruct (truthy category) eqn:Hc; cbn [negb andb orb].
  - destruct Hcol as [->|Hcol]; [discriminate Hc|].
    rewrite andb_false_r.
    destruct (category_filter_loaded category Hcol) as (q & -> & Hq).
    cbn [bind]. rewrite Hq. destruct (truthy search) eqn:Hs; cbn [negb orb].
    + rewrite search_filter_loaded
        by (intros med Hm; now apply filter_In in Hm).
      cbn [bind]. now rewrite filter_filter.
    + cbn [bind]. do 2 f_equal.
      all: try (apply filter_ext; intros med; now rewrite andb_true_r).
      rewrite (filter_ext _ (fun med => (field med "Category" =? category)%string)
                 (fun med => andb_true_r _)).
      reflexivity.
  - destruct (truthy search) eqn:Hs; cbn [negb andb orb bind].
    + rewrite search_filter_loaded by auto. cbn [bind]. reflexivity.
    + rewrite filter_all.
      destruct (limit_set limit) as [n|]; [|reflexivity].
      now rewrite limited_all.
Qed.

Lemma get_medications_no_column (search category : string) (limit : option Z) :
  category <> "" -> ~ In "Category" (map Py.strip header) ->
  get_medications self search category limit = Raise (KeyError "Category").
Proof.
  intros Hc Hcol. apply truthy_iff in Hc.
  unfold get_medications. rewrite loaded_df, Hc, andb_false_r.
  unfold select.
  rewrite (loaded_position to_numeric header lines "Category") by discriminate.
  rewrite (position_None _ _ Hcol). reflexivity.
Qed.

End SearchFilter.

(** ** Advanced search, continued *)

Lemma select_ok (d q : DataFrame) (name : string) :
  columns q = columns d -> has_column d name = true ->
  forall p, exists q', select q name p = Ok q' /\ columns q' = columns d.
Proof.
  intros Hcols Hc p. unfold select, has_column in *. rewrite Hcols.
  destruct (position name (columns d)); [|discriminate].
  eexists. split; reflexivity.
Qed.

Lemma select_raise (d q : DataFrame) (name : string) :
  columns q = columns d -> has_column d name = false ->
  forall p, select q name p = Raise (KeyError name).
Proof.
  intros Hcols Hc p. unfold select, has_column in *. rewrite Hcols.
  now destruct (position name (columns d)).
Qed.

Lemma select_price_ok (d q : DataFrame) :
  columns q = columns d -> has_column d "Price_Numeric" = true ->
  forall p, exists q', select_price q p = Ok q' /\ columns q' = columns d.
Proof.
  intros Hcols Hc p. unfold select_price, has_column in *. rewrite Hcols.
  destruct (position "Price_Numeric" (columns d)); [|discriminate].
  eexists. split; reflexivity.
Qed.

Lemma select_price_raise (d q : DataFrame) :
  columns q = columns d -> has_column d "Price_Numeric" = false ->
  forall p, select_price q p = Raise (KeyError "Price_Numeric").
Proof.
  intros Hcols Hc p. unfold select_price, has_column in *. rewrite Hcols.
  now destruct (position "Price_Numeric" (columns d)).
Qed.

(** Decide whether a column is there, once. *)
Ltac column_known d name :=
  lazymatch goal with
  | H : has_column d name = _ |- _ => rewrite H
  | _ => destruct (has_column d name) eqn:?
  end.

(** One selection of an advanced search whose criterion is given: it goes
    through when the column is there, and raises otherwise. *)
Ltac selection d name :=
  cbn [needs app find]; column_known d name; cbn [negb];
  lazymatch goal with
  | H : has_column d name = true |- _ =>
      match goal with
      | Hc : columns ?q = columns d |- context [select ?q name ?p] =>
          let q' := fresh "q" in
          destruct (select_ok d q name Hc H p) as (q' & -> & ?); cbn [bind]
      | Hc : columns ?q = columns d |- context [select_price ?q ?p] =>
          let q' := fresh "q" in
          destruct (select_price_ok d q Hc H p) as (q' & -> & ?); cbn [bind]
      end
  | H : has_column d name = false |- _ =>
      intros [= <-];
      match goal with
      | Hc : columns ?q = columns d |- context [select ?q name ?p] =>
          rewrite (select_raise d q name Hc H p); reflexivity
      | Hc : columns ?q = columns d |- context [select_price ?q ?p] =>
          rewrite (select_price_raise d q Hc H p); reflexivity
      end
  end.

Ltac criterion d c name :=
  destruct c; [selection d name|cbn [needs app bind]].

Section AdvancedErrors.
Variable to_numeric : string -> float.
Variable str_contains : string -> string -> bool.
Variable header : list string.
Variable lines : list (list cell).

Local Abbreviation d := (loaded_frame to_numeric header lines).
Local Abbreviation self := (loaded to_numeric header lines).

Lemma advanced_search_raises (criteria : Criteria) (name : string) :
  first_missing d (needed criteria) = Some name ->
  advanced_search str_contains self criteria = Raise (KeyError name).
Proof.
  unfold advanced_search, first_missing, needed. rewrite loaded_df.
  pose proof (eq_refl (columns d)) as Hd.
  criterion (loaded_frame to_numeric header lines)
    (given (trade_name criteria)) "Trade_Name".
  all: criterion (loaded_frame to_numeric header lines)
         (given (generic_name criteria)) "Generic_Name".
  all: criterion (loaded_frame to_numeric header lines)
         (given (category criteria)) "Category".
  all: criterion (loaded_frame to_numeric header lines)
         (min_price criteria) "Price_Numeric".
  all: criterion (loaded_frame to_numeric header lines)
         (max_price criteria) "Price_Numeric".
  all: criterion (loaded_frame to_numeric header lines)
         (given (indication criteria)) "Indications_for_Use".
  all: cbn [find]; discriminate.
Qed.

Lemma advanced_search_complete (criteria : Criteria) :
  first_missing d (needed criteria) = None ->
  advanced_search str_contains self criteria
  = Ok (map (medication_of d) (filter (satisfies str_contains d criteria) (body d))).
Proof.
  intros Hf. apply advanced_search_conjunctive. intros c Hc.
  apply (find_none _ _ Hf) in Hc. now apply negb_false_iff in Hc.
Qed.

Lemma loaded_price_column :
  ~ In "Price_Numeric" (map Py.strip header) ->
  (has_column d "Price_Numeric" = true <-> In "Price" (map Py.strip header)).
Proof.
  intros Hpn. split.
  - intros Hc.
    destruct (in_dec string_dec "Price" (map Py.strip header)) as [H|H];
      [exact H|exfalso].
    revert Hc. unfold has_column, loaded_frame, clean.
    cbn [columns fillna frame]. unfold has_column at 1. cbn [columns].
    rewrite (position_None _ _ H). cbn [columns].
    now rewrite (position_None _ _ Hpn).
  - intros H. now apply loaded_has_price_numeric.
Qed.

End AdvancedErrors.

(** ** The request handlers *)

Section HandlersLoaded.
Variable to_numeric : string -> float.
Variable header : list string.
Variable lines : list (list cell).
Hypothesis has_columns : header <> [].
Hypothesis has_lines : lines <> [].

Local Abbreviation d := (loaded_frame to_numeric header lines).
Local Abbreviation self := (loaded to_numeric header lines).
Local Abbreviation all := (records to_numeric header lines).





End HandlersLoaded.



(** ** Keywords *)

Lemma split_lower (s : string) :
  Py.split (Py.lower s) = map Py.lower (Py.split s).
Proof.
  induction s as [|c s IH]; [reflexivity|].
  cbn [Py.lower Py.split]. rewrite isspace_lower_char.
  destruct (Py.isspace c); [exact IH|].
  destruct s as [|e s']; [reflexivity|].
  cbn [Py.lower] in IH |- *. rewrite isspace_lower_char.
  destruct (Py.isspace e); [cbn [map]; now rewrite IH|].
  rewrite IH. now destruct (Py.split (String e s')).
Qed.

Lemma split_spacefree (s w : string) : In w (Py.split s) -> spacefree w = true.
Proof.
  revert w; induction s as [|c s IH]; intros w H; [contradiction|].
  cbn [Py.split] in H. destruct (Py.isspace c) eqn:Hc; [now apply IH|].
  assert (H1 : spacefree (String c "") = true)
    by (unfold spacefree; cbn; now rewrite Hc).
  destruct s as [|e s']; [destruct H as [<-|[]]; exact H1|].
  destruct (Py.isspace e).
  - destruct H as [<-|H]; [exact H1|now apply IH].
  - destruct (Py.split (String e s')) as [|w0 ws].
    + destruct H as [<-|[]]; exact H1.
    + destruct H as [<-|H]; [|apply IH; now right].
      unfold spacefree. cbn [list_ascii_of_string forallb]. rewrite Hc.
      apply (IH w0). now left.
Qed.

Lemma split_app_word (w s : string) :
  w <> "" -> spacefree w = true ->
  Py.split (w ++ String " " s) = w :: Py.split s.
Proof.
  induction w as [|c w IH]; [congruence|]. intros _ Hw.
  unfold spacefree in Hw. cbn [list_ascii_of_string forallb] in Hw.
  apply andb_true_iff in Hw as [Hc Hw]. apply negb_true_iff in Hc.
  change (String c w ++ String " " s) with (String c (w ++ String " " s)).
  rewrite (split_cons_clean c _ Hc).
  destruct w as [|e w'].
  - reflexivity.
  - cbn [String.append].
    assert (He : Py.isspace e = false).
    { cbn [list_ascii_of_string forallb] in Hw.
      apply andb_true_iff in Hw as [He _]. now apply negb_true_iff in He. }
    rewrite He.
    change (String e (w' ++ String " " s)) with (String e w' ++ String " " s).
    now rewrite IH by (try discriminate; exact Hw).
Qed.

Lemma split_word (w : string) :
  w <> "" -> spacefree w = true -> Py.split w = [w].
Proof.
  induction w as [|c w IH]; [congruence|]. intros _ Hw.
  unfold spacefree in Hw. cbn [list_ascii_of_string forallb] in Hw.
  apply andb_true_iff in Hw as [Hc Hw]. apply negb_true_iff in Hc.
  rewrite (split_cons_clean c _ Hc).
  destruct w as [|e w']; [reflexivity|].
  rewrite IH by (try discriminate; exact Hw).
  cbn [list_ascii_of_string forallb] in Hw.
  apply andb_true_iff in Hw as [He _]. apply negb_true_iff in He.
  now rewrite He.
Qed.

Lemma split_join (ws : list string) :
  (forall w, In w ws -> w <> "" /\ spacefree w = true) ->
  Py.split (Py.join " " ws) = ws.
Proof.
  induction ws as [|w ws IH]; intros H; [reflexivity|].
  destruct (H w (or_introl eq_refl)) as [Hne Hsf].
  destruct ws as [|w' ws'].
  - now apply split_word.
  - change (Py.join " " (w :: w' :: ws'))
      with (w ++ String " " (Py.join " " (w' :: ws'))).
    rewrite split_app_word by assumption.
    f_equal. apply IH. intros x Hx. apply H. now right.
Qed.

Lemma split_preprocess_text (text : string) :
  Py.split (_preprocess_text text) = map Py.lower (Py.split text).
Proof.
  rewrite preprocess_text_words. unfold normalize_words.
  rewrite split_join; [apply split_lower|].
  intros w Hw. split.
  - now apply (split_words_nonempty (Py.lower text)).
  - now apply (split_spacefree (Py.lower text)).
Qed.

(** X14. The keywords of a text are its words, that is its maximal runs of
    characters other than whitespace, in lowercase and in order, without
    the common words; every keyword is non-empty, holds no whitespace, is in
    lowercase and is no common word. *)
Theorem extract_keywords_words (text : string) :
  _extract_keywords text
  = filter (fun word => negb (existsb (String.eqb word) common_words))
      (map Py.lower (Py.split text))
  /\ forall word, In word (_extract_keywords text) ->
       word <> "" /\ spacefree word = true /\ Py.lower word = word
       /\ ~ In word common_words.
Proof.
  assert (E : _extract_keywords text
              = filter (fun word => negb (existsb (String.eqb word) common_words))
                  (map Py.lower (Py.split text))).
  { unfold _extract_keywords. cbv zeta. now rewrite split_preprocess_text. }
  split; [exact E|].
  intros word Hin. rewrite E in Hin. apply filter_In in Hin as [Hw Hc].
  rewrite <- split_lower in Hw.
  split; [now apply (split_words_nonempty (Py.lower text))|].
  split; [now apply (split_spacefree (Py.lower text))|].
  split.
  - rewrite split_lower in Hw. apply in_map_iff in Hw as (w0 & <- & _).
    apply lower_idem.
  - intros Hcommon. apply negb_true_iff in Hc.
    assert (Hex : existsb (String.eqb word) common_words = true).
    { apply existsb_exists. exists word. split; [exact Hcommon|].
      apply String.eqb_refl. }
    congruence.
Qed.

(** ** Loading again *)

Lemma fold_set_get_other {A V : Type} (key : A -> string) (val : A -> V)
    (l : list A) :
  forall (acc : Dict.t string V) (k : string),
  ~ In k (map key l) ->
  Dict.get k (fold_left (fun m r => Dict.set (key r) (val r) m) l acc)
  = Dict.get k acc.
Proof.
  induction l as [|r l IH]; intros acc k Hk; [reflexivity|].
  cbn [fold_left]. rewrite IH by (intros H; apply Hk; now right).
  apply get_set_other. intros E. apply Hk. now left.
Qed.

Lemma fold_set_get_in {A V : Type} (key : A -> string) (val : A -> V)
    (l : list A) :
  NoDup (map key l) ->
  forall (acc : Dict.t string V) (r : A),
  In r l ->
  Dict.get (key r) (fold_left (fun m r => Dict.set (key r) (val r) m) l acc)
  = Some (val r).
Proof.
  induction l as [|r0 l IH]; intros Hnd acc r Hin; [contradiction|].
  cbn [map] in Hnd. inversion Hnd as [|? ? Hnot Hnd']; subst.
  cbn [fold_left]. destruct Hin as [->|Hin].
  - rewrite fold_set_get_other by exact Hnot. apply get_set_same.
  - now apply IH.
Qed.

Section Reload.
Variable to_numeric : string -> float.
Variable before : MedicationProcessor.
Variable header : list string.
Variable lines : list (list cell).

Local Abbreviation d := (loaded_frame to_numeric header lines).
Local Abbreviation self :=
  (fst (load_data to_numeric before (Ok (frame header lines)))).

(** What [load_data] makes of a processor that holds data already. *)
Lemma reload_state :
  snd (load_data to_numeric before (Ok (frame header lines))) = true
  /\ df self = Some d
  /\ medications_dict self
     = fold_left
         (fun m r => Dict.set (Py.str_of_nat (label r)) (medication_of d r) m)
         (body d) (medications_dict before)
  /\ categories self
     = if has_column d "Category"
       then sorted (unique (dropna (col_cells d "Category")))
       else categories before.
Proof.
  unfold load_data, _clean_data, _create_indexes, _create_medications_dict.
  cbv [df set_df bind].
  fold (loaded_frame to_numeric header lines).
  case_column (loaded_frame to_numeric header lines) "Category";
    case_column (loaded_frame to_numeric header lines) "Trade_Name";
    case_column (loaded_frame to_numeric header lines) "Generic_Name";
    cbn [fst snd df medications_dict categories]; auto.
Qed.

Lemma reload_count : get_medication_count self = List.length lines.
Proof.
  unfold get_medication_count.
  rewrite (proj1 (proj2 reload_state)). apply loaded_body_length.
Qed.

Lemma reload_new (i : nat) :
  i < List.length lines ->
  get_medication_by_id self (Py.str_of_nat i)
  = nth_error (records to_numeric header lines) i.
Proof.
  intros Hi. unfold get_medication_by_id.
  rewrite (proj1 (proj2 (proj2 reload_state))), records_nth.
  destruct (nth_error (body d) i) as [r|] eqn:Hr.
  - cbn [option_map].
    rewrite <- (loaded_row_label to_numeric header lines i r Hr).
    apply (fold_set_get_in (fun r => Py.str_of_nat (label r)) (medication_of d)).
    + apply loaded_keys_distinct.
    + now apply nth_error_In in Hr.
  - apply nth_error_None in Hr. rewrite loaded_body_length in Hr. lia.
Qed.

Lemma reload_old (key : string) :
  (forall i, i < List.length lines -> key <> Py.str_of_nat i) ->
  get_medication_by_id self key = get_medication_by_id before key.
Proof.
  intros Hkey. unfold get_medication_by_id.
  rewrite (proj1 (proj2 (proj2 reload_state))).
  apply fold_set_get_other.
  rewrite <- (map_map label Py.str_of_nat), loaded_frame_labels.
  intros Hin. apply in_map_iff in Hin as (i & <- & Hi).
  apply in_seq in Hi. apply (Hkey i); [lia|reflexivity].
Qed.

Lemma reload_categories :
  ~ In "Category" (map Py.strip header) ->
  get_categories self = get_categories before.
Proof.
  intros Hcol. unfold get_categories.
  rewrite (proj2 (proj2 (proj2 reload_state))).
  unfold has_column.
  rewrite (loaded_position to_numeric header lines "Category") by discriminate.
  now rewrite (position_None _ _ Hcol).
Qed.

End Reload.

(** ** Case and whitespace of the question *)

Lemma prefix_at_space (a : ascii) (w : string) (c : ascii) (s : string) :
  Py.isspace a = false -> Py.isspace c = true ->
  prefix (String a w) (String c s) = false.
Proof.
  intros Ha Hc. cbn [prefix].
  destruct (ascii_dec a c) as [->|_]; [congruence|reflexivity].
Qed.

Lemma str_in_lstrip (a : ascii) (w : string) (s : string) :
  Py.isspace a = false ->
  Py.str_in (String a w) (Py.lstrip s) = Py.str_in (String a w) s.
Proof.
  intros Ha. induction s as [|c s IH]; [reflexivity|].
  cbn [Py.lstrip]. destruct (Py.isspace c) eqn:Hc; [|reflexivity].
  rewrite IH. cbn [Py.str_in]. now rewrite (prefix_at_space a w c s Ha Hc).
Qed.

Lemma spacefree_cons (a : ascii) (w : string) :
  spacefree (String a w) = true -> Py.isspace a = false /\ spacefree w = true.
Proof.
  unfold spacefree. cbn [list_ascii_of_string forallb].
  intros H. apply andb_true_iff in H as [Ha Hw].
  now apply negb_true_iff in Ha.
Qed.

Lemma prefix_empty (s : string) : prefix "" s = true.
Proof. now destruct s. Qed.

Lemma prefix_sub_spaces (w : string) :
  spacefree w = true ->
  forall s, prefix w (Py.sub_spaces false s) = prefix w s.
Proof.
  induction w as [|a w IH]; intros Hw s; [now rewrite !prefix_empty|].
  apply spacefree_cons in Hw as [Ha Hw].
  destruct s as [|c s]; [reflexivity|].
  cbn [Py.sub_spaces]. destruct (Py.isspace c) eqn:Hc.
  - rewrite (prefix_at_space a w c s Ha Hc).
    now apply prefix_at_space.
  - cbn [prefix]. destruct (ascii_dec a c); [now apply IH|reflexivity].
Qed.

Lemma str_in_sub_spaces (a : ascii) (w : string) :
  Py.isspace a = false -> spacefree w = true ->
  forall (s : string) (b : bool),
  Py.str_in (String a w) (Py.sub_spaces b s) = Py.str_in (String a w) s.
Proof.
  intros Ha Hw. induction s as [|c s IH]; intros b; [reflexivity|].
  cbn [Py.sub_spaces]. destruct (Py.isspace c) eqn:Hc.
  - cbn [Py.str_in]. rewrite (prefix_at_space a w c s Ha Hc). cbn [orb].
    destruct b.
    + apply IH.
    + cbn [Py.str_in]. rewrite IH.
      now rewrite (prefix_at_space a w " " _ Ha eq_refl).
  - cbn [Py.str_in]. rewrite IH. f_equal.
    cbn [prefix]. destruct (ascii_dec a c); [|reflexivity].
    now apply prefix_sub_spaces.
Qed.

Lemma rstrip_cons (c : ascii) (s : string) :
  (Py.isspace c = true /\ Py.rstrip s = "" /\ Py.rstrip (String c s) = "")
  \/ Py.rstrip (String c s) = String c (Py.rstrip s).
Proof.
  cbn [Py.rstrip]. destruct (Py.rstrip s) as [|e r]; [|now right].
  destruct (Py.isspace c); [now left|now right].
Qed.

Lemma prefix_rstrip (s : string) :
  forall w, spacefree w = true -> prefix w (Py.rstrip s) = prefix w s.
Proof.
  induction s as [|c s IH]; intros w Hw; [reflexivity|].
  destruct w as [|a w]; [now rewrite !prefix_empty|].
  apply spacefree_cons in Hw as [Ha Hw].
  destruct (rstrip_cons c s) as [(Hc & _ & ->)| ->].
  - now rewrite (prefix_at_space a w c s Ha Hc).
  - cbn [prefix]. destruct (ascii_dec a c); [now apply IH|reflexivity].
Qed.

Lemma str_in_rstrip (a : ascii) (w : string) :
  Py.isspace a = false -> spacefree w = true ->
  forall s, Py.str_in (String a w) (Py.rstrip s) = Py.str_in (String a w) s.
Proof.
  intros Ha Hw.
  assert (Hn : spacefree (String a w) = true).
  { unfold spacefree in *. cbn [list_ascii_of_string forallb].
    now rewrite Ha, Hw. }
  induction s as [|c s IH]; [reflexivity|].
  destruct (rstrip_cons c s) as [(Hc & Hs & E)|E].
  - rewrite E. cbn [Py.str_in]. rewrite <- IH, Hs.
    now rewrite (prefix_at_space a w c s Ha Hc).
  - rewrite E. cbn [Py.str_in]. rewrite IH.
    rewrite <- E, (prefix_rstrip (String c s) _ Hn). reflexivity.
Qed.

(** A word occurs in the normalized text exactly when it occurs in the
    lowercased text. *)
Lemma str_in_preprocess_text (w question : string) :
  w <> "" -> spacefree w = true ->
  Py.str_in w (_preprocess_text question) = Py.str_in w (Py.lower question).
Proof.
  destruct w as [|a w]; [congruence|]. intros _ Hw.
  apply spacefree_cons in Hw as [Ha Hw].
  unfold _preprocess_text, Py.strip, Py.re_sub_spaces.
  now rewrite (str_in_rstrip a w Ha Hw), (str_in_lstrip a w _ Ha),
    (str_in_sub_spaces a w Ha Hw).
Qed.

Lemma identify_medication_names_normal (self : MedicationProcessor)
    (question : string) :
  _identify_medication_names self (_preprocess_text question)
  = _identify_medication_names self question.
Proof.
  unfold _identify_medication_names. now rewrite preprocess_text_idempotent.
Qed.

Lemma identify_intent_normal (question : string) :
  _identify_intent (_preprocess_text question) = _identify_intent question.
Proof.
  unfold _identify_intent, matched_intents.
  now rewrite preprocess_text_idempotent.
Qed.

Lemma identify_category_query_normal (question : string) :
  _identify_category_query (_preprocess_text question)
  = _identify_category_query question.
Proof.
  unfold _identify_category_query. now rewrite preprocess_text_idempotent.
Qed.

Lemma extract_keywords_normal (question : string) :
  _extract_keywords (_preprocess_text question) = _extract_keywords question.
Proof.
  unfold _extract_keywords. now rewrite preprocess_text_idempotent.
Qed.

Lemma analyze_question_normal (self : MedicationProcessor) (question : string) :
  _analyze_question self (_preprocess_text question)
  = _analyze_question self question.
Proof.
  unfold _analyze_question.
  now rewrite identify_medication_names_normal, identify_intent_normal,
    identify_category_query_normal, extract_keywords_normal.
Qed.

(** X16. The answer does not depend on the case of the letters of the
    question nor on its whitespace: for every state of the processor,
    [answer_question] gives the same outcome on a question and on its
    normalized form (lowercase, runs of whitespace collapsed to one space,
    no whitespace at the ends); the same holds for the analysis of the
    question. *)
Theorem answer_question_normal_form (self : MedicationProcessor)
    (question : string) :
  _analyze_question self (_preprocess_text question)
  = _analyze_question self question
  /\ answer_question self (_preprocess_text question)
     = answer_question self question.
Proof.
  split; [apply analyze_question_normal|].
  unfold answer_question.
  rewrite analyze_question_normal, lower_preprocess.
  rewrite !str_in_preprocess_text by (try discriminate; reflexivity).
  reflexivity.
Qed.

(** ** The answer to a condition *)

Lemma append_assoc (a b c : string) : ((a ++ b) ++ c = a ++ (b ++ c))%string.
Proof. induction a as [|x a IH]; cbn; [reflexivity|now rewrite IH]. Qed.

Section ConditionLoaded.
Variable to_numeric : string -> float.
Variable header : list string.
Variable lines : list (list cell).

Local Abbreviation d := (loaded_frame to_numeric header lines).
Local Abbreviation self := (loaded to_numeric header lines).
Local Abbreviation all := (records to_numeric header lines).

Lemma condition_filter_loaded (condition : string) :
  filterM
    (fun med =>
       orM (field_contains med "Category" (Py.lower condition))
         (field_contains med "Indications_for_Use" (Py.lower condition)))
    all
  = Ok (filter (treats condition) all).
Proof.
  apply filterM_filter. intros med Hin.
  apply in_map_iff in Hin as (r & <- & Hr).
  rewrite !(field_contains_loaded to_numeric header lines r)
    by (try exact Hr; cbn; tauto).
  unfold treats, orM. cbn [bind].
  now destruct (Py.str_in _ _).
Qed.

(** The listing appends to the response it is given. *)
Lemma listing_appends (meds : list medication) :
  (forall m, In m meds -> In m all) ->
  forall response : string,
  exists s,
    fold_left
      (fun acc med =>
         response <- acc ;;
         t <- fmt med "Trade_Name" ;;
         g <- fmt med "Generic_Name" ;;
         let response := response ++ "**" ++ t ++ "** (" ++ g ++ ")" ++ LF in
         i <- fmt med "Indications_for_Use" ;;
         let response := response ++ "• " ++ i ++ LF in
         p <- fmt med "Price" ;;
         Ok (response ++ "• Price: " ++ p ++ LF ++ LF))
      meds (Ok response) = Ok (response ++ s).
Proof.
  induction meds as [|m meds IH]; intros H response.
  - exists "". cbn [fold_left]. f_equal.
    induction response as [|c r IHr]; cbn; [reflexivity|now rewrite <- IHr].
  - destruct (in_map_iff (medication_of d) (body d) m) as [Hm _].
    destruct (Hm (H m (or_introl eq_refl))) as (r & <- & _).
    cbn [fold_left].
    change (fmt (medication_of d r) "Trade_Name")
      with (@Ok string (cell_str (row_get_default d r "Trade_Name"))).
    change (fmt (medication_of d r) "Generic_Name")
      with (@Ok string (cell_str (row_get_default d r "Generic_Name"))).
    change (fmt (medication_of d r) "Indications_for_Use")
      with (@Ok string (cell_str (row_get_default d r "Indications_for_Use"))).
    change (fmt (medication_of d r) "Price")
      with (@Ok string (cell_str (row_get_default d r "Price"))).
    cbn [bind].
    match goal with
    | |- context [fold_left _ meds (Ok ?r1)] =>
        destruct (IH (fun m' Hm' => H m' (or_intror Hm')) r1) as [s Hs]
    end.
    cbv beta iota zeta in Hs |- *. rewrite Hs.
    eexists. rewrite !append_assoc. reflexivity.
Qed.

Lemma category_response_none (condition : string) :
  filter (treats condition) all = [] ->
  _generate_category_response self condition
  = Ok ("I couldn't find any medications specifically for '" ++ condition
        ++ "' in our database. Please try a different search term or consult with your healthcare provider.").
Proof.
  intros Hnone. unfold _generate_category_response.
  rewrite loaded_values, condition_filter_loaded, Hnone. reflexivity.
Qed.

Lemma category_response_some (condition : string) :
  filter (treats condition) all <> [] ->
  exists listing,
    _generate_category_response self condition
    = Ok ("Here are medications that might be used for " ++ condition ++ ":"
          ++ LF ++ LF ++ listing).
Proof.
  intros Hsome. unfold _generate_category_response.
  rewrite loaded_values, condition_filter_loaded. cbn [bind].
  destruct (filter (treats condition) all) as [|m matching] eqn:Hf;
    [congruence|].
  destruct (listing_appends (firstn 5 (m :: matching))) with
    (response := "Here are medications that might be used for " ++ condition
                 ++ ":" ++ LF ++ LF) as [s Hs].
  { intros m' Hm'. apply In_firstn in Hm'. rewrite <- Hf in Hm'.
    now apply filter_In in Hm'. }
  cbv beta iota zeta in Hs |- *. rewrite Hs. cbn [bind].
  destruct (5 <? List.length (m :: matching))%nat; eexists;
    rewrite !append_assoc; reflexivity.
Qed.

End ConditionLoaded.

(* ================================================================= *)
(** * Data sets with numeric columns *)

(** C9.  [answer_question] raises on a table that loaded with success: the
    data set with the header Trade_Name, Category, Indications_for_Use and
    the line Panadol, Analgesic, 5 has its indications read as numbers;
    [load_data] returns [True], and the question "medications for fever"
    makes [_generate_category_response] call [.lower()] on the number 5,
    which raises [AttributeError]. *)
Theorem answer_question_raises_on_number :
  snd (Raw.load_data sample_to_numeric Raw.__init__
         (Ok (Raw.frame numeric_header numeric_lines))) = true
  /\ Raw.answer_question
       (raw_loaded sample_to_numeric numeric_header numeric_lines)
       "medications for fever"
     = Raise AttributeError.
Proof. split; vm_compute; reflexivity. Qed.

(** ** Loading *)

Lemma raw_unique_fold (l : list Raw.cell) :
  forall seen x,
  In x (fold_left
          (fun seen x =>
             if existsb (Raw.cell_eqb x) seen then seen else (seen ++ [x])%list)
          l seen) ->
  In x seen \/ In x l.
Proof.
  induction l as [|a l IH]; intros seen x H; [now left|].
  cbn [fold_left] in H. apply IH in H as [H|H]; [|right; now right].
  destruct (existsb (Raw.cell_eqb a) seen); [now left|].
  apply in_app_or in H as [H|[<-|[]]]; [now left|right; now left].
Qed.

Lemma raw_unique_In (l : list Raw.cell) (x : Raw.cell) :
  In x (Raw.unique l) -> In x l.
Proof.
  intros H. apply raw_unique_fold in H as [[]|H]. exact H.
Qed.

Lemma raw_unique_keeps_number (l : list Raw.cell) :
  forall seen,
  existsb Raw.is_number seen = true \/ existsb Raw.is_number l = true ->
  existsb Raw.is_number
    (fold_left
       (fun seen x =>
          if existsb (Raw.cell_eqb x) seen then seen else (seen ++ [x])%list)
       l seen) = true.
Proof.
  induction l as [|a l IH]; intros seen H.
  - destruct H as [H|H]; [exact H|discriminate H].
  - cbn [fold_left]. apply IH.
    destruct H as [H|H].
    + left. destruct (existsb (Raw.cell_eqb a) seen); [exact H|].
      rewrite existsb_app, H. reflexivity.
    + cbn [existsb] in H. apply orb_true_iff in H as [Ha|Hl]; [|now right].
      left. destruct (existsb (Raw.cell_eqb a) seen) eqn:E.
      * apply existsb_exists in E as (y & Hy & Hay).
        apply existsb_exists. exists y. split; [exact Hy|].
        destruct a; try discriminate Ha. destruct y; try discriminate Hay.
        reflexivity.
      * rewrite existsb_app. cbn [existsb]. rewrite Ha.
        now rewrite orb_true_r.
Qed.

Lemma raw_dropna_number (l : list Raw.cell) :
  existsb Raw.is_number (Raw.dropna l) = existsb Raw.is_number l.
Proof.
  induction l as [|a l IH]; [reflexivity|].
  unfold Raw.dropna in *. cbn [filter].
  destruct a; cbn [Raw.notna existsb Raw.is_number]; rewrite IH; reflexivity.
Qed.

Lemma raw_insert_by_number (x : Raw.cell) (l : list Raw.cell) :
  exists y rest, Raw.insert_by x l = y :: rest
                 /\ (Raw.is_number x = true -> forallb Raw.is_number l = true ->
                     Raw.is_number y = true).
Proof.
  destruct l as [|a l]; cbn [Raw.insert_by].
  - exists x, []. auto.
  - destruct (Raw.cell_leb x a).
    + exists x, (a :: l). auto.
    + exists a, (Raw.insert_by x l). split; [reflexivity|].
      intros _ H. cbn [forallb] in H. now apply andb_true_iff in H.
Qed.

Lemma raw_insert_by_all (x : Raw.cell) (l : list Raw.cell) :
  Raw.is_number x = true -> forallb Raw.is_number l = true ->
  forallb Raw.is_number (Raw.insert_by x l) = true.
Proof.
  intros Hx. induction l as [|a l IH]; intros Hl; cbn [Raw.insert_by].
  - cbn. now rewrite Hx.
  - cbn [forallb] in Hl. apply andb_true_iff in Hl as [Ha Hl].
    destruct (Raw.cell_leb x a); cbn [forallb].
    + now rewrite Hx, Ha, Hl.
    + now rewrite Ha, IH.
Qed.

Lemma raw_sorted_numbers (l : list Raw.cell) :
  forallb Raw.is_number l = true -> l <> [] ->
  exists x t rest, fold_right Raw.insert_by [] l = Raw.Num x t :: rest.
Proof.
  intros Hall Hne.
  assert (Hs : forallb Raw.is_number (fold_right Raw.insert_by [] l) = true).
  { clear Hne. induction l as [|a l IH]; [reflexivity|].
    cbn [forallb] in Hall. apply andb_true_iff in Hall as [Ha Hl].
    cbn [fold_right]. apply raw_insert_by_all; auto. }
  destruct l as [|a l]; [congruence|]. cbn [fold_right] in *.
  destruct (raw_insert_by_number a (fold_right Raw.insert_by [] l))
    as (y & rest & E & _).
  rewrite E in *. cbn [forallb] in Hs. apply andb_true_iff in Hs as [Hy _].
  destruct y; try discriminate Hy. now eexists _, _, _.
Qed.

Lemma raw_index_categories_texts (cats : list string) :
  forall ix,
  Raw.index_categories (map Raw.Str cats) ix
  = (fold_left (fun ix c => Dict.set (Py.lower c) c ix) cats ix, None).
Proof.
  induction cats as [|c cats IH]; intros ix; [reflexivity|].
  cbn [map Raw.index_categories fold_left]. apply IH.
Qed.

(** The category step passes when no category is a number... *)
Lemma raw_categories_pass (col : list Raw.cell) :
  existsb Raw.is_number col = false ->
  exists cats, Raw.sorted_cells (Raw.unique (Raw.dropna col)) = Ok (map Raw.Str cats).
Proof.
  intros Hcol. unfold Raw.sorted_cells.
  assert (Ht : forallb Raw.is_text (Raw.unique (Raw.dropna col)) = true).
  { apply forallb_forall. intros x Hx.
    apply raw_unique_In in Hx. unfold Raw.dropna in Hx.
    apply filter_In in Hx as [Hx Hn].
    destruct x as [| |y t]; [discriminate Hn|reflexivity|].
    assert (E : existsb Raw.is_number col = true)
      by (apply existsb_exists; now exists (Raw.Num y t)).
    congruence. }
  rewrite Ht. now eexists.
Qed.

(** ... and fails, in [sorted] or at the first [.lower()], when one is. *)
Lemma raw_categories_fail (col : list Raw.cell) (ix : Dict.t string string) :
  existsb Raw.is_number col = true ->
  match Raw.sorted_cells (Raw.unique (Raw.dropna col)) with
  | Raise _ => True
  | Ok cats => Raw.index_categories cats ix = (ix, Some AttributeError)
  end.
Proof.
  intros Hcol. unfold Raw.sorted_cells.
  assert (Hn : existsb Raw.is_number (Raw.unique (Raw.dropna col)) = true).
  { unfold Raw.unique. apply raw_unique_keeps_number. right.
    now rewrite raw_dropna_number. }
  destruct (forallb Raw.is_text (Raw.unique (Raw.dropna col))) eqn:Ht.
  - exfalso. apply existsb_exists in Hn as (x & Hx & Hnum).
    rewrite forallb_forall in Ht. specialize (Ht x Hx).
    destruct x; discriminate.
  - destruct (forallb Raw.is_number (Raw.unique (Raw.dropna col))) eqn:Hall;
      [|exact I].
    destruct (raw_sorted_numbers _ Hall) as (x & t & rest & E).
    + intros E. rewrite E in Hn. discriminate Hn.
    + rewrite E. reflexivity.
Qed.

Lemma raw_index_names_pass (names : list Raw.cell) :
  forall idx ix,
  snd (Raw.index_names idx names ix) = None <-> forallb name_ok names = true.
Proof.
  induction names as [|c names IH]; intros idx ix; [now split|].
  cbn [Raw.index_names forallb].
  destruct c as [|s|x t]; cbn [Raw.notna Raw.cell_truthy name_ok andb].
  - apply IH.
  - destruct (truthy s); apply IH.
  - destruct (Raw.nonzero x); cbn [negb andb snd]; [split; discriminate|apply IH].
Qed.

Lemma raw_index_names_fst (names : list Raw.cell) (idx : nat)
    (ix : Dict.t string nat) :
  Raw.index_names idx names ix
  = (fst (Raw.index_names idx names ix), snd (Raw.index_names idx names ix)).
Proof. now destruct (Raw.index_names idx names ix). Qed.

Lemma raw_forallb_not_number (col : list Raw.cell) :
  forallb (fun c => negb (Raw.is_number c)) col
  = negb (existsb Raw.is_number col).
Proof.
  induction col as [|c col IH]; [reflexivity|].
  cbn [forallb existsb]. rewrite IH. now destruct (Raw.is_number c).
Qed.

(** Two steps in a row: the second runs when the first raised nothing. *)
Lemma raw_and_then (o : Raw.outcome) (k : Raw.MedicationProcessor -> Raw.outcome)
    (d : Raw.DataFrame) (m : Dict.t string Raw.medication) (a b : bool) :
  (Raw.df (fst o) = Some d /\ Raw.medications_dict (fst o) = m
   /\ (snd o = None <-> a = true)) ->
  (forall s, Raw.df s = Some d -> Raw.medications_dict s = m ->
     Raw.df (fst (k s)) = Some d /\ Raw.medications_dict (fst (k s)) = m
     /\ (snd (k s) = None <-> b = true)) ->
  Raw.df (fst (Raw.and_then o k)) = Some d
  /\ Raw.medications_dict (fst (Raw.and_then o k)) = m
  /\ (snd (Raw.and_then o k) = None <-> a && b = true).
Proof.
  intros (Hd & Hm & Ha) Hk. destruct o as [s [e|]]; cbn [Raw.and_then fst snd] in *.
  - split; [exact Hd|]. split; [exact Hm|].
    split; [discriminate|]. intros H. apply andb_true_iff in H as [H _].
    apply Ha in H. discriminate H.
  - destruct (Hk s Hd Hm) as (Hd' & Hm' & Hb).
    split; [exact Hd'|]. split; [exact Hm'|].
    rewrite (proj1 Ha eq_refl). exact Hb.
Qed.

Lemma raw_names_step (d : Raw.DataFrame) (name : string)
    (get : Raw.MedicationProcessor -> Dict.t string nat)
    (set : Raw.MedicationProcessor -> Dict.t string nat -> Raw.MedicationProcessor)
    (s : Raw.MedicationProcessor) (m : Dict.t string Raw.medication) :
  (forall ix, Raw.df (set s ix) = Raw.df s
              /\ Raw.medications_dict (set s ix) = Raw.medications_dict s) ->
  Raw.df s = Some d -> Raw.medications_dict s = m ->
  let o := match position name (Raw.columns d) with
           | Some i =>
               let '(ix, e) := Raw.index_names 0 (Raw.at_column i d) (get s) in
               (set s ix, e)
           | None => (s, None)
           end in
  Raw.df (fst o) = Some d /\ Raw.medications_dict (fst o) = m
  /\ (snd o = None <-> column_all name_ok d name = true).
Proof.
  intros Hset Hd Hm. unfold column_all.
  destruct (position name (Raw.columns d)) as [i|]; cbv zeta.
  - pose proof (raw_index_names_pass (Raw.at_column i d) 0 (get s)) as Hp.
    destruct (Raw.index_names 0 (Raw.at_column i d) (get s)) as [ix e].
    cbn [fst snd] in *. destruct (Hset ix) as [-> ->]. auto.
  - cbn [fst snd]. split; [exact Hd|]. split; [exact Hm|]. now split.
Qed.

Lemma raw_category_step (d : Raw.DataFrame) (s : Raw.MedicationProcessor)
    (m : Dict.t string Raw.medication) :
  Raw.df s = Some d -> Raw.medications_dict s = m ->
  let o := match position "Category" (Raw.columns d) with
           | Some i =>
               match Raw.sorted_cells (Raw.unique (Raw.dropna (Raw.at_column i d))) with
               | Raise e => (s, Some e)
               | Ok cats =>
                   let self := Raw.set_categories s cats in
                   let '(ix, e) :=
                     Raw.index_categories cats (Raw.category_index self) in
                   (Raw.set_category_index self ix, e)
               end
           | None => (s, None)
           end in
  Raw.df (fst o) = Some d /\ Raw.medications_dict (fst o) = m
  /\ (snd o = None
      <-> column_all (fun c => negb (Raw.is_number c)) d "Category" = true).
Proof.
  intros Hd Hm. unfold column_all.
  destruct (position "Category" (Raw.columns d)) as [i|]; cbv zeta.
  - rewrite raw_forallb_not_number.
    destruct (existsb Raw.is_number (Raw.at_column i d)) eqn:Hnum; cbn [negb].
    + pose proof (raw_categories_fail (Raw.at_column i d)
                    (Raw.category_index s) Hnum) as Hf.
      destruct (Raw.sorted_cells _) as [cats|e].
      * cbn [Raw.set_categories Raw.category_index]. rewrite Hf.
        cbn. split; [exact Hd|]. split; [exact Hm|]. split; discriminate.
      * cbn. split; [exact Hd|]. split; [exact Hm|]. split; discriminate.
    + destruct (raw_categories_pass _ Hnum) as [cats ->].
      cbn [Raw.set_categories Raw.category_index].
      rewrite raw_index_categories_texts.
      cbn. split; [exact Hd|]. split; [exact Hm|]. now split.
  - cbn [fst snd]. split; [exact Hd|]. split; [exact Hm|]. now split.
Qed.

(** [_create_indexes] touches neither the frame nor the records, and raises
    exactly when a category is a number or a name is a number other than
    zero. *)
Lemma raw_create_indexes (s : Raw.MedicationProcessor) (d : Raw.DataFrame) :
  Raw.df s = Some d ->
  Raw.df (fst (Raw._create_indexes s)) = Some d
  /\ Raw.medications_dict (fst (Raw._create_indexes s)) = Raw.medications_dict s
  /\ (snd (Raw._create_indexes s) = None <-> indexable d = true).
Proof.
  intros Hd. unfold Raw._create_indexes, indexable. rewrite Hd.
  rewrite <- andb_assoc.
  apply raw_and_then; [now apply raw_category_step|].
  intros s1 Hd1 Hm1.
  apply raw_and_then.
  - apply (raw_names_step d "Trade_Name" Raw.trade_name_index
             Raw.set_trade_name_index s1); auto.
  - intros s2 Hd2 Hm2.
    apply (raw_names_step d "Generic_Name" Raw.generic_name_index
             Raw.set_generic_name_index s2); auto.
Qed.

Lemma raw_frame_labels (header : list string) (lines : list (list Raw.cell)) :
  map Raw.label (Raw.body (Raw.frame header lines)) = seq 0 (List.length lines).
Proof.
  unfold Raw.frame, enumerate. cbn [Raw.body]. rewrite map_map.
  transitivity (map fst (combine (seq 0 (List.length lines)) lines)).
  - apply map_ext. now intros [i cs].
  - apply map_fst_combine_seq.
Qed.

Lemma raw_clean_labels (tn : string -> float) (d : Raw.DataFrame) :
  map Raw.label (Raw.body (Raw.clean tn d)) = map Raw.label (Raw.body d).
Proof.
  unfold Raw.clean, Raw.fillna. cbn [Raw.columns Raw.body].
  destruct (Raw.has_column _ "Price"); cbn [Raw.body]; rewrite ?map_map;
    reflexivity.
Qed.

Section RawLoad.
Variable to_numeric : string -> float.
Variable before : Raw.MedicationProcessor.
Variable header : list string.
Variable lines : list (list Raw.cell).

Local Abbreviation d := (raw_frame to_numeric header lines).
Local Abbreviation after :=
  (Raw.load_data to_numeric before (Ok (Raw.frame header lines))).

Lemma raw_labels : map Raw.label (Raw.body d) = seq 0 (List.length lines).
Proof. unfold raw_frame. now rewrite raw_clean_labels, raw_frame_labels. Qed.

Lemma raw_body_length : List.length (Raw.body d) = List.length lines.
Proof. now rewrite <- (length_map Raw.label), raw_labels, length_seq. Qed.

Lemma raw_keys_distinct :
  NoDup (map (fun r => Py.str_of_nat (Raw.label r)) (Raw.body d)).
Proof.
  rewrite <- (map_map Raw.label Py.str_of_nat), raw_labels.
  apply NoDup_map_inj; [apply str_of_nat_inj|apply seq_NoDup].
Qed.

(** What [load_data] returns and leaves: the frame is kept in every case;
    the records are entered exactly when the call returns [True]. *)
Lemma raw_load_data :
  snd after = indexable d
  /\ Raw.df (fst after) = Some d
  /\ Raw.medications_dict (fst after)
     = if indexable d
       then fold_left
              (fun m r =>
                 Dict.set (Py.str_of_nat (Raw.label r)) (Raw.medication_of d r) m)
              (Raw.body d) (Raw.medications_dict before)
       else Raw.medications_dict before.
Proof.
  unfold Raw.load_data, Raw._clean_data.
  cbn [Raw.set_df Raw.df Raw.and_then].
  fold (raw_frame to_numeric header lines).
  match goal with
  | |- context [Raw._create_indexes ?s] =>
      destruct (raw_create_indexes s d eq_refl) as (Hd & Hm & Hok);
      destruct (Raw._create_indexes s) as [s1 [e|]]
  end; cbn [fst snd Raw.and_then] in *.
  - destruct (indexable d).
    + destruct Hok as [_ Hok]. discriminate (Hok eq_refl).
    + auto.
  - rewrite (proj1 Hok eq_refl).
    unfold Raw._create_medications_dict. rewrite Hd.
    cbn [fst snd Raw.set_medications_dict Raw.df Raw.medications_dict].
    rewrite Hm. auto.
Qed.

End RawLoad.

(** ** Tables that loaded *)

Section RawLoaded.
Variable to_numeric : string -> float.
Variable header : list string.
Variable lines : list (list Raw.cell).

Local Abbreviation d := (raw_frame to_numeric header lines).
Local Abbreviation self := (raw_loaded to_numeric header lines).

Lemma raw_loaded_df : Raw.df self = Some d.
Proof.
  apply (proj1 (proj2 (raw_load_data to_numeric Raw.__init__ header lines))).
Qed.

Lemma raw_loaded_dict :
  indexable d = true ->
  Raw.medications_dict self
  = map (fun r => (Py.str_of_nat (Raw.label r), Raw.medication_of d r))
      (Raw.body d).
Proof.
  intros Hload. unfold raw_loaded.
  rewrite (proj2 (proj2 (raw_load_data to_numeric Raw.__init__ header lines))).
  rewrite Hload. cbn [Raw.medications_dict Raw.__init__].
  apply (fold_set_fresh (fun r => Py.str_of_nat (Raw.label r))
           (Raw.medication_of d) (Raw.body d) []).
  cbn [map app]. apply raw_keys_distinct.
Qed.

Lemma raw_loaded_values :
  indexable d = true ->
  Dict.values (Raw.medications_dict self) = raw_records to_numeric header lines.
Proof.
  intros Hload. rewrite (raw_loaded_dict Hload). unfold Dict.values, raw_records.
  rewrite map_map. reflexivity.
Qed.

Lemma raw_loaded_get (r : Raw.Row) :
  indexable d = true -> In r (Raw.body d) ->
  Dict.get (Py.str_of_nat (Raw.label r)) (Raw.medications_dict self)
  = Some (Raw.medication_of d r).
Proof.
  intros Hload Hin. rewrite (raw_loaded_dict Hload).
  apply In_get.
  - rewrite map_map. cbn [fst]. apply raw_keys_distinct.
  - apply in_map_iff. now exists r.
Qed.

(** The records of a selection of rows of the loaded frame. *)
Lemma raw_records_of_loaded (cols : list string) (rows : list Raw.Row) :
  indexable d = true ->
  (forall r, In r rows -> In r (Raw.body d)) ->
  Raw.records_of self {| Raw.columns := cols; Raw.body := rows |}
  = map (Raw.medication_of d) rows.
Proof.
  intros Hload. unfold Raw.records_of. cbn [Raw.body].
  induction rows as [|r rows IH]; intros Hsub; [reflexivity|].
  cbn [flat_map map]. rewrite (raw_loaded_get r Hload) by (apply Hsub; now left).
  cbn [app]. f_equal. apply IH. intros r' H. apply Hsub. now right.
Qed.

End RawLoaded.

(** ** Advanced search on a table that loaded *)

Lemma raw_row_get_default (d : Raw.DataFrame) (r : Raw.Row) (name : string)
    (i : nat) :
  position name (Raw.columns d) = Some i ->
  Raw.row_get_default d r name = nth i (Raw.cells r) Raw.NaN.
Proof.
  intros H. unfold Raw.row_get_default, Raw.row_get. now rewrite H.
Qed.





Section RawPrice.
Variable to_numeric : string -> float.
Variable header : list string.
Variable lines : list (list Raw.cell).

Local Abbreviation d := (raw_frame to_numeric header lines).




End RawPrice.

Section RawAdvanced.
Variable to_numeric : string -> float.
Variable str_contains : string -> option (string -> bool).
Variable header : list string.
Variable lines : list (list Raw.cell).

Local Abbreviation d := (raw_frame to_numeric header lines).
Local Abbreviation self := (raw_loaded to_numeric header lines).


End RawAdvanced.


Lemma raw_load_succeeds (to_numeric : string -> float)
    (before : Raw.MedicationProcessor)
    (header : list string) (lines : list (list Raw.cell)) :
  snd (Raw.load_data to_numeric before (Ok (Raw.frame header lines))) = true
  <-> indexable (raw_frame to_numeric header lines) = true.
Proof.
  now rewrite (proj1 (raw_load_data to_numeric before header lines)).
Qed.




(** ** What a load leaves *)

Lemma raw_columns_empty (to_numeric : string -> float)
    (header : list string) (lines : list (list Raw.cell)) :
  Raw.columns (raw_frame to_numeric header lines) = [] <-> header = [].
Proof.
  unfold raw_frame, Raw.clean. cbn [Raw.columns Raw.fillna Raw.frame].
  destruct header as [|h t]; [split; reflexivity|].
  split; [|discriminate].
  destruct (Raw.has_column _ "Price"); cbn [Raw.columns];
    [destruct (Raw.has_column _ "Price_Numeric")|];
    cbn [map app]; discriminate.
Qed.

Lemma raw_names_keep_categories (d : Raw.DataFrame) (name : string)
    (get : Raw.MedicationProcessor -> Dict.t string nat)
    (set : Raw.MedicationProcessor -> Dict.t string nat -> Raw.MedicationProcessor)
    (s : Raw.MedicationProcessor) :
  (forall ix, Raw.categories (set s ix) = Raw.categories s) ->
  Raw.categories
    (fst match position name (Raw.columns d) with
         | Some i =>
             let '(ix, e) := Raw.index_names 0 (Raw.at_column i d) (get s) in
             (set s ix, e)
         | None => (s, None)
         end)
  = Raw.categories s.
Proof.
  intros Hset. destruct (position name (Raw.columns d)) as [i|]; [|reflexivity].
  destruct (Raw.index_names 0 (Raw.at_column i d) (get s)) as [ix e].
  apply Hset.
Qed.

(** Without a Category column [_create_indexes] leaves the categories as
    they were. *)
Lemma raw_create_indexes_categories (s : Raw.MedicationProcessor)
    (d : Raw.DataFrame) :
  Raw.df s = Some d -> position "Category" (Raw.columns d) = None ->
  Raw.categories (fst (Raw._create_indexes s)) = Raw.categories s.
Proof.
  intros Hd Hc. unfold Raw._create_indexes. rewrite Hd, Hc.
  cbn [Raw.and_then].
  pose proof (raw_names_keep_categories d "Trade_Name" Raw.trade_name_index
                Raw.set_trade_name_index s (fun _ => eq_refl)) as H1.
  destruct (match position "Trade_Name" (Raw.columns d) with
            | Some i => _
            | None => _
            end) as [s1 [e|]]; cbn [Raw.and_then fst] in *; [exact H1|].
  rewrite <- H1.
  apply (raw_names_keep_categories d "Generic_Name" Raw.generic_name_index
           Raw.set_generic_name_index s1 (fun _ => eq_refl)).
Qed.

Section RawReload.
Variable to_numeric : string -> float.
Variable before : Raw.MedicationProcessor.
Variable header : list string.
Variable lines : list (list Raw.cell).

Local Abbreviation d := (raw_frame to_numeric header lines).
Local Abbreviation after :=
  (Raw.load_data to_numeric before (Ok (Raw.frame header lines))).

Lemma raw_is_data_loaded :
  Raw.is_data_loaded (fst after) = true <-> header <> [] /\ lines <> [].
Proof.
  unfold Raw.is_data_loaded, Raw.df_empty.
  rewrite (proj1 (proj2 (raw_load_data to_numeric before header lines))).
  pose proof (raw_body_length to_numeric header lines) as Hb.
  pose proof (raw_columns_empty to_numeric header lines) as Hc.
  destruct (Raw.columns d) as [|c cols].
  - split; [discriminate|]. intros [Hh _]. exfalso. now apply Hh, Hc.
  - assert (Hh : header <> []) by (intros E; apply Hc in E; discriminate).
    destruct (Raw.body d) as [|r rows]; destruct lines as [|l ls];
      try discriminate Hb; cbn.
    + split; [discriminate|]. now intros [_ Hl].
    + split; [|reflexivity]. intros _. split; [exact Hh|discriminate].
Qed.

Lemma raw_count : Raw.get_medication_count (fst after) = List.length lines.
Proof.
  unfold Raw.get_medication_count.
  rewrite (proj1 (proj2 (raw_load_data to_numeric before header lines))).
  apply raw_body_length.
Qed.

Lemma raw_failed_load :
  snd after = false ->
  Raw.medications_dict (fst after) = Raw.medications_dict before.
Proof.
  intros Hf.
  rewrite (proj2 (proj2 (raw_load_data to_numeric before header lines))).
  rewrite <- (proj1 (raw_load_data to_numeric before header lines)), Hf.
  reflexivity.
Qed.

Lemma raw_records_nth (i : nat) :
  nth_error (raw_records to_numeric header lines) i
  = option_map (Raw.medication_of d) (nth_error (Raw.body d) i).
Proof. unfold raw_records. apply nth_error_map. Qed.

Lemma raw_row_label (idx : nat) (r : Raw.Row) :
  nth_error (Raw.body d) idx = Some r -> Raw.label r = idx.
Proof.
  intros H.
  assert (E : nth_error (map Raw.label (Raw.body d)) idx = Some (Raw.label r))
    by (now rewrite nth_error_map, H).
  rewrite raw_labels, nth_error_seq in E.
  destruct (idx <? List.length lines)%nat; now inversion E.
Qed.

Lemma raw_reload_new (i : nat) :
  snd after = true -> i < List.length lines ->
  Raw.get_medication_by_id (fst after) (Py.str_of_nat i)
  = nth_error (raw_records to_numeric header lines) i.
Proof.
  intros Hok Hi. unfold Raw.get_medication_by_id.
  rewrite (proj2 (proj2 (raw_load_data to_numeric before header lines))).
  rewrite <- (proj1 (raw_load_data to_numeric before header lines)), Hok.
  rewrite raw_records_nth.
  destruct (nth_error (Raw.body d) i) as [r|] eqn:Hr.
  - cbn [option_map]. rewrite <- (raw_row_label i r Hr).
    apply (fold_set_get_in (fun r => Py.str_of_nat (Raw.label r))
             (Raw.medication_of d)).
    + apply raw_keys_distinct.
    + now apply nth_error_In in Hr.
  - apply nth_error_None in Hr. rewrite raw_body_length in Hr. lia.
Qed.

Lemma raw_reload_old (key : string) :
  (forall i, i < List.length lines -> key <> Py.str_of_nat i) ->
  Raw.get_medication_by_id (fst after) key
  = Raw.get_medication_by_id before key.
Proof.
  intros Hkey. unfold Raw.get_medication_by_id.
  rewrite (proj2 (proj2 (raw_load_data to_numeric before header lines))).
  destruct (indexable d); [|reflexivity].
  apply fold_set_get_other.
  rewrite <- (map_map Raw.label Py.str_of_nat), raw_labels.
  intros Hin. apply in_map_iff in Hin as (i & <- & Hi).
  apply in_seq in Hi. apply (Hkey i); [lia|reflexivity].
Qed.

End RawReload.

Lemma raw_columns (to_numeric : string -> float)
    (header : list string) (lines : list (list Raw.cell)) :
  Raw.columns (raw_frame to_numeric header lines) = map Py.strip header
  \/ Raw.columns (raw_frame to_numeric header lines)
     = (map Py.strip header ++ ["Price_Numeric"])%list.
Proof.
  unfold raw_frame, Raw.clean. cbn [Raw.columns Raw.fillna Raw.frame].
  destruct (Raw.has_column _ "Price"); cbn [Raw.columns]; [|now left].
  destruct (Raw.has_column _ "Price_Numeric"); [now left|now right].
Qed.

Lemma raw_position (to_numeric : string -> float)
    (header : list string) (lines : list (list Raw.cell)) (name : string) :
  name <> "Price_Numeric" ->
  position name (Raw.columns (raw_frame to_numeric header lines))
  = position name (map Py.strip header).
Proof.
  intros Hne.
  destruct (raw_columns to_numeric header lines) as [E|E]; rewrite E;
    [reflexivity|].
  destruct (position name (map Py.strip header)) as [i|] eqn:Hp.
  - now apply position_app.
  - destruct (position name (map Py.strip header ++ ["Price_Numeric"])) as [j|] eqn:Hq;
      [|reflexivity].
    apply position_app_inv in Hq; [congruence|exact Hne].
Qed.

Lemma raw_load_categories (to_numeric : string -> float)
    (before : Raw.MedicationProcessor)
    (header : list string) (lines : list (list Raw.cell)) :
  ~ In "Category" (map Py.strip header) ->
  Raw.get_categories
    (fst (Raw.load_data to_numeric before (Ok (Raw.frame header lines))))
  = Raw.get_categories before.
Proof.
  intros Hcol. unfold Raw.get_categories, Raw.load_data, Raw._clean_data.
  cbn [Raw.set_df Raw.df Raw.and_then].
  fold (raw_frame to_numeric header lines).
  match goal with
  | |- context [Raw._create_indexes ?s] =>
      pose proof (raw_create_indexes_categories s
                    (raw_frame to_numeric header lines) eq_refl) as Hc;
      destruct (raw_create_indexes s (raw_frame to_numeric header lines) eq_refl)
        as (Hd & _ & _);
      destruct (Raw._create_indexes s) as [s1 [e|]]
  end; cbn [fst snd Raw.and_then Raw.categories] in *.
  - apply Hc. rewrite raw_position by discriminate.
    now apply position_None.
  - unfold Raw._create_medications_dict. rewrite Hd.
    cbn [fst Raw.set_medications_dict Raw.categories].
    apply Hc. rewrite raw_position by discriminate.
    now apply position_None.
Qed.

(** X3.  [load_data] returns [True] exactly when no category of the data
    set is a number and no trade or generic name is a number other than
    zero.  Whatever it returns, it keeps the frame it read: the processor
    counts as loaded exactly when the data set has a column and a line, and
    the medication count is the number of lines; a load that returned
    [False] has entered no record. *)
Theorem load_data_result_and_frame (to_numeric : string -> float)
    (before : Raw.MedicationProcessor)
    (header : list string) (lines : list (list Raw.cell)) :
  let after := Raw.load_data to_numeric before (Ok (Raw.frame header lines)) in
  (snd after = true <-> indexable (raw_frame to_numeric header lines) = true)
  /\ (Raw.is_data_loaded (fst after) = true <-> header <> [] /\ lines <> [])
  /\ Raw.get_medication_count (fst after) = List.length lines
  /\ (snd after = false ->
      Raw.medications_dict (fst after) = Raw.medications_dict before).
Proof.
  intros after. split; [apply raw_load_succeeds|].
  split; [apply raw_is_data_loaded|].
  split; [apply raw_count|apply raw_failed_load].
Qed.

Lemma load_data_result_and_frame_witness :
  snd (Raw.load_data sample_to_numeric Raw.__init__
         (Ok (Raw.frame ["Trade_Name"] [[Raw.Num (Raw.Fin (123 # 1)) "123"]])))
  = false
  /\ Raw.is_data_loaded
       (fst (Raw.load_data sample_to_numeric Raw.__init__
               (Ok (Raw.frame ["Trade_Name"]
                      [[Raw.Num (Raw.Fin (123 # 1)) "123"]]))))
     = true
  /\ Raw.medications_dict
       (fst (Raw.load_data sample_to_numeric Raw.__init__
               (Ok (Raw.frame ["Trade_Name"]
                      [[Raw.Num (Raw.Fin (123 # 1)) "123"]]))))
     = [].
Proof.
  destruct (load_data_result_and_frame sample_to_numeric Raw.__init__
              ["Trade_Name"] [[Raw.Num (Raw.Fin (123 # 1)) "123"]])
    as (Hok & Hloaded & _ & Hdict).
  assert (Hf : snd (Raw.load_data sample_to_numeric Raw.__init__
                      (Ok (Raw.frame ["Trade_Name"]
                             [[Raw.Num (Raw.Fin (123 # 1)) "123"]]))) = false)
    by (vm_compute; reflexivity).
  split; [exact Hf|]. split.
  - apply Hloaded. split; discriminate.
  - exact (Hdict Hf).
Defined.

(** X15.  [load_data] never clears what an earlier load left: a load that
    returns [True] on a processor that holds data already sets the count to
    the number of new lines and replaces the records of the row numbers the
    new data set has, but every other identifier still finds the record it
    found before, and the categories stay those of before when the new data
    set has no Category column. *)
Theorem load_data_keeps_earlier_entries (to_numeric : string -> float)
    (before : Raw.MedicationProcessor)
    (header : list string) (lines : list (list Raw.cell)) :
  let after := Raw.load_data to_numeric before (Ok (Raw.frame header lines)) in
  snd after = true ->
  Raw.get_medication_count (fst after) = List.length lines
  /\ (forall i, i < List.length lines ->
        Raw.get_medication_by_id (fst after) (Py.str_of_nat i)
        = nth_error (raw_records to_numeric header lines) i)
  /\ (forall key,
        (forall i, i < List.length lines -> key <> Py.str_of_nat i) ->
        Raw.get_medication_by_id (fst after) key
        = Raw.get_medication_by_id before key)
  /\ (~ In "Category" (map Py.strip header) ->
      Raw.get_categories (fst after) = Raw.get_categories before).
Proof.
  intros after Hok. split; [apply raw_count|].
  split; [intros i; now apply raw_reload_new|].
  split; [apply raw_reload_old|apply raw_load_categories].
Qed.

Lemma load_data_keeps_earlier_entries_witness :
  Raw.get_medication_by_id
    (fst (Raw.load_data sample_to_numeric
            (raw_loaded sample_to_numeric priced_header priced_lines)
            (Ok (Raw.frame numeric_header numeric_lines))))
    "1"
  = Raw.get_medication_by_id
      (raw_loaded sample_to_numeric priced_header priced_lines) "1".
Proof.
  apply (load_data_keeps_earlier_entries sample_to_numeric
           (raw_loaded sample_to_numeric priced_header priced_lines)
           numeric_header numeric_lines).
  - vm_compute. reflexivity.
  - intros i Hi. destruct i as [|i]; [discriminate|cbn in Hi; lia].
Defined.

(** ** Search on a table that loaded *)

Lemma raw_field_contains (med : Raw.medication) (key needle : string) :
  text_field key med ->
  Raw.field_contains med key needle
  = Ok (Py.str_in needle (Py.lower (raw_field med key))).
Proof.
  intros [s Hs]. unfold Raw.field_contains, Raw.getitem, raw_field.
  now rewrite Hs.
Qed.

Lemma raw_search_test (med : Raw.medication) (search : string) :
  (forall key, In key searched_fields -> text_field key med) ->
  orM (Raw.field_contains med "Trade_Name" (Py.lower search))
    (orM (Raw.field_contains med "Generic_Name" (Py.lower search))
       (orM (Raw.field_contains med "Category" (Py.lower search))
          (Raw.field_contains med "Indications_for_Use" (Py.lower search))))
  = Ok (raw_mentions search med).
Proof.
  intros Ht.
  rewrite !raw_field_contains by (apply Ht; cbn; tauto).
  unfold raw_mentions, searched_fields. cbn [existsb orM bind].
  repeat match goal with
         | |- context [Py.str_in ?a ?b] =>
             let x := fresh "b" in
             generalize (Py.str_in a b); intros x
         end.
  destruct b, b0, b1, b2; reflexivity.
Qed.

Lemma raw_search_filter (search : string) (l : list Raw.medication) :
  (forall med, In med l ->
     forall key, In key searched_fields -> text_field key med) ->
  filterM
    (fun med =>
       orM (Raw.field_contains med "Trade_Name" (Py.lower search))
         (orM (Raw.field_contains med "Generic_Name" (Py.lower search))
            (orM (Raw.field_contains med "Category" (Py.lower search))
               (Raw.field_contains med "Indications_for_Use" (Py.lower search)))))
    l
  = Ok (filter (raw_mentions search) l).
Proof.
  intros Ht. apply filterM_filter. intros med Hin.
  apply raw_search_test. now apply Ht.
Qed.

Lemma raw_category_test (d : Raw.DataFrame) (r : Raw.Row) (category : string)
    (i : nat) :
  category <> "" -> position "Category" (Raw.columns d) = Some i ->
  Raw.cell_is (nth i (Raw.cells r) Raw.NaN) category
  = String.eqb (raw_field (Raw.medication_of d r) "Category") category.
Proof.
  intros Hc Hp. unfold raw_field. cbn [Raw.medication_of Dict.get]. cbn.
  rewrite (raw_row_get_default d r "Category" i Hp).
  destruct (nth i (Raw.cells r) Raw.NaN) as [|s|x t]; cbn [Raw.cell_is];
    try reflexivity; symmetry; apply String.eqb_neq; congruence.
Qed.

Section RawSearch.
Variable to_numeric : string -> float.
Variable header : list string.
Variable lines : list (list Raw.cell).

Local Abbreviation d := (raw_frame to_numeric header lines).
Local Abbreviation self := (raw_loaded to_numeric header lines).
Local Abbreviation all := (raw_records to_numeric header lines).

Lemma raw_category_filter (category : string) :
  indexable d = true -> category <> "" ->
  In "Category" (map Py.strip header) ->
  exists q,
    Raw.select_equal d "Category" category = Ok q
    /\ Raw.records_of self q
       = filter (fun med => String.eqb (raw_field med "Category") category) all.
Proof.
  intros Hload Hc Hcol.
  destruct (position_In "Category" _ Hcol) as [i Hp].
  rewrite <- (raw_position to_numeric header lines "Category") in Hp
    by discriminate.
  unfold Raw.select_equal. rewrite Hp. eexists. split; [reflexivity|].
  rewrite (raw_records_of_loaded to_numeric header lines _ _ Hload)
    by (intros r Hr; now apply filter_In in Hr).
  unfold raw_records. apply map_filter_swap. intros r Hr.
  now apply raw_category_test.
Qed.

Lemma raw_get_medications_filtered (search category : string)
    (limit : option Z) :
  indexable d = true ->
  (search = "" \/
   forall med, In med all ->
     forall key, In key searched_fields -> text_field key med) ->
  (category = "" \/ In "Category" (map Py.strip header)) ->
  Raw.get_medications self search category limit
  = Ok (limited limit (filter (raw_wanted search category) all)).
Proof.
  intros Hload Htext Hcol. unfold Raw.get_medications, limited, raw_wanted.
  rewrite (raw_loaded_values to_numeric header lines Hload), raw_loaded_df.
  destruct (truthy category) eqn:Hc; cbn [negb andb orb].
  - destruct Hcol as [->|Hcol]; [discriminate Hc|].
    rewrite andb_false_r.
    destruct (raw_category_filter category Hload (proj1 (truthy_iff _) Hc) Hcol)
      as (q & -> & Hq).
    cbn [bind]. rewrite Hq. destruct (truthy search) eqn:Hs; cbn [negb orb].
    + destruct Htext as [->|Htext]; [discriminate Hs|].
      rewrite raw_search_filter
        by (intros med Hm; apply Htext; now apply filter_In in Hm).
      cbn [bind]. now rewrite filter_filter.
    + cbn [bind].
      rewrite (filter_ext _ (fun med => (raw_field med "Category" =? category)%string)
                 (fun med => andb_true_r _)).
      reflexivity.
  - destruct (truthy search) eqn:Hs; cbn [negb andb orb bind].
    + destruct Htext as [->|Htext]; [discriminate Hs|].
      rewrite raw_search_filter by exact Htext. cbn [bind]. reflexivity.
    + rewrite filter_all.
      destruct (limit_set limit) as [n|]; [|reflexivity].
      now rewrite limited_all.
Qed.

Lemma raw_get_medications_no_column (search category : string)
    (limit : option Z) :
  category <> "" -> ~ In "Category" (map Py.strip header) ->
  Raw.get_medications self search category limit = Raise (KeyError "Category").
Proof.
  intros Hc Hcol. apply truthy_iff in Hc.
  unfold Raw.get_medications. rewrite raw_loaded_df, Hc, andb_false_r.
  unfold Raw.select_equal.
  rewrite (raw_position to_numeric header lines "Category") by discriminate.
  rewrite (position_None _ _ Hcol). reflexivity.
Qed.

End RawSearch.

(** X9.  On a table that loaded, [get_medications] is a filter of the
    records in row order, cut at the limit, provided that, when a term is
    given, the trade name, generic name, category and indications of every
    record are texts (the code calls [.lower()] on them): a record is kept
    when its category is the given one letter for letter (when a category
    is given) and the term occurs, up to case, in one of the four fields
    (when a term is given).  The limit cuts in the same way with and
    without filters.  When a category is given and the data set has no
    Category column, the call raises [KeyError('Category')] whatever the
    term and the limit. *)
Theorem get_medications_filters (to_numeric : string -> float)
    (header : list string) (lines : list (list Raw.cell))
    (search category : string) (limit : option Z) :
  let self := raw_loaded to_numeric header lines in
  (snd (Raw.load_data to_numeric Raw.__init__ (Ok (Raw.frame header lines)))
   = true ->
   (search = "" \/
    forall med, In med (raw_records to_numeric header lines) ->
      forall key, In key searched_fields -> text_field key med) ->
   (category = "" \/ In "Category" (map Py.strip header)) ->
   Raw.get_medications self search category limit
   = Ok (limited limit
           (filter (raw_wanted search category)
              (raw_records to_numeric header lines))))
  /\ (category <> "" -> ~ In "Category" (map Py.strip header) ->
      Raw.get_medications self search category limit
      = Raise (KeyError "Category")).
Proof.
  intros self. split.
  - intros Hload. apply raw_load_succeeds in Hload.
    now apply raw_get_medications_filtered.
  - apply raw_get_medications_no_column.
Qed.

Lemma get_medications_filters_witness :
  Raw.get_medications (raw_loaded sample_to_numeric priced_header priced_lines)
    "LIP" "" (Some 5%Z)
  = Ok (limited (Some 5%Z)
          (filter (raw_wanted "LIP" "")
             (raw_records sample_to_numeric priced_header priced_lines))).
Proof.
  apply (proj1 (get_medications_filters sample_to_numeric priced_header
                  priced_lines "LIP" "" (Some 5%Z))).
  - vm_compute. reflexivity.
  - right. intros med Hmed key Hkey.
    vm_compute in Hmed. unfold searched_fields in Hkey. cbn [In] in Hkey.
    unfold text_field.
    destruct Hmed as [<-|[<-|[]]];
      destruct Hkey as [<-|[<-|[<-|[<-|[]]]]]; eexists; reflexivity.
  - now left.
Defined.

(** ** The answer to a condition on a table that loaded *)

Lemma raw_pad_length (n : nat) (cs : list Raw.cell) :
  List.length (Raw.pad n cs) = n.
Proof.
  unfold Raw.pad. rewrite length_firstn, length_app, repeat_length. lia.
Qed.

Section RawCells.
Variable to_numeric : string -> float.
Variable header : list string.
Variable lines : list (list Raw.cell).

Local Abbreviation d := (raw_frame to_numeric header lines).
Local Abbreviation self := (raw_loaded to_numeric header lines).
Local Abbreviation all := (raw_records to_numeric header lines).

Lemma raw_cells (r : Raw.Row) :
  In r (Raw.body d) ->
  List.length (Raw.cells r) = List.length header
  /\ forall c, In c (Raw.cells r) -> c <> Raw.NaN.
Proof.
  assert (H : forall r0, In r0 (Raw.body (Raw.fillna (Raw.frame header lines))) ->
            List.length (Raw.cells r0) = List.length header
            /\ forall c, In c (Raw.cells r0) -> c <> Raw.NaN).
  { intros r0 Hin. unfold Raw.fillna, Raw.frame in Hin. cbn [Raw.body] in Hin.
    rewrite map_map in Hin. apply in_map_iff in Hin as ([i cs] & <- & _).
    cbn [Raw.cells]. split.
    - now rewrite length_map, raw_pad_length.
    - intros c Hc. apply in_map_iff in Hc as (c0 & <- & _).
      destruct c0; discriminate. }
  unfold raw_frame, Raw.clean. cbn [Raw.columns Raw.body].
  destruct (Raw.has_column _ "Price"); cbn [Raw.body]; [|apply H].
  intros Hin. apply in_map_iff in Hin as (r0 & <- & Hin). cbn [Raw.cells].
  now apply H.
Qed.

(** On a table that loaded the category of every record is a text. *)
Lemma raw_category_text (r : Raw.Row) :
  indexable d = true -> In r (Raw.body d) ->
  exists s, Raw.row_get_default d r "Category" = Raw.Str s.
Proof.
  intros Hload Hin. unfold Raw.row_get_default, Raw.row_get.
  destruct (position "Category" (Raw.columns d)) as [i|] eqn:Hp;
    cbn [option_map]; [|now exists ""].
  destruct (raw_cells r Hin) as [Hlen Hnan].
  assert (Hi : i < List.length (Raw.cells r)).
  { rewrite Hlen, <- (length_map Py.strip).
    rewrite (raw_position to_numeric header lines "Category") in Hp
      by discriminate.
    now apply position_lt in Hp. }
  pose proof (Hnan _ (nth_In (Raw.cells r) Raw.NaN Hi)) as Hc.
  unfold indexable, column_all in Hload. rewrite Hp in Hload.
  apply andb_true_iff in Hload as [Hload _].
  apply andb_true_iff in Hload as [Hload _].
  rewrite forallb_forall in Hload.
  specialize (Hload (nth i (Raw.cells r) Raw.NaN)).
  destruct (nth i (Raw.cells r) Raw.NaN) as [|s|x t] eqn:E;
    [congruence|now exists s|].
  exfalso. assert (Hf : negb (Raw.is_number (Raw.Num x t)) = true).
  { apply Hload. unfold Raw.at_column. apply in_map_iff. exists r.
    split; [exact E|exact Hin]. }
  discriminate Hf.
Qed.

Lemma raw_condition_filter (condition : string) :
  indexable d = true ->
  (forall med, In med all -> text_field "Indications_for_Use" med) ->
  filterM
    (fun med =>
       orM (Raw.field_contains med "Category" (Py.lower condition))
         (Raw.field_contains med "Indications_for_Use" (Py.lower condition)))
    all
  = Ok (filter (raw_treats condition) all).
Proof.
  intros Hload Htext. apply filterM_filter. intros med Hin.
  assert (Hc : text_field "Category" med).
  { unfold raw_records in Hin. apply in_map_iff in Hin as (r & <- & Hr).
    destruct (raw_category_text r Hload Hr) as [s Hs].
    exists s. cbn [Raw.medication_of Dict.get]. cbn. now rewrite Hs. }
  rewrite !raw_field_contains by (try exact Hc; now apply Htext).
  unfold raw_treats, orM. cbn [bind].
  now destruct (Py.str_in _ _).
Qed.

(** The listing appends to the response it is given. *)
Lemma raw_listing_appends (meds : list Raw.medication) :
  (forall m, In m meds -> In m all) ->
  forall response : string,
  exists s,
    fold_left
      (fun acc med =>
         response <- acc ;;
         t <- Raw.fmt med "Trade_Name" ;;
         g <- Raw.fmt med "Generic_Name" ;;
         let response := response ++ "**" ++ t ++ "** (" ++ g ++ ")" ++ LF in
         i <- Raw.fmt med "Indications_for_Use" ;;
         let response := response ++ "• " ++ i ++ LF in
         p <- Raw.fmt med "Price" ;;
         Ok (response ++ "• Price: " ++ p ++ LF ++ LF))
      meds (Ok response) = Ok (response ++ s).
Proof.
  induction meds as [|m meds IH]; intros H response.
  - exists "". cbn [fold_left]. f_equal.
    induction response as [|c r IHr]; cbn; [reflexivity|now rewrite <- IHr].
  - destruct (in_map_iff (Raw.medication_of d) (Raw.body d) m) as [Hm _].
    destruct (Hm (H m (or_introl eq_refl))) as (r & <- & _).
    cbn [fold_left].
    change (Raw.fmt (Raw.medication_of d r) "Trade_Name")
      with (@Ok string (Raw.cell_str (Raw.row_get_default d r "Trade_Name"))).
    change (Raw.fmt (Raw.medication_of d r) "Generic_Name")
      with (@Ok string (Raw.cell_str (Raw.row_get_default d r "Generic_Name"))).
    change (Raw.fmt (Raw.medication_of d r) "Indications_for_Use")
      with (@Ok string
              (Raw.cell_str (Raw.row_get_default d r "Indications_for_Use"))).
    change (Raw.fmt (Raw.medication_of d r) "Price")
      with (@Ok string (Raw.cell_str (Raw.row_get_default d r "Price"))).
    cbn [bind].
    match goal with
    | |- context [fold_left _ meds (Ok ?r1)] =>
        destruct (IH (fun m' Hm' => H m' (or_intror Hm')) r1) as [s Hs]
    end.
    cbv beta iota zeta in Hs |- *. rewrite Hs.
    eexists. rewrite !append_assoc. reflexivity.
Qed.

Lemma raw_category_response_none (condition : string) :
  indexable d = true ->
  (forall med, In med all -> text_field "Indications_for_Use" med) ->
  filter (raw_treats condition) all = [] ->
  Raw._generate_category_response self condition
  = Ok ("I couldn't find any medications specifically for '" ++ condition
        ++ "' in our database. Please try a different search term or consult with your healthcare provider.").
Proof.
  intros Hload Htext Hnone. unfold Raw._generate_category_response.
  rewrite (raw_loaded_values to_numeric header lines Hload).
  rewrite (raw_condition_filter condition Hload Htext), Hnone. reflexivity.
Qed.

Lemma raw_category_response_some (condition : string) :
  indexable d = true ->
  (forall med, In med all -> text_field "Indications_for_Use" med) ->
  filter (raw_treats condition) all <> [] ->
  exists listing,
    Raw._generate_category_response self condition
    = Ok ("Here are medications that might be used for " ++ condition ++ ":"
          ++ LF ++ LF ++ listing).
Proof.
  intros Hload Htext Hsome. unfold Raw._generate_category_response.
  rewrite (raw_loaded_values to_numeric header lines Hload).
  rewrite (raw_condition_filter condition Hload Htext). cbn [bind].
  destruct (filter (raw_treats condition) all) as [|m matching] eqn:Hf;
    [congruence|].
  destruct (raw_listing_appends (firstn 5 (m :: matching))) with
    (response := "Here are medications that might be used for " ++ condition
                 ++ ":" ++ LF ++ LF) as [s Hs].
  { intros m' Hm'. apply In_firstn in Hm'. rewrite <- Hf in Hm'.
    now apply filter_In in Hm'. }
  cbv beta iota zeta in Hs |- *. rewrite Hs. cbn [bind].
  destruct (5 <? List.length (m :: matching))%nat; eexists;
    rewrite !append_assoc; reflexivity.
Qed.

End RawCells.

(** X17.  On a table that loaded and whose indications are texts, the
    answer to a condition raises nothing, and it is the apology that names
    the condition exactly when no record has the condition, up to case, in
    its category or in its indications; otherwise it opens with the
    heading that names the condition, followed by the listing.  (The
    category of every record is a text once the load has succeeded; on
    indications that are numbers the code raises.) *)
Theorem category_response_found_or_not (to_numeric : string -> float)
    (header : list string) (lines : list (list Raw.cell)) (condition : string) :
  let self := raw_loaded to_numeric header lines in
  let matching :=
    filter (raw_treats condition) (raw_records to_numeric header lines) in
  snd (Raw.load_data to_numeric Raw.__init__ (Ok (Raw.frame header lines)))
  = true ->
  (forall med, In med (raw_records to_numeric header lines) ->
     text_field "Indications_for_Use" med) ->
  (matching = [] ->
   Raw._generate_category_response self condition
   = Ok ("I couldn't find any medications specifically for '" ++ condition
         ++ "' in our database. Please try a different search term or consult with your healthcare provider."))
  /\ (matching <> [] ->
      exists listing,
        Raw._generate_category_response self condition
        = Ok ("Here are medications that might be used for " ++ condition ++ ":"
              ++ LF ++ LF ++ listing)).
Proof.
  intros self matching Hload Htext. apply raw_load_succeeds in Hload. split.
  - now apply raw_category_response_none.
  - now apply raw_category_response_some.
Qed.

Lemma category_response_found_or_not_witness :
  Raw._generate_category_response
    (raw_loaded sample_to_numeric priced_header priced_lines) "fever"
  = Ok ("I couldn't find any medications specifically for '" ++ "fever"
        ++ "' in our database. Please try a different search term or consult with your healthcare provider.").
Proof.
  apply (category_response_found_or_not sample_to_numeric priced_header
           priced_lines "fever").
  - vm_compute. reflexivity.
  - intros med Hmed. vm_compute in Hmed. unfold text_field.
    destruct Hmed as [<-|[<-|[]]]; eexists; reflexivity.
  - vm_compute. reflexivity.
Defined.
